(** * Si5351 clock-generator driver: model and verified properties

    A shallow embedding of [src/si5351.c] (with [include/si5351.h]).

    - 8/32-bit unsigned integers are [Z] with the wrap-around written out
      ([uint8], [wrap32]).
    - [float] is IEEE-754 binary32 and [double] binary64, both taken from
      the Standard Library's executable specification [SpecFloat]
      (round to nearest, ties to even).  Every floating-point expression
      is evaluated in the precision of its C type (FLT_EVAL_METHOD 0).
    - The fixed-size arrays of [si5351_t] are lists read and updated by
      index.
    - Register writes through the injected [write] callback are recorded
      in order as a list of (register, value) pairs; logging is not
      modelled. *)

From Stdlib Require Import ZArith Zpower Bool List Lia Lqa QArith Qabs.
From Stdlib Require Import Floats.SpecFloat.
From stdpp Require Import base list.
Import ListNotations.

Open Scope Z_scope.

(** ** Machine integers *)

Definition wrap32 (n : Z) : Z := n mod 2 ^ 32.
Definition uint8 (n : Z) : Z := n mod 2 ^ 8.

(** ** Constants of [si5351.h] *)

Definition SI5351_CLOCKS : Z := 8.
Definition SI5351_PLLS : Z := 2.
Definition SI5351_MIN_FREQ : Z := 8000.
Definition SI5351_MAX_FREQ : Z := 150000000.
Definition SI5351_VCO_MIN : Z := 600000000.
Definition SI5351_VCO_MAX : Z := 900000000.
Definition SI5351_CLOCK_ALL : Z := -1.

Definition SI5351_REG_OE : Z := 3.
Definition SI5351_REG_CLK0_CONTROL : Z := 16.
Definition SI5351_REG_CLK3_0_DISABLE_STATE : Z := 24.
Definition SI5351_REG_CLK7_4_DISABLE_STATE : Z := 25.
Definition SI5351_REG_MSN_PLL_BASE : Z := 26.
Definition SI5351_REG_CLK_SYNTH_BASE : Z := 42.
Definition SI5351_REG_PHASE_BASE : Z := 165.
Definition SI5351_REG_CRYSTAL_INTERNAL_LOAD_CAPACITANCE : Z := 183.

Inductive si5351_disable_t :=
| SI5351_DISABLE_LOW
| SI5351_DISABLE_HIGH
| SI5351_DISABLE_TRISTATE
| SI5351_DISABLE_NEVER.

Definition disable_value (ds : si5351_disable_t) : Z :=
  match ds with
  | SI5351_DISABLE_LOW => 0
  | SI5351_DISABLE_HIGH => 1
  | SI5351_DISABLE_TRISTATE => 2
  | SI5351_DISABLE_NEVER => 3
  end.

Inductive si5351_PLL_t := SI5351_PLL_A | SI5351_PLL_B.

Definition pll_value (p : si5351_PLL_t) : Z :=
  match p with SI5351_PLL_A => 0 | SI5351_PLL_B => 1 end.

Inductive si5351_crystal_load_t :=
| SI5351_CRYSTAL_LOAD_6PF
| SI5351_CRYSTAL_LOAD_8PF
| SI5351_CRYSTAL_LOAD_10PF.

Definition crystal_load_value (cl : si5351_crystal_load_t) : Z :=
  match cl with
  | SI5351_CRYSTAL_LOAD_6PF => Z.shiftl 1 6
  | SI5351_CRYSTAL_LOAD_8PF => Z.shiftl 2 6
  | SI5351_CRYSTAL_LOAD_10PF => Z.shiftl 3 6
  end.

Definition SI5351_CRYSTAL_FREQ_25MHZ : Z := 25000000.
Definition SI5351_CRYSTAL_FREQ_27MHZ : Z := 27000000.

(** ** Floating point

    [float] values are [spec_float]s of precision 24 and [double] values
    of precision 53.  Comparisons ([SFltb], [SFleb]) and [SFabs] do not
    depend on the format. *)

Module F32.
Definition prec : Z := 24.
Definition emax : Z := 128.
Definition of_Z (n : Z) : spec_float := binary_normalize prec emax n 0 false.
Definition div : spec_float -> spec_float -> spec_float := SFdiv prec emax.
Definition sub : spec_float -> spec_float -> spec_float := SFsub prec emax.
End F32.

Module F64.
Definition prec : Z := 53.
Definition emax : Z := 1024.
Definition of_Z (n : Z) : spec_float := binary_normalize prec emax n 0 false.
Definition div : spec_float -> spec_float -> spec_float := SFdiv prec emax.
Definition add : spec_float -> spec_float -> spec_float := SFadd prec emax.

(** The cast [(uint32_t) x]: truncation toward zero.  C leaves the cast
    undefined when the truncated value does not fit ([None]). *)
Definition to_uint32 (x : spec_float) : option Z :=
  match x with
  | S754_zero _ => Some 0
  | S754_finite s m e =>
      let t := Z.shiftl (Zpos m) e in
      if s then (if t =? 0 then Some 0 else None)
      else if t <? 2 ^ 32 then Some t else None
  | _ => None
  end.
End F64.

(** The exact rational value of a finite float (0 for the others). *)
Definition SF2Q (x : spec_float) : Q :=
  match x with
  | S754_finite s m e =>
      let z := if s then Zneg m else Zpos m in
      if 0 <=? e then (z * 2 ^ e) # 1 else z # Z.to_pos (2 ^ (- e))
  | _ => 0%Q
  end.

Definition Qltb (x y : Q) : bool := negb (Qle_bool y x).

(** ** [farey_fraction] (si5351.c, lines 19-51) *)

(** The test [f < ((float) n)/d] of the loop. *)
Definition below_fraction (f : spec_float) (n d : Z) : bool :=
  SFltb f (F32.div (F32.of_Z n) (F32.of_Z d)).

(** [fabs(f - ((float) n)/d)]: the difference is a [float]; its promotion
    to [double] for [fabs] is exact and keeps the order. *)
Definition abs_error (f : spec_float) (n d : Z) : spec_float :=
  SFabs (F32.sub f (F32.div (F32.of_Z n) (F32.of_Z d))).

(** The [while (1)] loop; it leaves through [break] with the final bounds
    [a/b] and [c/d].  [fuel] bounds the number of times the loop head is
    reached; [None] means the fuel ran out. *)
Fixpoint farey_loop (fuel : nat) (f : spec_float) (max_denominator a b c d : Z)
  : option (Z * Z * Z * Z) :=
  match fuel with
  | O => None
  | S fuel' =>
      let mediant_num := wrap32 (a + c) in
      let mediant_den := wrap32 (b + d) in
      if max_denominator <? mediant_den then Some (a, b, c, d)
      else if below_fraction f mediant_num mediant_den
           then farey_loop fuel' f max_denominator a b mediant_num mediant_den
           else farey_loop fuel' f max_denominator mediant_num mediant_den c d
  end.

(** The guard [f <= 0 || f >= 1 || max_denominator <= 1]. *)
Definition farey_degenerate (f : spec_float) (max_denominator : Z) : bool :=
  SFleb f (F32.of_Z 0) || SFleb (F32.of_Z 1) f || (max_denominator <=? 1).

(** The final choice between the two bounds. *)
Definition farey_select (f : spec_float) (bounds : Z * Z * Z * Z) : Z * Z :=
  let '(a, b, c, d) := bounds in
  if SFltb (abs_error f a b) (abs_error f c d) then (a, b) else (c, d).

Definition farey_fraction (fuel : nat) (f : spec_float) (max_denominator : Z)
  : option (Z * Z) :=
  if farey_degenerate f max_denominator then Some (0, 1)
  else match farey_loop fuel f max_denominator 0 1 1 1 with
       | None => None
       | Some bounds => Some (farey_select f bounds)
       end.

(** ** [si5351_calc_multisynth] (si5351.c, lines 53-69) *)

(** The loop of [farey_fraction] reaches its head at most
    [max_denominator] times when called with 1048575 (lemma
    [farey_loop_terminates]). *)
Definition farey_fuel : nat := Z.to_nat 1048575.

(** [((float)(f1) / f2) - pll_mult], in single precision. *)
Definition fractional_part (f1 f2 pll_mult : Z) : spec_float :=
  F32.sub (F32.div (F32.of_Z f1) (F32.of_Z f2)) (F32.of_Z pll_mult).

(** [None]: the integer division [f1 / f2] by zero, which C leaves
    undefined (or the approximation did not return). *)
Definition si5351_calc_multisynth (f1 f2 : Z) : option (Z * Z * Z) :=
  if f2 =? 0 then None
  else
    let pll_mult := f1 / f2 in
    match farey_fraction farey_fuel (fractional_part f1 f2 pll_mult) 1048575 with
    | None => None
    | Some (pll_num, pll_den) =>
        let q := wrap32 (128 * pll_num) / pll_den in
        Some (wrap32 (wrap32 (Z.shiftl pll_mult 7) + q - 512),
              wrap32 (wrap32 (Z.shiftl pll_num 7) - wrap32 (pll_den * q)),
              pll_den)
    end.

(** ** The device state [si5351_t]

    [dev], [write] and [log] are the injected capabilities; they are not
    fields of the model.  Enumerations are stored as their integer
    values, [bool] as [bool]. *)

Record si5351_t := mk_si5351 {
  crystal_freq : Z;
  crystal_load : Z;
  freq : list Z;          (* uint32_t freq[SI5351_CLOCKS] *)
  phase : list Z;         (* uint32_t phase[SI5351_CLOCKS] *)
  pll : list Z;           (* si5351_PLL_t pll[SI5351_CLOCKS] *)
  clk_pll : list Z;       (* uint8_t clk_pll[SI5351_PLLS] *)
  clk_dis : list Z;       (* si5351_disable_t clk_dis[SI5351_CLOCKS] *)
  clk_invert : list Z;    (* uint8_t clk_invert[SI5351_CLOCKS] *)
  clk_drive : list Z;     (* si5351_clock_drive_t clk_drive[SI5351_CLOCKS] *)
  vco_freq : list Z;      (* uint32_t vco_freq[SI5351_PLLS] *)
  config : bool
}.

Definition set_freq (v : list Z) (s : si5351_t) : si5351_t :=
  mk_si5351 (crystal_freq s) (crystal_load s) v (phase s) (pll s) (clk_pll s)
            (clk_dis s) (clk_invert s) (clk_drive s) (vco_freq s) (config s).
Definition set_phase (v : list Z) (s : si5351_t) : si5351_t :=
  mk_si5351 (crystal_freq s) (crystal_load s) (freq s) v (pll s) (clk_pll s)
            (clk_dis s) (clk_invert s) (clk_drive s) (vco_freq s) (config s).
Definition set_pll (v : list Z) (s : si5351_t) : si5351_t :=
  mk_si5351 (crystal_freq s) (crystal_load s) (freq s) (phase s) v (clk_pll s)
            (clk_dis s) (clk_invert s) (clk_drive s) (vco_freq s) (config s).
Definition set_clk_pll (v : list Z) (s : si5351_t) : si5351_t :=
  mk_si5351 (crystal_freq s) (crystal_load s) (freq s) (phase s) (pll s) v
            (clk_dis s) (clk_invert s) (clk_drive s) (vco_freq s) (config s).
Definition set_clk_dis (v : list Z) (s : si5351_t) : si5351_t :=
  mk_si5351 (crystal_freq s) (crystal_load s) (freq s) (phase s) (pll s) (clk_pll s)
            v (clk_invert s) (clk_drive s) (vco_freq s) (config s).
Definition set_clk_invert (v : list Z) (s : si5351_t) : si5351_t :=
  mk_si5351 (crystal_freq s) (crystal_load s) (freq s) (phase s) (pll s) (clk_pll s)
            (clk_dis s) v (clk_drive s) (vco_freq s) (config s).
Definition set_vco_freq (v : list Z) (s : si5351_t) : si5351_t :=
  mk_si5351 (crystal_freq s) (crystal_load s) (freq s) (phase s) (pll s) (clk_pll s)
            (clk_dis s) (clk_invert s) (clk_drive s) v (config s).
Definition set_config (v : bool) (s : si5351_t) : si5351_t :=
  mk_si5351 (crystal_freq s) (crystal_load s) (freq s) (phase s) (pll s) (clk_pll s)
            (clk_dis s) (clk_invert s) (clk_drive s) (vco_freq s) v.

(** [a[i]] and [a[i] = v] for an index held in an integer variable. *)
Definition at_index (a : list Z) (i : Z) : Z := default 0 (a !! Z.to_nat i).
Definition store (a : list Z) (i v : Z) : list Z := <[Z.to_nat i := v]> a.

(** The arrays have the sizes of their declarations. *)
Definition well_formed (s : si5351_t) : Prop :=
  length (freq s) = 8%nat /\ length (phase s) = 8%nat /\
  length (pll s) = 8%nat /\ length (clk_pll s) = 2%nat /\
  length (clk_dis s) = 8%nat /\ length (clk_invert s) = 8%nat /\
  length (clk_drive s) = 8%nat /\ length (vco_freq s) = 2%nat.

(** ** Results of the driver's functions

    Every [return -1] of the driver is preceded by its own log message;
    [error] names the return statement that was taken:
    - [PllMasterOutOfRange]: "Clock %d out of range for PLL %d"
    - [FrequencyOutOfRange]: "Frequency %lu out of range"
    - [OmdOutOfRange]: "Calculated OMD %ld out of range"
    - [VcoOutOfRange]: "Calculated VCO frequency %lu out of eange"
    - [PllStageOutOfRange]: "PLL %d out of range"
    - [OutputIndexOutOfRange]: "Clock output out of range"
    - [DisableStateIndexOutOfRange]: "Clock %d invalid" *)

Inductive error :=
| PllMasterOutOfRange
| FrequencyOutOfRange
| OmdOutOfRange
| VcoOutOfRange
| PllStageOutOfRange
| OutputIndexOutOfRange
| DisableStateIndexOutOfRange.

(** [Success] is [return 0], [Failure e] is [return -1]; [Undefined] is an
    execution that C leaves undefined (division by zero, a cast out of
    range) or that does not return. *)
Inductive outcome :=
| Success
| Failure (e : error)
| Undefined.

Definition ret_code (o : outcome) : option Z :=
  match o with
  | Success => Some 0
  | Failure _ => Some (-1)
  | Undefined => None
  end.

(** ** A state, trace and early-return monad for [si5351_configure] *)

Definition reg_write : Type := Z * Z.

Inductive flow (A : Type) :=
| Next (a : A)
| Return (o : outcome).
Arguments Next {A} a.
Arguments Return {A} o.

Definition M (A : Type) : Type := si5351_t -> flow A * si5351_t * list reg_write.

Definition ret {A} (a : A) : M A := fun s => (Next a, s, []).

Definition bind {A B} (m : M A) (k : A -> M B) : M B :=
  fun s =>
    match m s with
    | (Next a, s1, w1) =>
        match k a s1 with
        | (r, s2, w2) => (r, s2, w1 ++ w2)
        end
    | (Return o, s1, w1) => (Return o, s1, w1)
    end.

Definition get : M si5351_t := fun s => (Next s, s, []).
Definition modify (f : si5351_t -> si5351_t) : M unit := fun s => (Next tt, f s, []).
Definition return_ {A} (o : outcome) : M A := fun s => (Return o, s, []).

(** [si5351->write(si5351->dev, reg, val)] with [uint8_t reg, val]. *)
Definition write (reg val : Z) : M unit :=
  fun s => (Next tt, s, [(uint8 reg, uint8 val)]).

Declare Scope si_scope.
Delimit Scope si_scope with si.
Notation "'do' x <- m ; k" := (bind m (fun x => k))
  (at level 10, x name, m at level 100, k at level 200) : si_scope.
Notation "m ;; k" := (bind m (fun _ => k))
  (at level 100, k at level 200, right associativity) : si_scope.

(** [for (int i = start; i < start + count; i++) body(i)] *)
Fixpoint for_loop (body : Z -> M unit) (i : Z) (count : nat) : M unit :=
  match count with
  | O => ret tt
  | S count' => bind (body i) (fun _ => for_loop body (i + 1) count')
  end.

(** ** [si5351_configure] (si5351.c, lines 72-197) *)

(** Lines 111-114: [while (freq < 500000) { freq *= 2; vco_ri++; }] with
    [uint32_t freq] and [uint8_t vco_ri]. *)
Fixpoint pll_prescale (fuel : nat) (freq vco_ri : Z) : option (Z * Z) :=
  match fuel with
  | O => None
  | S fuel' =>
      if freq <? 500000
      then pll_prescale fuel' (wrap32 (freq * 2)) (uint8 (vco_ri + 1))
      else Some (freq, vco_ri)
  end.

(** Line 116: [(uint32_t)((600000000.0/freq) + 3) & ~1], the quotient and
    the sum in double precision. *)
Definition pll_omd_quotient (freq : Z) : spec_float :=
  F64.add (F64.div (F64.of_Z 600000000) (F64.of_Z freq)) (F64.of_Z 3).

Definition pll_omd_div (freq : Z) : option Z :=
  match F64.to_uint32 (pll_omd_quotient freq) with
  | Some t => Some (Z.land t (wrap32 (Z.lnot 1)))
  | None => None
  end.

(** Lines 133-140: the eight parameter registers of PLL [i]. *)
Definition write_pll_params (i : Z) (p : Z * Z * Z) : M unit :=
  let '(pll0, pll1, pll2) := p in
  let base := SI5351_REG_MSN_PLL_BASE + i * 8 in
  (write base (Z.land (Z.shiftr pll2 8) 0xFF) ;;
   write (base + 1) (Z.land pll2 0xFF) ;;
   write (base + 2) (Z.land (Z.shiftr pll0 16) 0x03) ;;
   write (base + 3) (Z.land (Z.shiftr pll0 8) 0xFF) ;;
   write (base + 4) (Z.land pll0 0xFF) ;;
   write (base + 5) (Z.lor (Z.shiftl (Z.land (Z.shiftr pll2 16) 0x0F) 4)
                           (Z.land (Z.shiftr pll1 16) 0x0F)) ;;
   write (base + 6) (Z.land (Z.shiftr pll1 8) 0xFF) ;;
   write (base + 7) (Z.land pll1 0xFF))%si.

(** Lines 116-126, from the pre-scaled frequency [freq] on: the OMD and
    VCO checks.  [Next vco] when both pass. *)
Definition vco_plan (freq : Z) : flow Z :=
  match pll_omd_div freq with
  | None => Return Undefined
  | Some omd_div =>
      if (omd_div <? 8) || (2047 <? omd_div) then Return (Failure OmdOutOfRange)
      else
        let vco := wrap32 (freq * omd_div) in
        if (vco <? SI5351_VCO_MIN) || (SI5351_VCO_MAX <? vco)
        then Return (Failure VcoOutOfRange)
        else Next vco
  end.

(** Lines 99-126: the checks of PLL [i] and its VCO frequency.  Nothing is
    written and nothing assigned before line 127. *)
Definition pll_plan (s : si5351_t) (i : Z) : flow Z :=
  let master := at_index (clk_pll s) i in
  if SI5351_CLOCKS <=? master then Return (Failure PllMasterOutOfRange)
  else
    let freq0 := at_index (freq s) master in
    if (freq0 <? SI5351_MIN_FREQ) || (SI5351_MAX_FREQ <? freq0)
    then Return (Failure FrequencyOutOfRange)
    else
      match pll_prescale 64 freq0 0 with
      | None => Return Undefined
      | Some (freq1, _) => vco_plan freq1
      end.

(** Lines 96-141: the body of the loop over the PLLs. *)
Definition configure_pll (i : Z) : M unit :=
  (do s <- get;
   match pll_plan s i with
   | Return o => return_ o
   | Next vco =>
       modify (fun s => set_vco_freq (store (vco_freq s) i vco) s) ;;
       match si5351_calc_multisynth vco (crystal_freq s) with
       | None => return_ Undefined
       | Some p => write_pll_params i p
       end
   end)%si.

(** Lines 162-166:
    [while ((freq < 500000) && (omd_div < 128)) { omd_div += 1; freq *= 2; }] *)
Fixpoint clk_prescale (fuel : nat) (freq omd_div : Z) : option (Z * Z) :=
  match fuel with
  | O => None
  | S fuel' =>
      if (freq <? 500000) && (omd_div <? 128)
      then clk_prescale fuel' (wrap32 (freq * 2)) (wrap32 (omd_div + 1))
      else Some (freq, omd_div)
  end.

(** Lines 172-179: the eight multisynth registers of clock [i]. *)
Definition write_clk_params (i omd_div : Z) (p : Z * Z * Z) : M unit :=
  let '(pll0, pll1, pll2) := p in
  let base := SI5351_REG_CLK_SYNTH_BASE + i * 8 in
  (write base (Z.land (Z.shiftr pll2 8) 0xFF) ;;
   write (base + 1) (Z.land pll2 0xFF) ;;
   write (base + 2) (Z.lor (Z.shiftl omd_div 4) (Z.land (Z.shiftr pll0 16) 0x03)) ;;
   write (base + 3) (Z.land (Z.shiftr pll0 8) 0xFF) ;;
   write (base + 4) (Z.land pll0 0xFF) ;;
   write (base + 5) (Z.lor (Z.land (Z.shiftr pll2 12) 0xF0)
                           (Z.land (Z.shiftr pll1 16) 0x0F)) ;;
   write (base + 6) (Z.land (Z.shiftr pll1 8) 0xFF) ;;
   write (base + 7) (Z.land pll1 0xFF))%si.

(** Line 186: the value of the clock control register. *)
Definition clk_control (s : si5351_t) (i : Z) : Z :=
  Z.lor (Z.lor (Z.lor (Z.land (Z.shiftl (at_index (pll s) i) 5) 0x20)
                      (if at_index (clk_invert s) i =? 0 then 0 else 0x10))
               0x0C)
        (Z.land (at_index (clk_drive s) i) 0x03).

(** Lines 146-169: the checks of clock [i] and its divider.  [Next None]
    is [continue]; nothing is written before line 172. *)
Definition clk_plan (s : si5351_t) (i : Z) : flow (option (Z * (Z * Z * Z))) :=
  if at_index (freq s) i =? 0 then Next None
  else if SI5351_PLLS <=? at_index (pll s) i
  then Return (Failure PllStageOutOfRange)
  else
    let vco := at_index (vco_freq s) (at_index (pll s) i) in
    let freq0 := at_index (freq s) i in
    if (freq0 <? SI5351_MIN_FREQ) || (SI5351_MAX_FREQ <? freq0)
    then Return (Failure FrequencyOutOfRange)
    else
      match clk_prescale 129 freq0 0 with
      | None => Return Undefined
      | Some (freq1, omd_div) =>
          match si5351_calc_multisynth vco freq1 with
          | None => Return Undefined
          | Some p => Next (Some (omd_div, p))
          end
      end.

(** Lines 144-187: the body of the loop over the clocks. *)
Definition configure_clock (i : Z) : M unit :=
  (do s <- get;
   match clk_plan s i with
   | Return o => return_ o
   | Next None => ret tt
   | Next (Some (omd_div, p)) =>
       write_clk_params i omd_div p ;;
       write (SI5351_REG_PHASE_BASE + i) (Z.land (at_index (phase s) i) 0x7F) ;;
       write (SI5351_REG_CLK0_CONTROL + i) (clk_control s i)
   end)%si.

(** Lines 190-193: [if (si5351->freq[i] == 0) oe |= (1 << i)] over the
    clocks, with [uint8_t oe]. *)
Fixpoint output_enable (freqs : list Z) (i : Z) (count : nat) (oe : Z) : Z :=
  match count with
  | O => oe
  | S count' =>
      output_enable freqs (i + 1) count'
        (if at_index freqs i =? 0 then uint8 (Z.lor oe (Z.shiftl 1 i)) else oe)
  end.

(** Lines 80-83: the value of a disable-state register for the clocks
    [base .. base + 3]. *)
Definition disable_state (s : si5351_t) (base : Z) : Z :=
  Z.lor (Z.lor (Z.lor (Z.shiftl (at_index (clk_dis s) (base + 3)) 6)
                      (Z.shiftl (at_index (clk_dis s) (base + 2)) 4))
               (Z.shiftl (at_index (clk_dis s) (base + 1)) 2))
        (at_index (clk_dis s) base).

Definition configure_body : M unit :=
  (do s <- get;
   if negb (config s) then return_ Success
   else
     write SI5351_REG_CLK3_0_DISABLE_STATE (disable_state s 0) ;;
     write SI5351_REG_CLK7_4_DISABLE_STATE (disable_state s 4) ;;
     write SI5351_REG_OE 0xFF ;;
     for_loop (fun i => write (SI5351_REG_CLK0_CONTROL + i) 0x80) 0 8 ;;
     write SI5351_REG_CRYSTAL_INTERNAL_LOAD_CAPACITANCE (Z.lor 0x48 (crystal_load s)) ;;
     for_loop configure_pll 0 2 ;;
     for_loop configure_clock 0 8 ;;
     do s' <- get;
     write SI5351_REG_OE (output_enable (freq s') 0 8 0) ;;
     return_ Success)%si.

Definition run (m : M unit) (s : si5351_t) : outcome * si5351_t * list reg_write :=
  match m s with
  | (Next _, s', w) => (Success, s', w)
  | (Return o, s', w) => (o, s', w)
  end.

Definition si5351_configure (s : si5351_t) : outcome * si5351_t * list reg_write :=
  run configure_body s.

(** ** The public operations (si5351.c, lines 209-291)

    Arguments are values of their C types: [output] is a [uint8_t],
    [freq] and [phase] are [uint32_t], [clock] is an [int]. *)

(** The state after [memset] and the five assignments of [si5351_init]. *)
Definition initial_state (cf : Z) (cl : si5351_crystal_load_t) : si5351_t :=
  mk_si5351 cf (crystal_load_value cl)
            (replicate 8 0) (replicate 8 0) (replicate 8 0) (replicate 2 0)
            (replicate 8 0) (replicate 8 0) (replicate 8 0) (replicate 2 0)
            true.

(** [si5351_init] returns [void]: the result of its configuration pass is
    dropped; [returned] only records that the call came back. *)
Definition returned (o : outcome) : bool :=
  match o with Undefined => false | _ => true end.

Definition si5351_init (cf : Z) (cl : si5351_crystal_load_t)
  : bool * si5351_t * list reg_write :=
  let '(o, s, w) := si5351_configure (initial_state cf cl) in (returned o, s, w).

(** Lines 249-256: the assignments of [si5351_set]. *)
Definition assign_output (s : si5351_t) (output : Z) (pll_sel : si5351_PLL_t)
    (freq_hz phase_val : Z) (invert pll_master : bool) : si5351_t :=
  let s := set_freq (store (freq s) output freq_hz) s in
  let s := set_phase (store (phase s) output phase_val) s in
  let s := set_clk_invert (store (clk_invert s) output (Z.b2z invert)) s in
  let s := set_pll (store (pll s) output (pll_value pll_sel)) s in
  if pll_master
  then set_clk_pll (store (clk_pll s) (pll_value pll_sel) output) s
  else s.

Definition si5351_set (s : si5351_t) (output : Z) (pll_sel : si5351_PLL_t)
    (freq_hz phase_val : Z) (invert pll_master : bool)
  : outcome * si5351_t * list reg_write :=
  if SI5351_CLOCKS <=? output then (Failure OutputIndexOutOfRange, s, [])
  else si5351_configure (assign_output s output pll_sel freq_hz phase_val invert pll_master).

Definition si5351_start_batch (s : si5351_t) : si5351_t := set_config false s.

Definition si5351_write_batch (s : si5351_t) : bool * si5351_t * list reg_write :=
  let '(o, s', w) := si5351_configure (set_config true s) in (returned o, s', w).

(** [for (int i = start; i < start + count; i++) a[i] = v] *)
Fixpoint store_range (a : list Z) (i : Z) (count : nat) (v : Z) : list Z :=
  match count with
  | O => a
  | S count' => store_range (store a i v) (i + 1) count' v
  end.

(** Lines 277-284: the assignments of [si5351_set_disabled] for a valid
    [clock]. *)
Definition assign_disabled (s : si5351_t) (clock : Z) (ds : si5351_disable_t)
  : si5351_t :=
  if clock =? SI5351_CLOCK_ALL
  then set_clk_dis (store_range (clk_dis s) 0 8 (disable_value ds)) s
  else set_clk_dis (store (clk_dis s) clock (disable_value ds)) s.

(** The result of the pass is dropped: [return 0]. *)
Definition si5351_set_disabled (s : si5351_t) (clock : Z) (ds : si5351_disable_t)
  : outcome * si5351_t * list reg_write :=
  if (clock =? SI5351_CLOCK_ALL) || ((0 <=? clock) && (clock <? SI5351_CLOCKS)) then
    let '(o, s', w) := si5351_configure (assign_disabled s clock ds) in
    (if returned o then Success else Undefined, s', w)
  else (Failure DisableStateIndexOutOfRange, s, []).

(** ** Exact comparisons

    [farey_fraction] decides every comparison in single precision.  The
    definitions below replay a run and tell whether each of its decisions
    is the one exact rational arithmetic on the value of [f] takes. *)

(** [f < n/d], exactly. *)
Definition exact_below (f : spec_float) (n d : Z) : bool :=
  Qltb (SF2Q f) (n # Z.to_pos d).

(** [|f - a/b| < |f - c/d|], exactly. *)
Definition exact_closer (f : spec_float) (a b c d : Z) : bool :=
  Qltb (Qabs (SF2Q f - (a # Z.to_pos b))) (Qabs (SF2Q f - (c # Z.to_pos d))).

Fixpoint farey_loop_exact (fuel : nat) (f : spec_float) (max_denominator a b c d : Z)
  : bool :=
  match fuel with
  | O => false
  | S fuel' =>
      let mediant_num := wrap32 (a + c) in
      let mediant_den := wrap32 (b + d) in
      if max_denominator <? mediant_den
      then Bool.eqb (SFltb (abs_error f a b) (abs_error f c d)) (exact_closer f a b c d)
      else
        Bool.eqb (below_fraction f mediant_num mediant_den)
                 (exact_below f mediant_num mediant_den) &&
        (if below_fraction f mediant_num mediant_den
         then farey_loop_exact fuel' f max_denominator a b mediant_num mediant_den
         else farey_loop_exact fuel' f max_denominator mediant_num mediant_den c d)
  end.

(** The run of [farey_fraction fuel f max_denominator] enters the loop,
    [f] is a value strictly between 0 and 1, and every comparison of the
    run is decided as in exact arithmetic. *)
Definition farey_exact (fuel : nat) (f : spec_float) (max_denominator : Z) : bool :=
  negb (farey_degenerate f max_denominator) &&
  Qltb 0 (SF2Q f) && Qltb (SF2Q f) 1 &&
  farey_loop_exact fuel f max_denominator 0 1 1 1.

(** The bounds kept by the search while no addition wraps around: two
    neighbouring fractions [a/b < c/d] of [0, 1] with denominators up to
    [D]. *)
Definition farey_inv (D a b c d : Z) : Prop :=
  0 <= a /\ 0 <= c /\ 1 <= b <= D /\ 1 <= d <= D /\
  a <= b /\ c <= d /\ b * c - a * d = 1.

(** Single-precision constants: the [float]s nearest to 0.3 and 0.95, and
    0.25 and 0.5, which are exact. *)
Definition f32_0_3 : spec_float := S754_finite false 10066330 (-25).
Definition f32_0_95 : spec_float := S754_finite false 15938355 (-24).
Definition f32_0_25 : spec_float := S754_finite false 8388608 (-25).
Definition f32_0_5 : spec_float := S754_finite false 8388608 (-24).

(** ** Specification vocabulary for the configuration pass *)

(** [s] is [s0] up to the derived VCO frequencies, the only field a pass
    assigns. *)
Definition same_settings (s0 s : si5351_t) : Prop :=
  exists v, s = set_vco_freq v s0.

(** What a pass started in state [s0] may write to the control and phase
    registers: a control register receives 0x80 (powered down) or the
    control value of its clock, a phase register the phase of its clock
    masked to seven bits. *)
Definition write_ok (s0 : si5351_t) (rw : reg_write) : Prop :=
  (forall i, 0 <= i < 8 -> fst rw = SI5351_REG_CLK0_CONTROL + i ->
             snd rw = 0x80 \/ snd rw = uint8 (clk_control s0 i)) /\
  (forall i, 0 <= i < 8 -> fst rw = SI5351_REG_PHASE_BASE + i ->
             snd rw = uint8 (Z.land (at_index (phase s0) i) 0x7F)).

(** A computation keeps the invariant [I] and writes only pairs that
    satisfy [W], whether it goes on or returns. *)
Definition holds {A} (I : si5351_t -> Prop) (W : reg_write -> Prop) (m : M A) : Prop :=
  forall s, I s ->
    match m s with
    | (_, s', w) => I s' /\ Forall W w
    end.

(** From a state that satisfies [P], a computation either goes on, in a
    state that satisfies [Q], or returns early with an outcome that
    satisfies [R]. *)
Definition steps (R : outcome -> Prop) (P : si5351_t -> Prop) (m : M unit)
    (Q : si5351_t -> Prop) : Prop :=
  forall s, P s ->
    match m s with
    | (Next _, s', _) => Q s'
    | (Return o, _, _) => R o
    end.

(** The spec's rounding of the PLL divider: the next even number. *)
Definition round_up_to_even (n : Z) : Z := n + n mod 2.

(** The frequency check of lines 104 and 156. *)
Definition freq_in_range (f : Z) : Prop := SI5351_MIN_FREQ <= f <= SI5351_MAX_FREQ.

(** Clock [i] passes the checks of its stage: it is off, or it has a PLL
    and a frequency in range. *)
Definition clk_valid (s : si5351_t) (i : Z) : Prop :=
  at_index (freq s) i = 0 \/
  (at_index (pll s) i < SI5351_PLLS /\ freq_in_range (at_index (freq s) i)).

(** ** Sequences of calls to the public operations *)

Inductive call :=
| Call_set (output : Z) (pll_sel : si5351_PLL_t) (freq_hz phase_val : Z)
           (invert pll_master : bool)
| Call_start_batch
| Call_write_batch
| Call_set_disabled (clock : Z) (ds : si5351_disable_t).

(** One call: whether it came back, the state and the writes it issued. *)
Definition run_call (c : call) (s : si5351_t) : bool * si5351_t * list reg_write :=
  match c with
  | Call_set output pll_sel freq_hz phase_val invert pll_master =>
      let '(o, s', w) := si5351_set s output pll_sel freq_hz phase_val invert pll_master in
      (returned o, s', w)
  | Call_start_batch => (true, si5351_start_batch s, [])
  | Call_write_batch => si5351_write_batch s
  | Call_set_disabled clock ds =>
      let '(o, s', w) := si5351_set_disabled s clock ds in (returned o, s', w)
  end.

(** A program: calls in sequence, up to the first one that does not come
    back. *)
Fixpoint run_calls (cs : list call) (s : si5351_t) : si5351_t * list reg_write :=
  match cs with
  | [] => (s, [])
  | c :: cs' =>
      match run_call c s with
      | (true, s1, w1) => let '(s2, w2) := run_calls cs' s1 in (s2, w1 ++ w2)
      | (false, s1, w1) => (s1, w1)
      end
  end.

(** The calls that change a setting. *)
Definition mutating (c : call) : bool :=
  match c with
  | Call_set _ _ _ _ _ _ | Call_set_disabled _ _ => true
  | _ => false
  end.

(** The setting a call leaves in the state, apart from any pass it
    triggers. *)
Definition setting (s : si5351_t) (c : call) : si5351_t :=
  match c with
  | Call_set output pll_sel freq_hz phase_val invert pll_master =>
      if SI5351_CLOCKS <=? output then s
      else assign_output s output pll_sel freq_hz phase_val invert pll_master
  | Call_set_disabled clock ds =>
      if (clock =? SI5351_CLOCK_ALL) || ((0 <=? clock) && (clock <? SI5351_CLOCKS))
      then assign_disabled s clock ds
      else s
  | Call_start_batch => si5351_start_batch s
  | Call_write_batch => s
  end.

Definition settings (cs : list call) (s : si5351_t) : si5351_t :=
  fold_left setting cs s.

(** The two drive-strength bits of a value written to a control
    register are 00. *)
Definition drive_bits_zero (rw : reg_write) : Prop :=
  forall i, 0 <= i < 8 -> fst rw = SI5351_REG_CLK0_CONTROL + i ->
            Z.land (snd rw) 0x03 = 0.

(** A value written to a phase register is the stored phase, modulo 128. *)
Definition phase_masked (s : si5351_t) (rw : reg_write) : Prop :=
  forall i, 0 <= i < 8 -> fst rw = SI5351_REG_PHASE_BASE + i ->
            snd rw = at_index (phase s) i mod 128.

(** Both PLLs have a master other than [output], with a frequency that
    can be planned: between 8 kHz and 112.5 MHz. *)
Definition masters_valid (s : si5351_t) (output : Z) : Prop :=
  forall i, 0 <= i < SI5351_PLLS ->
    0 <= at_index (clk_pll s) i < SI5351_CLOCKS /\
    at_index (clk_pll s) i <> output /\
    8000 <= at_index (freq s) (at_index (clk_pll s) i) <= 112500000.

(** Every clock other than [output] passes the checks of its stage. *)
Definition others_valid (s : si5351_t) (output : Z) : Prop :=
  forall j, 0 <= j < SI5351_CLOCKS -> j <> output -> clk_valid s j.

(** ** Vocabulary for the trace of a pass *)

(** Lines 80-93: the writes that every pass with auto-apply enabled starts
    with: the disable states, all outputs disabled, all clocks powered
    down, the crystal load. *)
Definition preamble (s : si5351_t) : list reg_write :=
  [(24, uint8 (disable_state s 0)); (25, uint8 (disable_state s 4)); (3, 255);
   (16, 128); (17, 128); (18, 128); (19, 128); (20, 128); (21, 128); (22, 128);
   (23, 128); (183, uint8 (Z.lor 0x48 (crystal_load s)))].

(** The registers of the two loops: clock control 16-23, PLL and
    multisynth parameters 26-105, phase offsets 165-172. *)
Definition stage_register (r : Z) : Prop :=
  16 <= r < 24 \/ 26 <= r < 106 \/ 165 <= r < 173.

Definition stage_write (rw : reg_write) : Prop :=
  stage_register (fst rw) /\ 0 <= snd rw < 256.

(** [s] is [s0] up to the values of the VCO frequencies. *)
Definition keeps_settings (s0 s : si5351_t) : Prop :=
  same_settings s0 s /\ length (vco_freq s) = length (vco_freq s0).

(** Lines 95-196: what follows the start of a pass, the two loops and the
    final write to the output-enable register. *)
Definition configure_stages : M unit :=
  (for_loop configure_pll 0 2 ;;
   for_loop configure_clock 0 8 ;;
   do s' <- get;
   write SI5351_REG_OE (output_enable (freq s') 0 8 0) ;;
   return_ Success)%si.

(** PLL [i] can be planned: its master is an output with a frequency
    between 8 kHz and 112.5 MHz. *)
Definition pll_plannable (s : si5351_t) (i : Z) : Prop :=
  at_index (clk_pll s) i < SI5351_CLOCKS /\
  8000 <= at_index (freq s) (at_index (clk_pll s) i) <= 112500000.

(** ** Reading a parameter block back

    The parameters held by the eight bytes of a block, in the layout of
    lines 133-140 and 172-179: byte 2 carries the two high bits of p1
    (and, for a clock, the R exponent from bit 4 up), byte 5 the high
    nibbles of p3 and p2. *)
Definition read_params (b : list Z) : Z * Z * Z :=
  (at_index b 2 mod 4 * 65536 + at_index b 3 * 256 + at_index b 4,
   at_index b 5 mod 16 * 65536 + at_index b 6 * 256 + at_index b 7,
   at_index b 5 / 16 * 65536 + at_index b 0 * 256 + at_index b 1).

Definition read_rdiv (b : list Z) : Z := at_index b 2 / 16.

(** ** The sample program (samples/esp32/main/main.c)

    The driver calls of [app_main]: initialisation for a 27 MHz crystal
    with a load of 8 pF, output 0 at 2 MHz as master of PLL A, output 1 at
    2 MHz on PLL A, inverted.  The return values of the calls are not
    used.  The set-up of the LED and of the I2C bus and the blink loop are
    not modelled; [si5351_write] sends each (register, value) pair over
    I2C and returns 0. *)
Definition app_main_calls : list call :=
  [Call_set 0 SI5351_PLL_A 2000000 0 false true;
   Call_set 1 SI5351_PLL_A 2000000 0 true false].

Definition app_main : si5351_t * list reg_write :=
  let '(_, s0, w0) := si5351_init SI5351_CRYSTAL_FREQ_27MHZ SI5351_CRYSTAL_LOAD_8PF in
  let '(s, w) := run_calls app_main_calls s0 in
  (s, w0 ++ w).

(** The last value written to register [reg] in a trace, if any. *)
Definition last_write (reg : Z) (w : list reg_write) : option Z :=
  fold_left (fun acc rw => if fst rw =? reg then Some (snd rw) else acc) w None.

(** The disable states of a state are values of [si5351_disable_t]. *)
Definition clk_dis_valid (s : si5351_t) : Prop :=
  Forall (fun x => 0 <= x < 4) (clk_dis s).

(** The PLL masters are below the number of outputs and the PLLs of the
    outputs below the number of PLLs. *)
Definition indices_valid (s : si5351_t) : Prop :=
  Forall (fun x => x < SI5351_CLOCKS) (clk_pll s) /\
  Forall (fun x => x < SI5351_PLLS) (pll s).

(** The two failures of a pass that guard an index of the state. *)
Definition index_failure (o : outcome) : Prop :=
  o = Failure PllMasterOutOfRange \/ o = Failure PllStageOutOfRange.

(** * Properties *)

(** ** Machine integers *)

Lemma wrap32_small (n : Z) : 0 <= n < 2 ^ 32 -> wrap32 n = n.
Proof. intros H. unfold wrap32. apply Z.mod_small. exact H. Qed.

Lemma wrap32_range (n : Z) : 0 <= wrap32 n < 2 ^ 32.
Proof. unfold wrap32. apply Z.mod_pos_bound. lia. Qed.

Lemma wrap32_add_l (x y : Z) : wrap32 (wrap32 x + y) = wrap32 (x + y).
Proof. unfold wrap32. apply Z.add_mod_idemp_l. lia. Qed.

Lemma uint8_small (n : Z) : 0 <= n < 256 -> uint8 n = n.
Proof. intros H. unfold uint8. apply Z.mod_small. change (2 ^ 8) with 256. exact H. Qed.

Lemma uint8_range (n : Z) : 0 <= uint8 n < 256.
Proof. unfold uint8. change (2 ^ 8) with 256. apply Z.mod_pos_bound. lia. Qed.

(** ** The rational approximator *)

Lemma farey_inv_init (D : Z) : 1 <= D -> farey_inv D 0 1 1 1.
Proof. unfold farey_inv. lia. Qed.

Lemma farey_loop_unfold (fuel : nat) (f : spec_float) (D a b c d : Z) :
  farey_loop (S fuel) f D a b c d =
    if D <? wrap32 (b + d) then Some (a, b, c, d)
    else if below_fraction f (wrap32 (a + c)) (wrap32 (b + d))
         then farey_loop fuel f D a b (wrap32 (a + c)) (wrap32 (b + d))
         else farey_loop fuel f D (wrap32 (a + c)) (wrap32 (b + d)) c d.
Proof. reflexivity. Qed.

(** The loop leaves within [D] rounds, with neighbouring bounds whose
    mediant has a denominator above [D]. *)
Lemma farey_loop_terminates (f : spec_float) (D : Z) :
  D < 2 ^ 31 ->
  forall (fuel : nat) (a b c d : Z),
    farey_inv D a b c d ->
    (1 + Z.to_nat (D + 1 - (b + d)) <= fuel)%nat ->
    exists a' b' c' d',
      farey_loop fuel f D a b c d = Some (a', b', c', d') /\
      farey_inv D a' b' c' d' /\ D < b' + d'.
Proof.
  intros HD fuel. induction fuel as [|fuel IH]; intros a b c d Hinv Hfuel.
  - lia.
  - rewrite farey_loop_unfold.
    assert (Hac : wrap32 (a + c) = a + c)
      by (apply wrap32_small; unfold farey_inv in Hinv; lia).
    assert (Hbd : wrap32 (b + d) = b + d)
      by (apply wrap32_small; unfold farey_inv in Hinv; lia).
    rewrite Hac, Hbd.
    destruct (D <? b + d) eqn:Hexit.
    + apply Z.ltb_lt in Hexit. exists a, b, c, d. auto.
    + apply Z.ltb_ge in Hexit.
      destruct (below_fraction f (a + c) (b + d)).
      * apply IH.
        -- unfold farey_inv in *. repeat split; try lia.
        -- unfold farey_inv in Hinv. lia.
      * apply IH.
        -- unfold farey_inv in *. repeat split; try lia.
        -- unfold farey_inv in Hinv. lia.
Qed.

(** More fuel does not change a result. *)
Lemma farey_loop_fuel_mono (f : spec_float) (D : Z) (fuel : nat) :
  forall (a b c d : Z) (r : Z * Z * Z * Z),
    farey_loop fuel f D a b c d = Some r ->
    forall fuel', (fuel <= fuel')%nat -> farey_loop fuel' f D a b c d = Some r.
Proof.
  induction fuel as [|fuel IH]; intros a b c d r Hr fuel' Hle.
  - discriminate.
  - destruct fuel' as [|fuel']; [lia|].
    rewrite farey_loop_unfold in *.
    destruct (D <? wrap32 (b + d)); [exact Hr|].
    destruct (below_fraction f (wrap32 (a + c)) (wrap32 (b + d)));
      apply IH with (fuel' := fuel') in Hr; auto; lia.
Qed.

Lemma farey_fraction_returns (f : spec_float) (D : Z) (fuel : nat) :
  D < 2 ^ 31 -> (Z.to_nat D <= fuel)%nat ->
  exists n d, farey_fraction fuel f D = Some (n, d) /\
              1 <= d /\ (d <= D \/ d = 1) /\ 0 <= n <= d.
Proof.
  intros HD Hfuel. unfold farey_fraction.
  destruct (farey_degenerate f D) eqn:Hdeg.
  - exists 0, 1. repeat split; lia.
  - unfold farey_degenerate in Hdeg.
    apply orb_false_elim in Hdeg as [_ HD1]. apply Z.leb_gt in HD1.
    destruct (farey_loop_terminates f D HD fuel 0 1 1 1) as (a & b & c & d & Hl & Hinv & _).
    + apply farey_inv_init. lia.
    + lia.
    + rewrite Hl. unfold farey_select, farey_inv in *.
      destruct (SFltb (abs_error f a b) (abs_error f c d)).
      * exists a, b. repeat split; lia.
      * exists c, d. repeat split; lia.
Qed.

(** *** Exact arithmetic *)

Lemma Qltb_lt (x y : Q) : Qltb x y = true <-> (x < y)%Q.
Proof.
  unfold Qltb. rewrite negb_true_iff. split.
  - intros H. apply Qnot_le_lt. intros Hle. apply Qle_bool_iff in Hle. congruence.
  - intros H. destruct (Qle_bool y x) eqn:E; [|reflexivity].
    apply Qle_bool_iff in E. exfalso. exact (Qlt_not_le _ _ H E).
Qed.

Lemma Qltb_ge (x y : Q) : Qltb x y = false <-> (y <= x)%Q.
Proof.
  unfold Qltb. rewrite negb_false_iff. apply Qle_bool_iff.
Qed.

(** A fraction with a denominator up to [D] does not lie strictly between
    two neighbours whose mediant has a denominator above [D]. *)
Lemma farey_neighbours (D a b c d n' : Z) (d' : positive) :
  farey_inv D a b c d -> D < b + d -> Zpos d' <= D ->
  (n' # d' <= a # Z.to_pos b)%Q \/ (c # Z.to_pos d <= n' # d')%Q.
Proof.
  unfold farey_inv. intros (Ha & Hc & Hb & Hd & Hab & Hcd & Hdet) Hmed Hd'.
  unfold Qle. cbn [Qnum Qden].
  rewrite !Z2Pos.id by lia.
  destruct (Z_le_gt_dec (n' * b) (a * Zpos d')) as [H1|H1]; [left; exact H1|].
  destruct (Z_le_gt_dec (c * Zpos d') (n' * d)) as [H2|H2]; [right; exact H2|].
  exfalso.
  assert (E : Zpos d' = b * (c * Zpos d' - n' * d) + d * (n' * b - a * Zpos d')).
  { replace (b * (c * Zpos d' - n' * d) + d * (n' * b - a * Zpos d'))
      with ((b * c - a * d) * Zpos d') by ring.
    rewrite Hdet. ring. }
  nia.
Qed.

Lemma Qabs_outside_lower (q lo hi x : Q) :
  (lo <= q)%Q -> (q < hi)%Q -> (x <= lo)%Q ->
  (Qabs (q - lo) <= Qabs (q - x))%Q.
Proof. intros. apply Qabs_case; intros; apply Qabs_case; intros; lra. Qed.

Lemma Qabs_outside_upper (q lo hi x : Q) :
  (lo <= q)%Q -> (q < hi)%Q -> (hi <= x)%Q ->
  (Qabs (q - hi) <= Qabs (q - x))%Q.
Proof. intros. apply Qabs_case; intros; apply Qabs_case; intros; lra. Qed.

(** Of two neighbours enclosing [q], the closer one is as close to [q] as
    any fraction with a denominator up to [D]. *)
Lemma farey_neighbours_closest (D a b c d : Z) (q : Q) (n' : Z) (d' : positive) :
  farey_inv D a b c d -> D < b + d ->
  (a # Z.to_pos b <= q)%Q -> (q < c # Z.to_pos d)%Q ->
  Zpos d' <= D ->
  (Qabs (q - (a # Z.to_pos b)) <= Qabs (q - (n' # d')))%Q \/
  (Qabs (q - (c # Z.to_pos d)) <= Qabs (q - (n' # d')))%Q.
Proof.
  intros Hinv Hmed Hlo Hhi Hd'.
  destruct (farey_neighbours D a b c d n' d' Hinv Hmed Hd') as [H|H].
  - left. apply Qabs_outside_lower with (hi := c # Z.to_pos d); assumption.
  - right. apply Qabs_outside_upper with (lo := a # Z.to_pos b); assumption.
Qed.

Lemma farey_loop_exact_unfold (fuel : nat) (f : spec_float) (D a b c d : Z) :
  farey_loop_exact (S fuel) f D a b c d =
    if D <? wrap32 (b + d)
    then Bool.eqb (SFltb (abs_error f a b) (abs_error f c d)) (exact_closer f a b c d)
    else
      Bool.eqb (below_fraction f (wrap32 (a + c)) (wrap32 (b + d)))
               (exact_below f (wrap32 (a + c)) (wrap32 (b + d))) &&
      (if below_fraction f (wrap32 (a + c)) (wrap32 (b + d))
       then farey_loop_exact fuel f D a b (wrap32 (a + c)) (wrap32 (b + d))
       else farey_loop_exact fuel f D (wrap32 (a + c)) (wrap32 (b + d)) c d).
Proof. reflexivity. Qed.

(** A run whose comparisons are exact keeps the value of [f] between its
    two bounds. *)
Lemma farey_loop_exact_sound (f : spec_float) (D : Z) :
  D < 2 ^ 31 ->
  forall (fuel : nat) (a b c d : Z),
    farey_inv D a b c d ->
    (a # Z.to_pos b <= SF2Q f)%Q -> (SF2Q f < c # Z.to_pos d)%Q ->
    farey_loop_exact fuel f D a b c d = true ->
    exists a' b' c' d',
      farey_loop fuel f D a b c d = Some (a', b', c', d') /\
      farey_inv D a' b' c' d' /\ D < b' + d' /\
      (a' # Z.to_pos b' <= SF2Q f)%Q /\ (SF2Q f < c' # Z.to_pos d')%Q /\
      SFltb (abs_error f a' b') (abs_error f c' d') = exact_closer f a' b' c' d'.
Proof.
  intros HD fuel. induction fuel as [|fuel IH]; intros a b c d Hinv Hlo Hhi Hex.
  - discriminate.
  - rewrite farey_loop_exact_unfold in Hex. rewrite farey_loop_unfold.
    assert (Hac : wrap32 (a + c) = a + c)
      by (apply wrap32_small; unfold farey_inv in Hinv; lia).
    assert (Hbd : wrap32 (b + d) = b + d)
      by (apply wrap32_small; unfold farey_inv in Hinv; lia).
    rewrite Hac, Hbd in *.
    destruct (D <? b + d) eqn:Hexit.
    + apply Z.ltb_lt in Hexit. apply Bool.eqb_prop in Hex.
      exists a, b, c, d. auto 10.
    + apply Z.ltb_ge in Hexit.
      apply andb_true_iff in Hex as [Hagree Hrest].
      apply Bool.eqb_prop in Hagree.
      destruct (below_fraction f (a + c) (b + d)).
      * apply IH; auto.
        -- unfold farey_inv in *. repeat split; try lia.
        -- symmetry in Hagree. apply Qltb_lt in Hagree. exact Hagree.
      * apply IH; auto.
        -- unfold farey_inv in *. repeat split; try lia.
        -- symmetry in Hagree. apply Qltb_ge in Hagree. exact Hagree.
Qed.

(** When every comparison of the run is exact, the result is a closest
    fraction. *)
Lemma farey_fraction_closest (fuel : nat) (f : spec_float) (D : Z) :
  D < 2 ^ 31 -> farey_exact fuel f D = true ->
  exists n d,
    farey_fraction fuel f D = Some (n, d) /\ 1 <= d <= D /\
    forall (n' : Z) (d' : positive),
      Zpos d' <= D ->
      (Qabs (SF2Q f - (n # Z.to_pos d)) <= Qabs (SF2Q f - (n' # d')))%Q.
Proof.
  intros HD Hex. unfold farey_exact in Hex.
  apply andb_true_iff in Hex as [Hex Hloop].
  apply andb_true_iff in Hex as [Hex Hlt1].
  apply andb_true_iff in Hex as [Hdeg Hgt0].
  apply negb_true_iff in Hdeg.
  apply Qltb_lt in Hlt1. apply Qltb_lt in Hgt0.
  assert (HD1 : 1 < D).
  { unfold farey_degenerate in Hdeg. apply orb_false_elim in Hdeg as [_ H].
    apply Z.leb_gt in H. exact H. }
  destruct (farey_loop_exact_sound f D HD fuel 0 1 1 1)
    as (a & b & c & d & Hl & Hinv & Hmed & Hlo & Hhi & Hsel); auto.
  - apply farey_inv_init. lia.
  - change (0 # Z.to_pos 1) with 0%Q. lra.
  - unfold farey_fraction. rewrite Hdeg, Hl. unfold farey_select. rewrite Hsel.
    destruct (exact_closer f a b c d) eqn:Hcl.
    + exists a, b. split; [reflexivity|]. split; [unfold farey_inv in Hinv; lia|].
      intros n' d' Hd'. apply Qltb_lt in Hcl.
      destruct (farey_neighbours_closest D a b c d (SF2Q f) n' d') as [H|H]; auto.
      lra.
    + exists c, d. split; [reflexivity|]. split; [unfold farey_inv in Hinv; lia|].
      intros n' d' Hd'. apply Qltb_ge in Hcl.
      destruct (farey_neighbours_closest D a b c d (SF2Q f) n' d') as [H|H]; auto.
      lra.
Qed.

Example f32_constants :
  F32.div (F32.of_Z 3) (F32.of_Z 10) = f32_0_3 /\
  F32.div (F32.of_Z 19) (F32.of_Z 20) = f32_0_95 /\
  F32.div (F32.of_Z 1) (F32.of_Z 4) = f32_0_25 /\
  F32.div (F32.of_Z 1) (F32.of_Z 2) = f32_0_5.
Proof. repeat split; vm_compute; reflexivity. Qed.

(** With [max_denominator = UINT32_MAX] the test
    [mediant_den > max_denominator] never holds. *)
Lemma farey_loop_uint32_max (f : spec_float) (fuel : nat) :
  forall a b c d, farey_loop fuel f 4294967295 a b c d = None.
Proof.
  induction fuel as [|fuel IH]; intros a b c d; [reflexivity|].
  rewrite farey_loop_unfold.
  assert (H : (4294967295 <? wrap32 (b + d)) = false).
  { apply Z.ltb_ge. pose proof (wrap32_range (b + d)). lia. }
  rewrite H. destruct (below_fraction f (wrap32 (a + c)) (wrap32 (b + d))); apply IH.
Qed.




(** C3 (counterexample).  For f = 0.25 and a maximum denominator of 2 the
    search ends with the bounds 0/1 and 1/2, whose errors are equal (in
    single precision and exactly); the result is the upper bound 1/2. *)
Lemma farey_tie_not_lower_bound :
  farey_loop 2 f32_0_25 2 0 1 1 1 = Some (0, 1, 1, 2) /\
  SFcompare (abs_error f32_0_25 0 1) (abs_error f32_0_25 1 2) = Some Eq /\
  (Qabs (SF2Q f32_0_25 - (0 # 1)) == Qabs (SF2Q f32_0_25 - (1 # 2)))%Q /\
  farey_fraction 2 f32_0_25 2 = Some (1, 2).
Proof. repeat split; vm_compute; reflexivity. Qed.

(** C3 (amended).  When the search ends with final bounds [a/b] and [c/d]
    whose errors, as the code computes them, are equal, it returns the
    upper bound [c/d]: the comparison is strict on the error of the lower
    bound. *)
Theorem farey_tie_upper_bound (fuel : nat) (f : spec_float) (D a b c d : Z)
    (Hguard : farey_degenerate f D = false)
    (Hloop : farey_loop fuel f D 0 1 1 1 = Some (a, b, c, d))
    (Htie : SFcompare (abs_error f a b) (abs_error f c d) = Some Eq) :
  farey_fraction fuel f D = Some (c, d).
Proof.
  unfold farey_fraction. rewrite Hguard, Hloop. unfold farey_select, SFltb.
  rewrite Htie. reflexivity.
Qed.

Lemma farey_tie_upper_bound_witness :
  farey_degenerate f32_0_25 2 = false /\
  farey_loop 2 f32_0_25 2 0 1 1 1 = Some (0, 1, 1, 2) /\
  SFcompare (abs_error f32_0_25 0 1) (abs_error f32_0_25 1 2) = Some Eq /\
  farey_fraction 2 f32_0_25 2 = Some (1, 2).
Proof.
  split; [vm_compute; reflexivity|]. split; [vm_compute; reflexivity|].
  split; [vm_compute; reflexivity|].
  refine (farey_tie_upper_bound 2 f32_0_25 2 0 1 1 2 _ _ _); vm_compute; reflexivity.
Defined.

(** ** The stage divider calculator *)

Lemma farey_fraction_chip (f : spec_float) :
  exists n d, farey_fraction farey_fuel f 1048575 = Some (n, d) /\
              1 <= d <= 1048575 /\ 0 <= n <= d.
Proof.
  destruct (farey_fraction_returns f 1048575 farey_fuel) as (n & d & Hr & Hd1 & Hd & Hn).
  - lia.
  - unfold farey_fuel. lia.
  - exists n, d. split; [exact Hr|]. lia.
Qed.

Lemma si5351_calc_multisynth_defined (f1 f2 : Z) :
  f2 <> 0 -> exists p, si5351_calc_multisynth f1 f2 = Some p.
Proof.
  intros Hf2. unfold si5351_calc_multisynth.
  apply Z.eqb_neq in Hf2. rewrite Hf2.
  destruct (farey_fraction_chip (fractional_part f1 f2 (f1 / f2))) as (n & d & Hr & _).
  cbv zeta. rewrite Hr. eauto.
Qed.



(** The registers of the sample program's PLL: 604 MHz over 27 MHz. *)
Example si5351_calc_multisynth_sample :
  si5351_calc_multisynth 604000000 27000000 = Some (2351, 207384, 508952).
Proof. vm_compute. reflexivity. Qed.

(** ** Rules for the monad *)

Section Rules.
Context (I : si5351_t -> Prop) (W : reg_write -> Prop).

Lemma holds_ret {A} (a : A) : holds I W (ret a).
Proof. intros s Hs. simpl. auto. Qed.

Lemma holds_return {A} (o : outcome) : holds I W (@return_ A o).
Proof. intros s Hs. simpl. auto. Qed.

Lemma holds_write (reg val : Z) : W (uint8 reg, uint8 val) -> holds I W (write reg val).
Proof. intros H s Hs. simpl. auto. Qed.

Lemma holds_modify (f : si5351_t -> si5351_t) :
  (forall s, I s -> I (f s)) -> holds I W (modify f).
Proof. intros H s Hs. simpl. auto. Qed.

Lemma holds_bind {A B} (m : M A) (k : A -> M B) :
  holds I W m -> (forall a, holds I W (k a)) -> holds I W (bind m k).
Proof.
  intros Hm Hk s Hs. unfold bind. specialize (Hm s Hs).
  destruct (m s) as [[[a|o] s1] w1]; destruct Hm as [Hs1 Hw1].
  - specialize (Hk a s1 Hs1). destruct (k a s1) as [[r s2] w2].
    destruct Hk as [Hs2 Hw2]. split; [exact Hs2|]. apply Forall_app; auto.
  - auto.
Qed.

Lemma holds_bind_get {B} (k : si5351_t -> M B) :
  (forall s0, I s0 -> holds I W (k s0)) -> holds I W (bind get k).
Proof.
  intros Hk s Hs. unfold bind, get. specialize (Hk s Hs s Hs).
  destruct (k s s) as [[r s2] w2]. exact Hk.
Qed.

Lemma holds_for_loop (body : Z -> M unit) (count : nat) :
  forall i : Z,
    (forall j, i <= j < i + Z.of_nat count -> holds I W (body j)) ->
    holds I W (for_loop body i count).
Proof.
  induction count as [|count IH]; intros i Hbody.
  - apply holds_ret.
  - cbn [for_loop]. apply holds_bind.
    + apply Hbody. lia.
    + intros _. apply IH. intros j Hj. apply Hbody. lia.
Qed.

End Rules.

Section Steps.
Context (R : outcome -> Prop).

Lemma steps_bind (P Q T : si5351_t -> Prop) (m : M unit) (k : unit -> M unit) :
  steps R P m Q -> steps R Q (k tt) T -> steps R P (bind m k) T.
Proof.
  intros Hm Hk s Hs. unfold bind. specialize (Hm s Hs).
  destruct (m s) as [[[[]|o] s1] w1]; [|exact Hm].
  specialize (Hk s1 Hm). destruct (k tt s1) as [[[[]|o] s2] w2]; exact Hk.
Qed.

Lemma steps_write (P : si5351_t -> Prop) (reg val : Z) : steps R P (write reg val) P.
Proof. intros s Hs. exact Hs. Qed.

Lemma steps_post (P Q Q' : si5351_t -> Prop) (m : M unit) :
  steps R P m Q -> (forall s, Q s -> Q' s) -> steps R P m Q'.
Proof.
  intros Hm HQ s Hs. specialize (Hm s Hs).
  destruct (m s) as [[[[]|o] s1] w1]; auto.
Qed.

Lemma steps_for_loop (P : si5351_t -> Prop) (body : Z -> M unit) (count : nat) :
  forall i : Z,
    (forall j, i <= j < i + Z.of_nat count -> steps R P (body j) P) ->
    steps R P (for_loop body i count) P.
Proof.
  induction count as [|count IH]; intros i Hbody.
  - intros s Hs. exact Hs.
  - cbn [for_loop]. apply steps_bind with (Q := P).
    + apply Hbody. lia.
    + apply IH. intros j Hj. apply Hbody. lia.
Qed.

(** A loop with a round that always returns early returns early. *)
Lemma steps_for_loop_stop (P : si5351_t -> Prop) (body : Z -> M unit) (count : nat) :
  forall i j : Z,
    (forall x, i <= x < i + Z.of_nat count -> steps R P (body x) P) ->
    i <= j < i + Z.of_nat count ->
    steps R P (body j) (fun _ => False) ->
    steps R P (for_loop body i count) (fun _ => False).
Proof.
  induction count as [|count IH]; intros i j Hbody Hj Hstop.
  - lia.
  - cbn [for_loop]. destruct (Z.eq_dec i j) as [->|Hne].
    + apply steps_bind with (Q := fun _ => False); [exact Hstop|].
      intros s [].
    + apply steps_bind with (Q := P).
      * apply Hbody. lia.
      * apply IH with (j := j); [|lia|exact Hstop].
        intros x Hx. apply Hbody. lia.
Qed.

End Steps.

(** ** What a configuration pass writes and keeps *)

Lemma same_settings_refl (s : si5351_t) : same_settings s s.
Proof. exists (vco_freq s). destruct s. reflexivity. Qed.

Lemma same_settings_set_vco_freq (s0 s : si5351_t) (v : list Z) :
  same_settings s0 s -> same_settings s0 (set_vco_freq v s).
Proof. intros [v0 ->]. exists v. reflexivity. Qed.

Lemma write_ok_other (s0 : si5351_t) (reg val : Z) :
  reg < 16 \/ 24 <= reg -> reg < 165 \/ 173 <= reg -> write_ok s0 (reg, val).
Proof.
  intros H1 H2. unfold write_ok, SI5351_REG_CLK0_CONTROL, SI5351_REG_PHASE_BASE.
  cbn [fst snd]. split; intros i Hi E; lia.
Qed.

Lemma write_ok_control_off (s0 : si5351_t) (i : Z) :
  0 <= i < 8 -> write_ok s0 (uint8 (SI5351_REG_CLK0_CONTROL + i), uint8 0x80).
Proof.
  intros Hi. unfold SI5351_REG_CLK0_CONTROL. rewrite !uint8_small by lia.
  unfold write_ok, SI5351_REG_CLK0_CONTROL, SI5351_REG_PHASE_BASE.
  cbn [fst snd]. split; intros j Hj E; [left; reflexivity | lia].
Qed.

Lemma write_ok_control (s0 : si5351_t) (i : Z) :
  0 <= i < 8 ->
  write_ok s0 (uint8 (SI5351_REG_CLK0_CONTROL + i), uint8 (clk_control s0 i)).
Proof.
  intros Hi. unfold SI5351_REG_CLK0_CONTROL. rewrite (uint8_small (16 + i)) by lia.
  unfold write_ok, SI5351_REG_CLK0_CONTROL, SI5351_REG_PHASE_BASE.
  cbn [fst snd]. split; intros j Hj E; [|lia].
  right. replace j with i by lia. reflexivity.
Qed.

Lemma write_ok_phase (s0 : si5351_t) (i : Z) :
  0 <= i < 8 ->
  write_ok s0 (uint8 (SI5351_REG_PHASE_BASE + i),
               uint8 (Z.land (at_index (phase s0) i) 0x7F)).
Proof.
  intros Hi. unfold SI5351_REG_PHASE_BASE. rewrite (uint8_small (165 + i)) by lia.
  unfold write_ok, SI5351_REG_CLK0_CONTROL, SI5351_REG_PHASE_BASE.
  cbn [fst snd]. split; intros j Hj E; [lia|].
  replace j with i by lia. reflexivity.
Qed.

(** One step of a proof of [holds]: sequencing, reading the state,
    branching. *)
Ltac holds_step :=
  lazymatch goal with
  | |- holds _ _ (bind get _) => apply holds_bind_get; intros ? ?
  | |- holds _ _ (bind _ _) => apply holds_bind; [|intros ?]
  | |- holds _ _ (ret _) => apply holds_ret
  | |- holds _ _ (return_ _) => apply holds_return
  | |- holds _ _ (if ?c then _ else _) => destruct c
  | |- holds _ _ (match ?x with _ => _ end) => destruct x
  end.

Ltac write_elsewhere :=
  apply holds_write; apply write_ok_other;
  [ rewrite uint8_small by lia; lia | rewrite uint8_small by lia; lia ].

Lemma write_pll_params_holds (s0 : si5351_t) (i : Z) (p : Z * Z * Z) :
  0 <= i < 2 -> holds (same_settings s0) (write_ok s0) (write_pll_params i p).
Proof.
  intros Hi. destruct p as [[pll0 pll1] pll2].
  unfold write_pll_params, SI5351_REG_MSN_PLL_BASE.
  repeat holds_step; write_elsewhere.
Qed.

Lemma write_clk_params_holds (s0 : si5351_t) (i omd_div : Z) (p : Z * Z * Z) :
  0 <= i < 8 -> holds (same_settings s0) (write_ok s0) (write_clk_params i omd_div p).
Proof.
  intros Hi. destruct p as [[pll0 pll1] pll2].
  unfold write_clk_params, SI5351_REG_CLK_SYNTH_BASE.
  repeat holds_step; write_elsewhere.
Qed.

Lemma configure_pll_holds (s0 : si5351_t) (i : Z) :
  0 <= i < 2 -> holds (same_settings s0) (write_ok s0) (configure_pll i).
Proof.
  intros Hi. unfold configure_pll.
  repeat holds_step.
  - apply holds_modify. intros s Hs. apply same_settings_set_vco_freq. exact Hs.
  - apply write_pll_params_holds. exact Hi.
Qed.

Lemma configure_clock_holds (s0 : si5351_t) (i : Z) :
  0 <= i < 8 -> holds (same_settings s0) (write_ok s0) (configure_clock i).
Proof.
  intros Hi. unfold configure_clock.
  holds_step.
  match goal with H : same_settings s0 _ |- _ => destruct H as [v ->] end.
  repeat holds_step.
  - apply write_clk_params_holds. exact Hi.
  - apply holds_write. exact (write_ok_phase s0 i Hi).
  - apply holds_write. exact (write_ok_control s0 i Hi).
Qed.

Lemma configure_body_holds (s0 : si5351_t) :
  holds (same_settings s0) (write_ok s0) configure_body.
Proof.
  unfold configure_body.
  unfold SI5351_REG_CLK3_0_DISABLE_STATE, SI5351_REG_CLK7_4_DISABLE_STATE,
    SI5351_REG_OE, SI5351_REG_CRYSTAL_INTERNAL_LOAD_CAPACITANCE.
  repeat holds_step; try write_elsewhere.
  - apply holds_for_loop. intros j Hj. apply holds_write.
    apply write_ok_control_off. lia.
  - apply holds_for_loop. intros j Hj. apply configure_pll_holds. lia.
  - apply holds_for_loop. intros j Hj. apply configure_clock_holds. lia.
Qed.

(** A pass changes no setting, and what it writes to the control and
    phase registers is determined by the settings. *)
Lemma si5351_configure_holds (s : si5351_t) :
  match si5351_configure s with
  | (_, s', w) => same_settings s s' /\ Forall (write_ok s) w
  end.
Proof.
  unfold si5351_configure, run.
  pose proof (configure_body_holds s s (same_settings_refl s)) as H.
  destruct (configure_body s) as [[[[]|o] s'] w]; exact H.
Qed.

(** ** Arrays *)

Lemma at_index_store_eq (a : list Z) (i v : Z) :
  (Z.to_nat i < length a)%nat -> at_index (store a i v) i = v.
Proof.
  intros H. unfold at_index, store. rewrite list_lookup_insert_eq by exact H.
  reflexivity.
Qed.

Lemma at_index_store_ne (a : list Z) (i j v : Z) :
  0 <= i -> 0 <= j -> i <> j -> at_index (store a i v) j = at_index a j.
Proof.
  intros Hi Hj Hne. unfold at_index, store.
  rewrite list_lookup_insert_ne by lia. reflexivity.
Qed.

Lemma at_index_zeros (n : nat) (i : Z) : at_index (replicate n 0) i = 0.
Proof.
  unfold at_index. destruct (replicate n 0 !! Z.to_nat i) as [v|] eqn:E; [|reflexivity].
  apply lookup_replicate_1 in E as [-> _]. reflexivity.
Qed.

(** ** Running the pass *)

Lemma bind_get_run {B} (k : si5351_t -> M B) (s : si5351_t) :
  bind get k s = k s s.
Proof. unfold bind, get. destruct (k s s) as [[r s'] w]. reflexivity. Qed.

Lemma bind_write_run {B} (reg val : Z) (k : unit -> M B) (s : si5351_t) :
  bind (write reg val) k s =
    match k tt s with
    | (r, s', w) => (r, s', (uint8 reg, uint8 val) :: w)
    end.
Proof. unfold bind, write. destruct (k tt s) as [[r s'] w]. reflexivity. Qed.

(** Lines 74-77: with auto-apply suspended the pass is left at once. *)
Lemma si5351_configure_suspended (s : si5351_t) :
  config s = false -> si5351_configure s = (Success, s, []).
Proof.
  intros H. unfold si5351_configure, run, configure_body.
  rewrite bind_get_run. rewrite H. reflexivity.
Qed.

(** With auto-apply enabled the pass starts with the disable-state
    registers and the output-enable register. *)
Lemma si5351_configure_enabled (s : si5351_t) :
  config s = true ->
  exists w, snd (si5351_configure s) =
              (24, uint8 (disable_state s 0)) :: (25, uint8 (disable_state s 4)) ::
              (3, 255) :: w.
Proof.
  intros H. unfold si5351_configure, run, configure_body.
  rewrite bind_get_run. rewrite H. cbn [negb].
  rewrite !bind_write_run.
  match goal with |- context [bind ?m ?k s] => destruct (bind m k s) as [[[[]|o] s'] w] end;
    exists w; reflexivity.
Qed.

Lemma si5351_configure_same_settings (s : si5351_t) (o : outcome) (s' : si5351_t)
    (w : list reg_write) :
  si5351_configure s = (o, s', w) -> same_settings s s' /\ Forall (write_ok s) w.
Proof. intros H. pose proof (si5351_configure_holds s) as H'. rewrite H in H'. exact H'. Qed.

(** ** Bits *)

Lemma land_32_low (x n : Z) : 0 <= n < 2 -> Z.testbit (Z.land x 0x20) n = false.
Proof.
  intros Hn. rewrite Z.land_spec.
  assert (E : n = 0 \/ n = 1) by lia.
  destruct E as [-> | ->]; cbn; apply andb_false_r.
Qed.

Lemma clk_control_drive_bits (s : si5351_t) (i : Z) :
  at_index (clk_drive s) i = 0 -> Z.land (uint8 (clk_control s i)) 0x03 = 0.
Proof.
  intros Hdrive. unfold clk_control. rewrite Hdrive.
  apply Z.bits_inj'. intros n Hn. rewrite Z.land_spec, Z.bits_0.
  destruct (Z.lt_ge_cases n 2) as [Hlow|Hhigh].
  - unfold uint8. rewrite Z.mod_pow2_bits_low by lia.
    rewrite !Z.lor_spec, land_32_low by lia.
    assert (E : n = 0 \/ n = 1) by lia.
    destruct (at_index (clk_invert s) i =? 0); destruct E as [-> | ->]; reflexivity.
  - change 3 with (Z.ones 2). rewrite Z.ones_spec_high by lia. apply andb_false_r.
Qed.

Lemma write_ok_drive_bits (s : si5351_t) (rw : reg_write) :
  (forall i, at_index (clk_drive s) i = 0) -> write_ok s rw -> drive_bits_zero rw.
Proof.
  intros Hdrive [Hctl _] i Hi Hreg.
  destruct (Hctl i Hi Hreg) as [-> | ->].
  - reflexivity.
  - apply clk_control_drive_bits. apply Hdrive.
Qed.

Lemma write_ok_phase_masked (s : si5351_t) (rw : reg_write) :
  write_ok s rw -> phase_masked s rw.
Proof.
  intros [_ Hph] i Hi Hreg. rewrite (Hph i Hi Hreg).
  change 127 with (Z.ones 7). rewrite Z.land_ones by lia.
  change (2 ^ 7) with 128. apply uint8_small.
  pose proof (Z.mod_pos_bound (at_index (phase s) i) 128). lia.
Qed.

(** ** Batches *)

Lemma config_assign_output (s : si5351_t) (output : Z) (pll_sel : si5351_PLL_t)
    (freq_hz phase_val : Z) (invert pll_master : bool) :
  config (assign_output s output pll_sel freq_hz phase_val invert pll_master) = config s.
Proof. unfold assign_output. destruct pll_master; reflexivity. Qed.

Lemma config_assign_disabled (s : si5351_t) (clock : Z) (ds : si5351_disable_t) :
  config (assign_disabled s clock ds) = config s.
Proof. unfold assign_disabled. destruct (clock =? SI5351_CLOCK_ALL); reflexivity. Qed.

Lemma run_call_suspended (c : call) (s : si5351_t) :
  mutating c = true -> config s = false ->
  run_call c s = (true, setting s c, []) /\ config (setting s c) = false.
Proof.
  intros Hmut Hcfg. destruct c as [output pll_sel f ph inv m| | |clock ds];
    try discriminate Hmut; unfold run_call, setting.
  - unfold si5351_set. destruct (SI5351_CLOCKS <=? output).
    + split; [reflexivity | exact Hcfg].
    + rewrite si5351_configure_suspended by (rewrite config_assign_output; exact Hcfg).
      split; [reflexivity|]. rewrite config_assign_output. exact Hcfg.
  - unfold si5351_set_disabled.
    destruct ((clock =? SI5351_CLOCK_ALL) || ((0 <=? clock) && (clock <? SI5351_CLOCKS))).
    + rewrite si5351_configure_suspended by (rewrite config_assign_disabled; exact Hcfg).
      split; [reflexivity|]. rewrite config_assign_disabled. exact Hcfg.
    + split; [reflexivity | exact Hcfg].
Qed.

Lemma run_calls_suspended (cs : list call) :
  forall s : si5351_t,
    forallb mutating cs = true -> config s = false ->
    run_calls cs s = (settings cs s, []) /\ config (settings cs s) = false.
Proof.
  induction cs as [|c cs IH]; intros s Hmut Hcfg.
  - split; [reflexivity | exact Hcfg].
  - cbn [forallb] in Hmut. apply andb_true_iff in Hmut as [Hc Hcs].
    destruct (run_call_suspended c s Hc Hcfg) as [Hrun Hcfg'].
    destruct (IH (setting s c) Hcs Hcfg') as [Hruns Hcfg''].
    cbn [run_calls]. rewrite Hrun. unfold settings in *. cbn [fold_left].
    rewrite Hruns. split; [reflexivity | exact Hcfg''].
Qed.



(** ** Failed passes *)

(** C7.  When the pass triggered by [si5351_set] with a valid output index
    fails validation, [si5351_set] returns that failure (-1) and the state
    holds the requested frequency, phase, invert flag and PLL of the
    output and, for a master, its designation. *)
Theorem set_failure_keeps_request (s : si5351_t) (output : Z) (pll_sel : si5351_PLL_t)
    (freq_hz phase_val : Z) (invert pll_master : bool)
    (e : error) (s' : si5351_t) (w : list reg_write)
    (Hwf : well_formed s) (Hout : 0 <= output < 8)
    (Hpass : si5351_configure
               (assign_output s output pll_sel freq_hz phase_val invert pll_master)
             = (Failure e, s', w)) :
  si5351_set s output pll_sel freq_hz phase_val invert pll_master = (Failure e, s', w) /\
  ret_code (Failure e) = Some (-1) /\
  at_index (freq s') output = freq_hz /\
  at_index (phase s') output = phase_val /\
  at_index (clk_invert s') output = Z.b2z invert /\
  at_index (pll s') output = pll_value pll_sel /\
  (pll_master = true -> at_index (clk_pll s') (pll_value pll_sel) = output).
Proof.
  destruct Hwf as (Lf & Lp & Lpl & Lcp & Ld & Li & Ldr & Lv).
  split.
  { unfold si5351_set.
    assert (E : (SI5351_CLOCKS <=? output) = false)
      by (apply Z.leb_gt; unfold SI5351_CLOCKS; lia).
    rewrite E. exact Hpass. }
  split; [reflexivity|].
  apply si5351_configure_same_settings in Hpass as [[v ->] _].
  unfold assign_output.
  assert (Hp : 0 <= pll_value pll_sel < 2) by (destruct pll_sel; cbn; lia).
  destruct pll_master; cbn [freq phase clk_invert pll clk_pll set_vco_freq set_freq
    set_phase set_clk_invert set_pll set_clk_pll];
    repeat split; try (apply at_index_store_eq; lia); try discriminate.
  intros _. apply at_index_store_eq. lia.
Qed.

Lemma set_failure_keeps_request_witness :
  let s := initial_state 27000000 SI5351_CRYSTAL_LOAD_8PF in
  let r := si5351_configure (assign_output s 1 SI5351_PLL_B 8000 5 true false) in
  well_formed s /\ 0 <= 1 < 8 /\
  r = (Failure FrequencyOutOfRange, snd (fst r), snd r) /\
  si5351_set s 1 SI5351_PLL_B 8000 5 true false
    = (Failure FrequencyOutOfRange, snd (fst r), snd r) /\
  at_index (freq (snd (fst r))) 1 = 8000 /\
  at_index (phase (snd (fst r))) 1 = 5.
Proof.
  intros s r.
  assert (Hwf : well_formed s) by (repeat split; reflexivity).
  assert (Hout : 0 <= 1 < 8) by lia.
  assert (Hpass : r = (Failure FrequencyOutOfRange, snd (fst r), snd r))
    by (vm_compute; reflexivity).
  pose proof (set_failure_keeps_request s 1 SI5351_PLL_B 8000 5 true false
                FrequencyOutOfRange (snd (fst r)) (snd r) Hwf Hout Hpass) as H.
  split; [exact Hwf|]. split; [exact Hout|]. split; [exact Hpass|].
  split; [exact (proj1 H)|].
  split; [exact (proj1 (proj2 (proj2 H)))|].
  exact (proj1 (proj2 (proj2 (proj2 H)))).
Defined.

(** C8.  For a clock argument in range (0-7 or ALL) [si5351_set_disabled]
    returns 0 whatever its pass returns, a validation failure included;
    [si5351_write_batch] gives its caller the same result (none) whether
    its pass succeeds or fails. *)
Theorem pass_result_discarded (s : si5351_t) (clock : Z) (ds : si5351_disable_t)
    (o : outcome) (s' : si5351_t) (w : list reg_write)
    (Hclock : clock = SI5351_CLOCK_ALL \/ 0 <= clock < SI5351_CLOCKS)
    (Hpass : si5351_configure (assign_disabled s clock ds) = (o, s', w))
    (Hret : returned o = true) :
  si5351_set_disabled s clock ds = (Success, s', w) /\
  ret_code Success = Some 0 /\
  forall (t : si5351_t) (o2 : outcome) (t' : si5351_t) (w2 : list reg_write),
    si5351_configure (set_config true t) = (o2, t', w2) -> returned o2 = true ->
    si5351_write_batch t = (true, t', w2).
Proof.
  split; [|split; [reflexivity|]].
  - unfold si5351_set_disabled.
    assert (E : (clock =? SI5351_CLOCK_ALL) || ((0 <=? clock) && (clock <? SI5351_CLOCKS))
                = true).
    { destruct Hclock as [-> | H]; [reflexivity|].
      apply orb_true_iff. right. apply andb_true_iff. split.
      - apply Z.leb_le. lia.
      - apply Z.ltb_lt. lia. }
    rewrite E, Hpass, Hret. reflexivity.
  - intros t o2 t' w2 H2 Hret2. unfold si5351_write_batch. rewrite H2, Hret2. reflexivity.
Qed.

Lemma pass_result_discarded_witness :
  let s := initial_state 27000000 SI5351_CRYSTAL_LOAD_8PF in
  let r := si5351_configure (assign_disabled s SI5351_CLOCK_ALL SI5351_DISABLE_HIGH) in
  r = (Failure FrequencyOutOfRange, snd (fst r), snd r) /\
  si5351_set_disabled s SI5351_CLOCK_ALL SI5351_DISABLE_HIGH = (Success, snd (fst r), snd r).
Proof.
  intros s r.
  assert (Hpass : r = (Failure FrequencyOutOfRange, snd (fst r), snd r))
    by (vm_compute; reflexivity).
  split; [exact Hpass|].
  exact (proj1 (pass_result_discarded s SI5351_CLOCK_ALL SI5351_DISABLE_HIGH
                  (Failure FrequencyOutOfRange) (snd (fst r)) (snd r)
                  (or_introl eq_refl) Hpass eq_refl)).
Defined.

(** ** Drive strength *)

Lemma clk_drive_assign_output (s : si5351_t) (output : Z) (pll_sel : si5351_PLL_t)
    (freq_hz phase_val : Z) (invert pll_master : bool) :
  clk_drive (assign_output s output pll_sel freq_hz phase_val invert pll_master)
  = clk_drive s.
Proof. unfold assign_output. destruct pll_master; reflexivity. Qed.

Lemma clk_drive_assign_disabled (s : si5351_t) (clock : Z) (ds : si5351_disable_t) :
  clk_drive (assign_disabled s clock ds) = clk_drive s.
Proof. unfold assign_disabled. destruct (clock =? SI5351_CLOCK_ALL); reflexivity. Qed.

Lemma si5351_configure_drive (s : si5351_t) (o : outcome) (s' : si5351_t)
    (w : list reg_write) :
  clk_drive s = replicate 8 0 -> si5351_configure s = (o, s', w) ->
  clk_drive s' = replicate 8 0 /\ Forall drive_bits_zero w.
Proof.
  intros Hd H. apply si5351_configure_same_settings in H as [[v ->] Hw].
  split; [exact Hd|].
  apply (Forall_impl _ _ _ Hw). intros rw. apply write_ok_drive_bits.
  intros i. rewrite Hd. apply at_index_zeros.
Qed.

Lemma run_call_drive (c : call) (s : si5351_t) :
  clk_drive s = replicate 8 0 ->
  match run_call c s with
  | (_, s', w) => clk_drive s' = replicate 8 0 /\ Forall drive_bits_zero w
  end.
Proof.
  intros Hd. destruct c as [output pll_sel f ph inv m| | |clock ds]; unfold run_call.
  - unfold si5351_set. destruct (SI5351_CLOCKS <=? output).
    + split; [exact Hd | constructor].
    + destruct (si5351_configure (assign_output s output pll_sel f ph inv m))
        as [[o s'] w] eqn:E.
      apply si5351_configure_drive in E; [exact E|].
      rewrite clk_drive_assign_output. exact Hd.
  - split; [exact Hd | constructor].
  - unfold si5351_write_batch.
    destruct (si5351_configure (set_config true s)) as [[o s'] w] eqn:E.
    apply si5351_configure_drive in E; [exact E | exact Hd].
  - unfold si5351_set_disabled.
    destruct ((clock =? SI5351_CLOCK_ALL) || ((0 <=? clock) && (clock <? SI5351_CLOCKS))).
    + destruct (si5351_configure (assign_disabled s clock ds)) as [[o s'] w] eqn:E.
      apply si5351_configure_drive in E; [exact E|].
      rewrite clk_drive_assign_disabled. exact Hd.
    + split; [exact Hd | constructor].
Qed.

Lemma run_calls_drive (cs : list call) :
  forall s : si5351_t,
    clk_drive s = replicate 8 0 ->
    match run_calls cs s with
    | (s', w) => clk_drive s' = replicate 8 0 /\ Forall drive_bits_zero w
    end.
Proof.
  induction cs as [|c cs IH]; intros s Hd.
  - split; [exact Hd | constructor].
  - cbn [run_calls]. pose proof (run_call_drive c s Hd) as Hc.
    destruct (run_call c s) as [[[] s1] w1]; destruct Hc as [Hd1 Hw1].
    + specialize (IH s1 Hd1). destruct (run_calls cs s1) as [s2 w2].
      destruct IH as [Hd2 Hw2]. split; [exact Hd2|]. apply Forall_app; auto.
    + auto.
Qed.

(** C9.  After [si5351_init] the drive strength of every clock is 0 (2 mA);
    it is still 0 after any sequence of calls to the public operations, and
    every value written to a control register, by [si5351_init] or by
    these calls, has drive bits 00. *)
Theorem drive_strength_zero (cf : Z) (cl : si5351_crystal_load_t) (cs : list call) :
  match si5351_init cf cl with
  | (_, s0, w0) =>
      clk_drive s0 = replicate 8 0 /\
      match run_calls cs s0 with
      | (s, w) => clk_drive s = replicate 8 0 /\ Forall drive_bits_zero (w0 ++ w)
      end
  end.
Proof.
  unfold si5351_init.
  destruct (si5351_configure (initial_state cf cl)) as [[o s0] w0] eqn:E.
  apply si5351_configure_drive in E as [Hd0 Hw0]; [|reflexivity].
  split; [exact Hd0|].
  pose proof (run_calls_drive cs s0 Hd0) as H.
  destruct (run_calls cs s0) as [s w]. destruct H as [Hd Hw].
  split; [exact Hd|]. apply Forall_app; auto.
Qed.

(** ** Phase *)

Lemma write_clk_params_run (i omd_div : Z) (p : Z * Z * Z) (s : si5351_t) :
  exists w, write_clk_params i omd_div p s = (Next tt, s, w).
Proof.
  destruct p as [[pll0 pll1] pll2]. unfold write_clk_params.
  rewrite !bind_write_run. unfold write. eauto.
Qed.

Lemma clk_plan_active (s : si5351_t) (i : Z) :
  at_index (freq s) i <> 0 -> clk_plan s i <> Next None.
Proof.
  intros Hf. unfold clk_plan. apply Z.eqb_neq in Hf. rewrite Hf.
  destruct (SI5351_PLLS <=? at_index (pll s) i); [discriminate|].
  cbv zeta.
  destruct ((at_index (freq s) i <? SI5351_MIN_FREQ) ||
            (SI5351_MAX_FREQ <? at_index (freq s) i)); [discriminate|].
  destruct (clk_prescale 129 (at_index (freq s) i) 0) as [[freq1 omd_div]|];
    [|discriminate].
  destruct (si5351_calc_multisynth _ freq1); discriminate.
Qed.

(** The stage of an active clock ends with its phase and control
    registers. *)
Lemma configure_clock_phase_write (s : si5351_t) (i : Z) (s' : si5351_t)
    (w : list reg_write) :
  0 <= i < 8 -> at_index (freq s) i <> 0 ->
  configure_clock i s = (Next tt, s', w) ->
  exists w1, w = w1 ++ [(SI5351_REG_PHASE_BASE + i, at_index (phase s) i mod 128);
                        (SI5351_REG_CLK0_CONTROL + i, uint8 (clk_control s i))].
Proof.
  intros Hi Hf H. unfold configure_clock in H. rewrite bind_get_run in H.
  pose proof (clk_plan_active s i Hf) as Hplan.
  destruct (clk_plan s i) as [[[omd_div p]|]|o]; [| congruence | discriminate H].
  unfold bind at 1 in H.
  destruct (write_clk_params_run i omd_div p s) as [w1 E]. rewrite E in H.
  rewrite bind_write_run in H. unfold write in H.
  injection H as _ <-. exists w1. f_equal.
  unfold SI5351_REG_PHASE_BASE, SI5351_REG_CLK0_CONTROL.
  rewrite (uint8_small (165 + i)), (uint8_small (16 + i)) by lia.
  change 127 with (Z.ones 7). rewrite Z.land_ones by lia. change (2 ^ 7) with 128.
  rewrite (uint8_small (_ mod 128)); [reflexivity|].
  pose proof (Z.mod_pos_bound (at_index (phase s) i) 128). lia.
Qed.



(** ** The pre-scale loops *)

Lemma pll_prescale_unfold (fuel : nat) (freq0 vco_ri : Z) :
  pll_prescale (S fuel) freq0 vco_ri =
    if freq0 <? 500000
    then pll_prescale fuel (wrap32 (freq0 * 2)) (uint8 (vco_ri + 1))
    else Some (freq0, vco_ri).
Proof. reflexivity. Qed.

(** A frequency that reaches 500 kHz within [n] doublings leaves the loop
    of lines 111-114 within [n] rounds. *)
Lemma pll_prescale_defined (n : nat) :
  forall (fuel : nat) (freq0 vco_ri : Z),
    0 < freq0 < 2 ^ 32 -> 500000 <= freq0 * 2 ^ Z.of_nat n -> (n < fuel)%nat ->
    exists freq1 vco_ri1,
      pll_prescale fuel freq0 vco_ri = Some (freq1, vco_ri1) /\
      500000 <= freq1 <= Z.max freq0 999999.
Proof.
  induction n as [|n IH]; intros fuel freq0 vco_ri Hf Hn Hfuel;
    (destruct fuel as [|fuel]; [lia|]); rewrite pll_prescale_unfold.
  - assert (E : (freq0 <? 500000) = false) by (apply Z.ltb_ge; cbn in Hn; lia).
    rewrite E. exists freq0, vco_ri. split; [reflexivity | lia].
  - destruct (freq0 <? 500000) eqn:E.
    + apply Z.ltb_lt in E.
      rewrite (wrap32_small (freq0 * 2)) by lia.
      destruct (IH fuel (freq0 * 2) (uint8 (vco_ri + 1))) as (f1 & r1 & H1 & H2).
      * lia.
      * rewrite Nat2Z.inj_succ, Z.pow_succ_r in Hn by lia. lia.
      * lia.
      * exists f1, r1. split; [exact H1 | lia].
    + apply Z.ltb_ge in E. exists freq0, vco_ri. split; [reflexivity | lia].
Qed.

Lemma clk_prescale_unfold (fuel : nat) (freq0 omd_div : Z) :
  clk_prescale (S fuel) freq0 omd_div =
    if (freq0 <? 500000) && (omd_div <? 128)
    then clk_prescale fuel (wrap32 (freq0 * 2)) (wrap32 (omd_div + 1))
    else Some (freq0, omd_div).
Proof. reflexivity. Qed.

Lemma clk_prescale_defined (n : nat) :
  forall (fuel : nat) (freq0 omd_div : Z),
    0 < freq0 < 2 ^ 32 -> 500000 <= freq0 * 2 ^ Z.of_nat n -> (n < fuel)%nat ->
    0 <= omd_div -> omd_div + Z.of_nat n < 128 ->
    exists freq1 omd_div1,
      clk_prescale fuel freq0 omd_div = Some (freq1, omd_div1) /\
      500000 <= freq1 <= Z.max freq0 999999.
Proof.
  induction n as [|n IH]; intros fuel freq0 omd_div Hf Hn Hfuel Ho Hon;
    (destruct fuel as [|fuel]; [lia|]); rewrite clk_prescale_unfold.
  - assert (E : (freq0 <? 500000) = false) by (apply Z.ltb_ge; cbn in Hn; lia).
    rewrite E. exists freq0, omd_div. split; [reflexivity | lia].
  - destruct (freq0 <? 500000) eqn:E.
    + apply Z.ltb_lt in E.
      assert (E2 : (omd_div <? 128) = true) by (apply Z.ltb_lt; lia).
      rewrite E2. cbn [andb].
      rewrite (wrap32_small (freq0 * 2)), (wrap32_small (omd_div + 1)) by lia.
      destruct (IH fuel (freq0 * 2) (omd_div + 1)) as (f1 & r1 & H1 & H2).
      * lia.
      * rewrite Nat2Z.inj_succ, Z.pow_succ_r in Hn by lia. lia.
      * lia.
      * lia.
      * lia.
      * exists f1, r1. split; [exact H1 | lia].
    + apply Z.ltb_ge in E. exists freq0, omd_div. split; [reflexivity | lia].
Qed.

(** ** The checks of a pass *)

Lemma freq_check (f : Z) :
  (f <? SI5351_MIN_FREQ) || (SI5351_MAX_FREQ <? f) = false <-> freq_in_range f.
Proof.
  unfold freq_in_range. rewrite orb_false_iff, Z.ltb_ge, Z.ltb_ge. tauto.
Qed.

(** The four ways through the checks of a clock stage. *)
Lemma clk_plan_cases (s : si5351_t) (i : Z) :
  (at_index (freq s) i = 0 /\ clk_plan s i = Next None) \/
  (at_index (freq s) i <> 0 /\ SI5351_PLLS <= at_index (pll s) i /\
   clk_plan s i = Return (Failure PllStageOutOfRange)) \/
  (at_index (freq s) i <> 0 /\ at_index (pll s) i < SI5351_PLLS /\
   ~ freq_in_range (at_index (freq s) i) /\
   clk_plan s i = Return (Failure FrequencyOutOfRange)) \/
  (at_index (freq s) i <> 0 /\ at_index (pll s) i < SI5351_PLLS /\
   freq_in_range (at_index (freq s) i) /\
   exists omd_div p, clk_plan s i = Next (Some (omd_div, p))).
Proof.
  unfold clk_plan.
  destruct (at_index (freq s) i =? 0) eqn:E0.
  { left. apply Z.eqb_eq in E0. auto. }
  apply Z.eqb_neq in E0. right.
  destruct (SI5351_PLLS <=? at_index (pll s) i) eqn:Ep.
  { left. apply Z.leb_le in Ep. auto. }
  apply Z.leb_gt in Ep. right. cbv zeta.
  destruct ((at_index (freq s) i <? SI5351_MIN_FREQ) ||
            (SI5351_MAX_FREQ <? at_index (freq s) i)) eqn:Ef.
  { left. repeat split; auto. intros H. apply freq_check in H. congruence. }
  apply freq_check in Ef. right.
  split; [exact E0|]. split; [exact Ep|]. split; [exact Ef|].
  unfold freq_in_range, SI5351_MIN_FREQ, SI5351_MAX_FREQ in Ef.
  destruct (clk_prescale_defined 6 129 (at_index (freq s) i) 0)
    as (freq1 & omd_div & Hpre & Hf1);
    [lia | change (2 ^ Z.of_nat 6) with 64; lia | lia | lia | cbn; lia |].
  rewrite Hpre.
  destruct (si5351_calc_multisynth_defined
              (at_index (vco_freq s) (at_index (pll s) i)) freq1) as [p Hp]; [lia|].
  rewrite Hp. eauto.
Qed.

(** ** The stages of a pass, step by step *)

Lemma steps_weaken (R R' : outcome -> Prop) (P P' Q : si5351_t -> Prop) (m : M unit) :
  steps R P m Q -> (forall o, R o -> R' o) -> (forall s, P' s -> P s) ->
  steps R' P' m Q.
Proof.
  intros Hm HR HP s Hs. specialize (Hm s (HP s Hs)).
  destruct (m s) as [[[[]|o] s1] w1]; auto.
Qed.

Lemma steps_bind_get (R : outcome -> Prop) (P Q : si5351_t -> Prop)
    (k : si5351_t -> M unit) :
  (forall s0, P s0 -> steps R P (k s0) Q) ->
  steps R P (bind get k) Q.
Proof. intros H s Hs. rewrite bind_get_run. exact (H s Hs s Hs). Qed.

Lemma steps_return (R : outcome -> Prop) (P Q : si5351_t -> Prop) (o : outcome) :
  (forall s, P s -> R o) -> steps R P (return_ o) Q.
Proof. intros H s Hs. exact (H s Hs). Qed.

Lemma bind_modify_run {B} (f : si5351_t -> si5351_t) (k : unit -> M B) (s : si5351_t) :
  bind (modify f) k s = k tt (f s).
Proof. unfold bind, modify. destruct (k tt (f s)) as [[r s'] w]. reflexivity. Qed.

Lemma write_pll_params_run (i : Z) (p : Z * Z * Z) (s : si5351_t) :
  exists w, write_pll_params i p s = (Next tt, s, w).
Proof.
  destruct p as [[pll0 pll1] pll2]. unfold write_pll_params.
  rewrite !bind_write_run. unfold write. eauto.
Qed.

(** A PLL stage goes on when its plan gives a VCO frequency and the
    crystal frequency is not 0; otherwise it returns the plan's outcome,
    or is undefined for a crystal frequency of 0. *)
Lemma configure_pll_steps (R : outcome -> Prop) (s0 : si5351_t) (i : Z) :
  (forall o, pll_plan s0 i = Return o -> R o) ->
  (crystal_freq s0 = 0 -> R Undefined) ->
  steps R (same_settings s0) (configure_pll i) (same_settings s0).
Proof.
  intros HR Hcf s [v ->]. unfold configure_pll. rewrite bind_get_run.
  change (pll_plan (set_vco_freq v s0) i) with (pll_plan s0 i).
  destruct (pll_plan s0 i) as [vco|o]; [|apply HR; reflexivity].
  rewrite bind_modify_run.
  change (crystal_freq (set_vco_freq v s0)) with (crystal_freq s0).
  destruct (Z.eq_dec (crystal_freq s0) 0) as [Hz|Hz].
  - rewrite Hz. unfold si5351_calc_multisynth. cbn [Z.eqb]. apply Hcf. exact Hz.
  - destruct (si5351_calc_multisynth_defined vco (crystal_freq s0) Hz) as [p Hp].
    rewrite Hp.
    match goal with |- context [write_pll_params i p ?t] =>
      destruct (write_pll_params_run i p t) as [w Hw]; rewrite Hw end.
    eexists. reflexivity.
Qed.

(** A clock stage goes on for a clock that is off or valid, and returns
    the failure of the first check that does not hold. *)
Lemma configure_clock_steps (R : outcome -> Prop) (s0 : si5351_t) (i : Z) :
  (at_index (freq s0) i <> 0 -> SI5351_PLLS <= at_index (pll s0) i ->
   R (Failure PllStageOutOfRange)) ->
  (at_index (freq s0) i <> 0 -> ~ freq_in_range (at_index (freq s0) i) ->
   R (Failure FrequencyOutOfRange)) ->
  steps R (same_settings s0) (configure_clock i) (same_settings s0).
Proof.
  intros HRp HRf s [v ->]. unfold configure_clock. rewrite bind_get_run.
  destruct (clk_plan_cases (set_vco_freq v s0) i)
    as [(_ & E) | [(Hf & Hp & E) | [(Hf & Hp & Hr & E) | (Hf & Hp & Hr & omd & p & E)]]];
    rewrite E.
  - exists v. reflexivity.
  - apply HRp; assumption.
  - apply HRf; assumption.
  - unfold bind at 1.
    match goal with |- context [write_clk_params i omd p ?t] =>
      destruct (write_clk_params_run i omd p t) as [w Hw]; rewrite Hw end.
    rewrite !bind_write_run. unfold write. exists v. reflexivity.
Qed.

(** The stage of an active clock whose frequency is out of range returns
    a failure. *)
Lemma configure_clock_stops (R : outcome -> Prop) (s0 : si5351_t) (i : Z) :
  at_index (freq s0) i <> 0 -> ~ freq_in_range (at_index (freq s0) i) ->
  (SI5351_PLLS <= at_index (pll s0) i -> R (Failure PllStageOutOfRange)) ->
  R (Failure FrequencyOutOfRange) ->
  steps R (same_settings s0) (configure_clock i) (fun _ => False).
Proof.
  intros Hf Hr HRp HRf s [v ->]. unfold configure_clock. rewrite bind_get_run.
  destruct (clk_plan_cases (set_vco_freq v s0) i)
    as [(Hf0 & E) | [(_ & Hp & E) | [(_ & Hp & _ & E) | (_ & Hp & Hr' & _)]]];
    try rewrite E.
  - contradiction.
  - apply HRp. exact Hp.
  - exact HRf.
  - contradiction.
Qed.

(** The whole pass, from its two loops. *)
Lemma configure_body_steps (R : outcome -> Prop) (s0 : si5351_t)
    (Q : si5351_t -> Prop) :
  config s0 = true ->
  steps R (same_settings s0) (for_loop configure_pll 0 2) (same_settings s0) ->
  steps R (same_settings s0) (for_loop configure_clock 0 8) Q ->
  (forall s, Q s -> R Success) ->
  steps R (same_settings s0) configure_body (fun _ => False).
Proof.
  intros Hcfg Hpll Hclk Hend. unfold configure_body.
  apply steps_bind_get. intros s [v ->].
  change (config (set_vco_freq v s0)) with (config s0). rewrite Hcfg. cbn [negb].
  do 3 (apply steps_bind with (Q := same_settings s0); [apply steps_write|]).
  apply steps_bind with (Q := same_settings s0).
  { apply steps_for_loop. intros j Hj. apply steps_write. }
  apply steps_bind with (Q := same_settings s0); [apply steps_write|].
  apply steps_bind with (Q := same_settings s0); [exact Hpll|].
  apply steps_bind with (Q := Q); [exact Hclk|].
  apply steps_bind_get. intros s1 Hs1.
  apply steps_bind with (Q := Q); [apply steps_write|].
  apply steps_return. exact Hend.
Qed.

Lemma si5351_configure_steps (R : outcome -> Prop) (s0 : si5351_t)
    (Q : si5351_t -> Prop) :
  config s0 = true ->
  steps R (same_settings s0) (for_loop configure_pll 0 2) (same_settings s0) ->
  steps R (same_settings s0) (for_loop configure_clock 0 8) Q ->
  (forall s, Q s -> R Success) ->
  R (fst (fst (si5351_configure s0))).
Proof.
  intros Hcfg Hpll Hclk Hend.
  pose proof (configure_body_steps R s0 Q Hcfg Hpll Hclk Hend s0 (same_settings_refl s0))
    as H.
  unfold si5351_configure, run.
  destruct (configure_body s0) as [[[[]|o] s'] w]; [contradiction | exact H].
Qed.

(** ** Floating point: rounding

    [SpecFloat] rounds to nearest even.  For the double-precision quotient
    of line 116 it is enough that the result of an operation is the exact
    value truncated to [prec] digits or the next float above it. *)

Lemma digits2_pos_size (p : positive) : digits2_pos p = Pos.size p.
Proof. induction p as [p IH|p IH|]; cbn; try rewrite IH; reflexivity. Qed.

Lemma Zdigits2_log2 (p : positive) : Zdigits2 (Zpos p) = Z.log2 (Zpos p) + 1.
Proof.
  unfold Zdigits2. rewrite digits2_pos_size.
  destruct p as [p|p|]; cbn [Pos.size Z.log2]; try rewrite Pos2Z.inj_succ; lia.
Qed.

Lemma digits2_pos_log2 (p : positive) : Zpos (digits2_pos p) = Z.log2 (Zpos p) + 1.
Proof. exact (Zdigits2_log2 p). Qed.

Lemma shr_1_m (mrs : shr_record) :
  0 <= shr_m mrs -> shr_m (shr_1 mrs) = shr_m mrs / 2.
Proof.
  destruct mrs as [m r s]. cbn [shr_m]. intros Hm.
  rewrite <- Z.div2_div.
  destruct m as [|p|p]; [reflexivity| |lia].
  destruct p; reflexivity.
Qed.

Lemma shr_1_nonneg (mrs : shr_record) : 0 <= shr_m mrs -> 0 <= shr_m (shr_1 mrs).
Proof. intros H. rewrite shr_1_m by exact H. apply Z.div_pos; lia. Qed.

Lemma pow2_xI (n : positive) : 2 ^ Zpos n~1 = 2 * (2 ^ Zpos n * 2 ^ Zpos n).
Proof.
  replace (Zpos n~1) with (Zpos n + Zpos n + 1) by lia.
  rewrite !Z.pow_add_r by lia. change (2 ^ 1) with 2. ring.
Qed.

Lemma pow2_xO (n : positive) : 2 ^ Zpos n~0 = 2 ^ Zpos n * 2 ^ Zpos n.
Proof.
  replace (Zpos n~0) with (Zpos n + Zpos n) by lia.
  rewrite !Z.pow_add_r by lia. ring.
Qed.

Lemma iter_shr_1_m (n : positive) :
  forall mrs, 0 <= shr_m mrs ->
    shr_m (SpecFloat.iter_pos shr_1 n mrs) = shr_m mrs / 2 ^ Zpos n.
Proof.
  induction n as [n IH|n IH|]; intros mrs Hm; cbn [SpecFloat.iter_pos].
  - assert (H1 := shr_1_nonneg mrs Hm).
    assert (H2 : 0 <= shr_m (SpecFloat.iter_pos shr_1 n (shr_1 mrs))).
    { rewrite IH by exact H1. apply Z.div_pos; lia. }
    rewrite IH by exact H2. rewrite IH by exact H1. rewrite shr_1_m by exact Hm.
    rewrite !Z.div_div by lia. rewrite pow2_xI. f_equal; ring.
  - assert (H2 : 0 <= shr_m (SpecFloat.iter_pos shr_1 n mrs)).
    { rewrite IH by exact Hm. apply Z.div_pos; lia. }
    rewrite IH by exact H2. rewrite IH by exact Hm.
    rewrite Z.div_div by lia. rewrite pow2_xO. reflexivity.
  - rewrite shr_1_m by exact Hm. reflexivity.
Qed.

Lemma shr_m_of_loc (m : Z) (l : location) : shr_m (shr_record_of_loc m l) = m.
Proof. destruct l as [|[]]; reflexivity. Qed.

Lemma loc_of_shr_of_loc (m : Z) (l : location) :
  loc_of_shr_record (shr_record_of_loc m l) = l.
Proof. destruct l as [|[]]; reflexivity. Qed.

Lemma round_nearest_even_cases (m : Z) (l : location) :
  round_nearest_even m l = m \/ round_nearest_even m l = m + 1.
Proof. destruct l as [|[]]; cbn; auto. destruct (Z.even m); auto. Qed.

(** shr by k >= 0 *)
Lemma shr_spec (mrs : shr_record) (e k : Z) :
  0 <= shr_m mrs -> 0 <= k ->
  shr_m (fst (shr mrs e k)) = shr_m mrs / 2 ^ k /\ snd (shr mrs e k) = e + k.
Proof.
  intros Hm Hk. unfold shr. destruct k as [|p|p]; [| |lia].
  - cbn. rewrite Z.div_1_r. lia.
  - cbn [fst snd]. split; [apply iter_shr_1_m; exact Hm | reflexivity].
Qed.

Lemma shr_zero_loc (m e : Z) (l : location) :
  shr (shr_record_of_loc m l) e 0 = (shr_record_of_loc m l, e).
Proof. reflexivity. Qed.

Section Round.
Variables prec emax : Z.
Hypothesis Hprec : 1 < prec.
Let emin := SpecFloat.emin prec emax.
Let fexp := SpecFloat.fexp prec emax.

(** Rounding a positive mantissa with at least [prec] digits, in the
    normal range. *)
Lemma binary_round_aux_pos (s : bool) (m : positive) (e : Z) (l : location) :
  let dg := Z.log2 (Zpos m) + 1 in
  let k := dg - prec in
  0 <= k -> emin <= e -> e + k + 1 <= emax - prec ->
  exists (m' : positive) (e' : Z) (m2 : Z),
    binary_round_aux prec emax s (Zpos m) e l = S754_finite s m' e' /\
    e + k <= e' <= e + k + 1 /\
    Zpos m' * 2 ^ (e' - e) = m2 * 2 ^ k /\
    (m2 = Zpos m / 2 ^ k \/ m2 = Zpos m / 2 ^ k + 1) /\
    (k = 0 -> l = loc_Exact -> m' = m /\ e' = e) /\
    Z.log2 (Zpos m') + 1 = prec.
Proof.
  intros dg k Hk He Hmax.
  assert (Hlog := Z.log2_spec (Zpos m) ltac:(lia)).
  fold dg in Hlog. replace (Z.succ (Z.log2 (Zpos m))) with dg in Hlog by (unfold dg; lia).
  replace (Z.log2 (Zpos m)) with (dg - 1) in Hlog by (unfold dg; lia).
  assert (Hdg : dg = prec + k) by (unfold k; lia).
  (* first shift *)
  unfold binary_round_aux, shr_fexp.
  rewrite Zdigits2_log2. fold dg.
  assert (Hfexp1 : SpecFloat.fexp prec emax (dg + e) - e = k).
  { unfold SpecFloat.fexp. fold emin. unfold k. lia. }
  rewrite Hfexp1.
  pose proof (shr_spec (shr_record_of_loc (Zpos m) l) e k) as Hshr.
  rewrite shr_m_of_loc in Hshr. specialize (Hshr ltac:(lia) Hk).
  destruct (shr (shr_record_of_loc (Zpos m) l) e k) as [mrs1 e1] eqn:E1.
  cbn [fst snd] in Hshr. destruct Hshr as [Hm1 He1].
  set (m1 := Zpos m / 2 ^ k) in *.
  assert (Hm1b : 2 ^ (prec - 1) <= m1 < 2 ^ prec).
  { unfold m1. split.
    - apply Z.div_le_lower_bound; [lia|].
      rewrite <- Z.pow_add_r by lia. replace (k + (prec - 1)) with (dg - 1) by lia. lia.
    - apply Z.div_lt_upper_bound; [lia|].
      rewrite <- Z.pow_add_r by lia. replace (k + prec) with dg by lia. lia. }
  remember (round_nearest_even (shr_m mrs1) (loc_of_shr_record mrs1)) as m2 eqn:Em2.
  assert (Hm2 : m2 = m1 \/ m2 = m1 + 1).
  { rewrite Em2, Hm1. apply round_nearest_even_cases. }
  assert (Hexact : k = 0 -> l = loc_Exact -> m2 = Zpos m /\ e1 = e).
  { intros Hk0 Hl. subst l. rewrite Hk0 in E1. rewrite shr_zero_loc in E1.
    injection E1 as <- <-. cbn in Em2. auto. }
  assert (Hm2pos : 0 < m2).
  { assert (0 < 2 ^ (prec - 1)) by (apply Z.pow_pos_nonneg; lia). lia. }
  destruct m2 as [|p2|p2]; [lia| |lia].
  rewrite Zdigits2_log2.
  destruct (Z.eq_dec (Zpos p2) (2 ^ prec)) as [Hcarry|Hnocarry].
  - (* carry *)
    assert (Hl2 : Z.log2 (Zpos p2) = prec) by (rewrite Hcarry; apply Z.log2_pow2; lia).
    rewrite Hl2.
    assert (Hfexp2 : SpecFloat.fexp prec emax (prec + 1 + e1) - e1 = 1).
    { unfold SpecFloat.fexp. fold emin. lia. }
    rewrite Hfexp2.
    pose proof (shr_spec (shr_record_of_loc (Zpos p2) loc_Exact) e1 1) as Hshr2.
    rewrite shr_m_of_loc in Hshr2. specialize (Hshr2 ltac:(lia) ltac:(lia)).
    destruct (shr (shr_record_of_loc (Zpos p2) loc_Exact) e1 1) as [mrs3 e3] eqn:E3.
    cbn [fst snd] in Hshr2. destruct Hshr2 as [Hm3 He3].
    assert (Hm3v : shr_m mrs3 = 2 ^ (prec - 1)).
    { rewrite Hm3, Hcarry. change (2 ^ 1) with 2.
      replace prec with (prec - 1 + 1) at 1 by lia.
      rewrite Z.pow_add_r by lia. change (2 ^ 1) with 2. apply Z.div_mul. lia. }
    assert (0 < 2 ^ (prec - 1)) by (apply Z.pow_pos_nonneg; lia).
    destruct (shr_m mrs3) as [|p3|p3] eqn:Ep3; [lia| |lia].
    assert (Hle : (e3 <=? emax - prec) = true) by (apply Z.leb_le; lia).
    rewrite Hle. exists p3, e3, (Zpos p2).
    split; [reflexivity|]. split; [lia|]. split.
    { rewrite Hm3v, Hcarry. replace (e3 - e) with (k + 1) by lia.
      rewrite <- !Z.pow_add_r by lia. f_equal. lia. }
    split; [exact Hm2|]. split.
    { intros Hk0 Hl. exfalso. destruct (Hexact Hk0 Hl) as [Hx _].
      unfold m1 in Hm1b. rewrite Hk0, Z.div_1_r in Hm1b. lia. }
    rewrite Hm3v. rewrite Z.log2_pow2 by lia. lia.
  - (* no carry *)
    assert (Hp2b : 2 ^ (prec - 1) <= Zpos p2 < 2 ^ prec) by lia.
    assert (Hl2 : Z.log2 (Zpos p2) = prec - 1).
    { apply Z.log2_unique; [lia|]. replace (Z.succ (prec - 1)) with prec by lia. lia. }
    rewrite Hl2.
    assert (Hfexp2 : SpecFloat.fexp prec emax (prec - 1 + 1 + e1) - e1 = 0).
    { unfold SpecFloat.fexp. fold emin. lia. }
    rewrite Hfexp2. rewrite shr_zero_loc. rewrite shr_m_of_loc.
    assert (Hle : (e1 <=? emax - prec) = true) by (apply Z.leb_le; lia).
    rewrite Hle. exists p2, e1, (Zpos p2).
    split; [reflexivity|]. split; [lia|]. split.
    { f_equal. f_equal. lia. }
    split; [exact Hm2|]. split.
    { intros Hk0 Hl. destruct (Hexact Hk0 Hl) as [Hx Hy].
      injection Hx as ->. split; [reflexivity | exact Hy]. }
    lia.
Qed.

End Round.

Lemma iter_xO_pow2 (p k : positive) : Zpos (Pos.iter xO p k) = Zpos p * 2 ^ Zpos k.
Proof.
  change (Pos.iter xO p k) with (shift_pos k p).
  rewrite shift_pos_correct. change (Z.pow_pos 2 k) with (2 ^ Zpos k). ring.
Qed.

Lemma shl_align_spec (m : positive) (e e' : Z) :
  e' <= e ->
  exists m', shl_align m e e' = (m', e') /\ Zpos m' = Zpos m * 2 ^ (e - e').
Proof.
  intros H. unfold shl_align. destruct (e' - e) as [|d|d] eqn:E; [| lia |].
  - exists m. assert (e' = e) by lia. subst e'. rewrite Z.sub_diag. split; [reflexivity | lia].
  - exists (Pos.iter xO m d). split; [reflexivity|].
    rewrite iter_xO_pow2. f_equal. f_equal. lia.
Qed.

Lemma shl_align_none (m : positive) (e e' : Z) :
  e <= e' -> shl_align m e e' = (m, e).
Proof. intros H. unfold shl_align. destruct (e' - e) as [|d|d] eqn:E; [reflexivity.. | lia]. Qed.

Lemma log2_digits_bounds (n d : Z) :
  0 < n -> d = Z.log2 n + 1 -> 2 ^ (d - 1) <= n < 2 ^ d.
Proof.
  intros Hn ->. pose proof (Z.log2_spec n Hn) as H.
  replace (Z.log2 n + 1 - 1) with (Z.log2 n) by lia.
  replace (Z.log2 n + 1) with (Z.succ (Z.log2 n)) by lia. exact H.
Qed.

Lemma digits_unique (n d : Z) :
  0 < d -> 2 ^ (d - 1) <= n < 2 ^ d -> Z.log2 n + 1 = d.
Proof.
  intros Hd H. rewrite (Z.log2_unique n (d - 1)); [lia | lia |].
  replace (Z.succ (d - 1)) with d by lia. exact H.
Qed.

Lemma shift_match (m s : Z) :
  0 < s ->
  match s with Zpos _ => Z.shiftl m s | Z0 => m | Zneg _ => 0 end = m * 2 ^ s.
Proof. intros H. destruct s; try lia. apply Z.shiftl_mul_pow2. lia. Qed.

Section Ops.
Variables prec emax : Z.
Hypothesis Hprec : 1 < prec.
Hypothesis Hemax : prec < emax.

Lemma fexp_normal (x : Z) : 3 - emax <= x -> fexp prec emax x = x - prec.
Proof. intros H. unfold fexp, emin. lia. Qed.

(** The conversion of a positive integer below [2^prec] is exact. *)
Lemma of_Z_exact (n : positive) :
  let d := Z.log2 (Zpos n) + 1 in
  d <= prec ->
  exists m', binary_normalize prec emax (Zpos n) 0 false = S754_finite false m' (d - prec) /\
             Zpos m' = Zpos n * 2 ^ (prec - d) /\ Z.log2 (Zpos m') + 1 = prec.
Proof.
  intros d Hd.
  assert (Hd1 : 1 <= d) by (unfold d; pose proof (Z.log2_nonneg (Zpos n)); lia).
  unfold binary_normalize, binary_round. rewrite digits2_pos_log2. fold d.
  rewrite Z.add_0_r. rewrite fexp_normal by lia.
  destruct (shl_align_spec n 0 (d - prec)) as (m1 & E1 & Hm1); [lia|].
  rewrite E1.
  assert (Hm1' : Zpos m1 = Zpos n * 2 ^ (prec - d)) by (rewrite Hm1; f_equal; f_equal; lia).
  assert (Hdig : Z.log2 (Zpos m1) + 1 = prec).
  { rewrite Hm1'. rewrite Z.log2_mul_pow2 by lia. fold d. lia. }
  destruct (binary_round_aux_pos prec emax Hprec false m1 (d - prec) loc_Exact)
    as (m' & e' & m2 & Hr & _ & _ & _ & Hex & Hlog).
  - lia.
  - unfold emin. lia.
  - lia.
  - destruct Hex as [-> ->]; [lia | reflexivity |].
    exists m1. auto.
Qed.

(** Division of two positive normalised floats: the result is the
    quotient of the mantissas, truncated to [prec] digits or the next
    float. *)
Lemma SFdiv_normal (mx my : positive) (ex ey : Z) :
  Z.log2 (Zpos mx) + 1 = prec -> Z.log2 (Zpos my) + 1 = prec ->
  3 - emax + prec <= ex - ey -> ex - ey + 2 <= emax - prec ->
  let q := Zpos mx * 2 ^ prec / Zpos my in
  let k := Z.log2 q + 1 - prec in
  let e0 := ex - ey - prec in
  exists (m' : positive) (e' : Z) (m2 : Z),
    SFdiv prec emax (S754_finite false mx ex) (S754_finite false my ey)
      = S754_finite false m' e' /\
    0 <= k <= 1 /\ e0 + k <= e' <= e0 + k + 1 /\
    Zpos m' * 2 ^ (e' - e0) = m2 * 2 ^ k /\
    (m2 = q / 2 ^ k \/ m2 = q / 2 ^ k + 1) /\
    Z.log2 (Zpos m') + 1 = prec.
Proof.
  intros Hdx Hdy Hlo Hhi q k e0.
  pose proof (log2_digits_bounds (Zpos mx) prec ltac:(lia) ltac:(lia)) as Hbx.
  pose proof (log2_digits_bounds (Zpos my) prec ltac:(lia) ltac:(lia)) as Hby.
  assert (Hpp : 0 < 2 ^ (prec - 1)) by (apply Z.pow_pos_nonneg; lia).
  assert (Hp2 : 2 ^ prec = 2 * 2 ^ (prec - 1)).
  { replace prec with (prec - 1 + 1) at 1 by lia. rewrite Z.pow_add_r by lia.
    change (2 ^ 1) with 2. ring. }
  assert (Hq : 2 ^ (prec - 1) <= q < 2 ^ (prec + 1)).
  { unfold q. split.
    - apply Z.div_le_lower_bound; [lia|]. nia.
    - apply Z.div_lt_upper_bound; [lia|].
      replace (2 ^ (prec + 1)) with (2 * 2 ^ prec) by (rewrite Z.pow_add_r by lia; change (2 ^ 1) with 2; ring).
      nia. }
  assert (Hk : 0 <= k <= 1).
  { unfold k. assert (prec - 1 <= Z.log2 q) by (apply Z.log2_le_pow2; lia).
    assert (Z.log2 q < prec + 1) by (apply Z.log2_lt_pow2; lia). lia. }
  unfold SFdiv, SFdiv_core_binary.
  rewrite !Zdigits2_log2, Hdx, Hdy.
  replace (prec + ex - (prec + ey)) with (ex - ey) by lia.
  rewrite fexp_normal by lia.
  rewrite Z.min_l by lia.
  replace (ex - ey - (ex - ey - prec)) with prec by lia.
  rewrite shift_match by lia.
  pose proof (Z_div_mod (Zpos mx * 2 ^ prec) (Zpos my) ltac:(lia)) as Hdm.
  unfold Z.div in q. 
  destruct (Z.div_eucl (Zpos mx * 2 ^ prec) (Zpos my)) as [q' r'] eqn:Ede.
  cbn [fst] in q. subst q. fold e0.
  destruct q' as [|pq|pq]; [lia| |lia].
  destruct (binary_round_aux_pos prec emax Hprec false pq e0 (new_location (Zpos my) r'))
    as (m' & e' & m2 & Hr & He' & Hval & Hm2 & _ & Hlog).
  - fold k. lia.
  - unfold emin, e0. lia.
  - fold k. unfold e0. lia.
  - cbn [xorb]. rewrite Hr. exists m', e', m2. fold k in He', Hval, Hm2. auto 10.
Qed.

(** Addition of two positive floats whose aligned sum has at least
    [prec] digits. *)
Lemma SFadd_normal (mx my : positive) (ex ey : Z) :
  let ez := Z.min ex ey in
  let sum := Zpos mx * 2 ^ (ex - ez) + Zpos my * 2 ^ (ey - ez) in
  let k := Z.log2 sum + 1 - prec in
  0 <= k -> 3 - emax - prec <= ez -> ez + k + 1 <= emax - prec ->
  exists (m' : positive) (e' : Z) (m2 : Z),
    SFadd prec emax (S754_finite false mx ex) (S754_finite false my ey)
      = S754_finite false m' e' /\
    ez + k <= e' <= ez + k + 1 /\
    Zpos m' * 2 ^ (e' - ez) = m2 * 2 ^ k /\
    (m2 = sum / 2 ^ k \/ m2 = sum / 2 ^ k + 1).
Proof.
  intros ez sum k Hk Hlo Hhi.
  unfold SFadd. fold ez. cbn [cond_Zopp].
  destruct (shl_align_spec mx ex ez) as (ax & Ex & Hax); [unfold ez; lia|].
  destruct (shl_align_spec my ey ez) as (ay & Ey & Hay); [unfold ez; lia|].
  rewrite Ex, Ey. cbn [fst]. change (Zpos ax + Zpos ay) with (Zpos (ax + ay)).
  assert (Hsum : Zpos (ax + ay) = sum).
  { rewrite Pos2Z.inj_add, Hax, Hay. reflexivity. }
  unfold binary_normalize, binary_round.
  rewrite digits2_pos_log2, Hsum.
  replace (Z.log2 sum + 1) with (prec + k) by (unfold k; lia).
  rewrite fexp_normal by lia.
  rewrite shl_align_none by lia.
  destruct (binary_round_aux_pos prec emax Hprec false (ax + ay) ez loc_Exact)
    as (m' & e' & m2 & Hr & He' & Hval & Hm2 & _ & Hlog).
  - rewrite Hsum. fold k. exact Hk.
  - unfold emin. lia.
  - rewrite Hsum. fold k. lia.
  - rewrite Hsum in *. fold k in He', Hval, Hm2.
    rewrite Hr. exists m', e', m2. auto.
Qed.

End Ops.

Lemma mul_lt_cancel (a b c : Z) : 0 < a -> a * b < a * c -> b < c.
Proof. intros Ha H. apply Z.mul_lt_mono_pos_l in H; assumption. Qed.

Lemma mul_le_cancel (a b c : Z) : 0 < a -> a * b <= a * c -> b <= c.
Proof. intros Ha H. apply Z.mul_le_mono_pos_l in H; assumption. Qed.

(** Truncating or rounding up a multiple-bounded value: if [A * T <= s]
    then [A * T <= T * (s / T)]. *)
Lemma div_floor_multiple (s T A : Z) :
  0 < T -> A * T <= s -> A * T <= T * (s / T).
Proof.
  intros HT H. assert (HA : A <= s / T) by (apply Z.div_le_lower_bound; lia).
  rewrite (Z.mul_comm A T). apply Z.mul_le_mono_nonneg_l; lia.
Qed.

Lemma div_floor_upper (s T : Z) : 0 < T -> 0 <= s -> T * (s / T) <= s < T * (s / T) + T.
Proof.
  intros HT Hs. pose proof (Z.mul_div_le s T HT).
  pose proof (Z.mul_succ_div_gt s T HT). lia.
Qed.

(** The arithmetic of the divider: a quotient known up to one unit in the
    last place of a 53-bit mantissa, plus 3, truncates to the integer
    quotient plus 3. *)
Lemma omd_arith (f P c q T1 Vn T U sum Wn : Z) :
  1 <= f <= 150000000 -> 1 <= P -> P <= f < 2 * P -> 1 <= c -> c * P = 134217728 ->
  q = 600000000 * (16777216 * P) / f ->
  (T1 = 1 \/ T1 = 2) ->
  T1 * (q / T1) <= Vn <= T1 * (q / T1) + T1 ->
  sum = Vn * c + 3 * 2251799813685248 ->
  1 <= T -> 1 <= U -> T * U = 2251799813685248 ->
  T * 4503599627370496 <= sum ->
  T * (sum / T) <= Wn <= T * (sum / T) + T ->
  Wn / 2251799813685248 = 600000000 / f + 3.
Proof.
  intros Hf HP HPf Hc HcP Hq HT1 HVn Hsum HT HU HTU Hlog HWn.
  set (K := 600000000 / f).
  assert (HK : f * K <= 600000000 < f * (K + 1)).
  { unfold K. pose proof (Z.mul_div_le 600000000 f ltac:(lia)).
    pose proof (Z.mul_succ_div_gt 600000000 f ltac:(lia)). lia. }
  assert (HK0 : 0 <= K) by (unfold K; apply Z.div_pos; lia).
  set (N := 16777216 * P) in *.
  assert (HN : 0 < N) by (unfold N; lia).
  assert (Hqb : f * q <= 600000000 * N < f * (q + 1)).
  { rewrite Hq. pose proof (Z.mul_div_le (600000000 * N) f ltac:(lia)).
    pose proof (Z.mul_succ_div_gt (600000000 * N) f ltac:(lia)). lia. }
  assert (Hq0 : 0 <= q) by (rewrite Hq; apply Z.div_pos; lia).
  assert (HKq : K * N <= q).
  { assert (H1 : f * K * N <= 600000000 * N)
      by (apply Z.mul_le_mono_nonneg_r; lia).
    assert (H2 : f * (K * N) < f * (q + 1)) by lia.
    apply mul_lt_cancel in H2; lia. }
  assert (Hgap : q + 8388608 < (K + 1) * N).
  { assert (H1 : (600000000 + 1) * N <= f * (K + 1) * N)
      by (apply Z.mul_le_mono_nonneg_r; lia).
    assert (H2 : f * 8388608 < N) by (unfold N; lia).
    assert (H3 : f * (q + 8388608) < f * ((K + 1) * N)) by lia.
    apply mul_lt_cancel in H3; lia. }
  assert (HVlo : K * N <= Vn).
  { destruct HT1 as [-> | ->].
    - rewrite Z.div_1_r in HVn. lia.
    - assert (E : K * N = (K * (8388608 * P)) * 2) by (unfold N; ring).
      assert (K * (8388608 * P) * 2 <= 2 * (q / 2)).
      { apply div_floor_multiple; lia. }
      lia. }
  assert (HVhi : Vn <= q + 2).
  { destruct HT1 as [-> | ->].
    - rewrite Z.div_1_r in HVn. lia.
    - pose proof (div_floor_upper q 2 ltac:(lia) Hq0). lia. }
  assert (HNc : N * c = 2251799813685248).
  { unfold N. replace (16777216 * P * c) with (16777216 * (c * P)) by ring.
    rewrite HcP. reflexivity. }
  assert (Hslo : (K + 3) * 2251799813685248 <= sum).
  { assert (H1 : K * N * c <= Vn * c) by (apply Z.mul_le_mono_nonneg_r; lia).
    assert (H2 : K * N * c = K * 2251799813685248) by (rewrite <- HNc; ring).
    lia. }
  assert (Hshi : sum + 8388606 * c <= (K + 4) * 2251799813685248).
  { assert (H1 : (Vn + 8388606) * c <= (K + 1) * N * c)
      by (apply Z.mul_le_mono_nonneg_r; lia).
    assert (H2 : (K + 1) * N * c = (K + 1) * 2251799813685248) by (rewrite <- HNc; ring).
    lia. }
  assert (Hs0 : 0 <= sum) by lia.
  assert (HTK : 2 * T < K + 4) by lia.
  assert (HTc : T < 8388606 * c).
  { assert (HKP : K * P <= K * f) by (apply Z.mul_le_mono_nonneg_l; lia).
    assert (H1 : 2 * T * P < (K + 4) * P) by (apply Z.mul_lt_mono_pos_r; lia).
    assert (HP27 : 1 * P <= c * P) by (apply Z.mul_le_mono_nonneg_r; lia).
    assert (H2 : 8388606 * c * P * 2 = 8388606 * 134217728 * 2) by (rewrite <- HcP; ring).
    assert (H3 : (2 * P) * T < (2 * P) * (8388606 * c)) by lia.
    apply mul_lt_cancel in H3; lia. }
  assert (HWlo : (K + 3) * 2251799813685248 <= Wn).
  { assert (E : (K + 3) * 2251799813685248 = ((K + 3) * U) * T) by (rewrite <- HTU; ring).
    assert (((K + 3) * U) * T <= T * (sum / T)).
    { apply div_floor_multiple; lia. }
    lia. }
  assert (HWhi : Wn < (K + 4) * 2251799813685248).
  { pose proof (div_floor_upper sum T ltac:(lia) Hs0). lia. }
  symmetry. apply Z.div_unique with (r := Wn - (K + 3) * 2251799813685248); lia.
Qed.

Lemma pow2_split (a b : Z) : 0 <= a -> 0 <= b -> 2 ^ (a + b) = 2 ^ a * 2 ^ b.
Proof. intros. apply Z.pow_add_r; assumption. Qed.

Lemma pll_omd_quotient_floor (f : Z) :
  1 <= f <= 150000000 ->
  F64.to_uint32 (pll_omd_quotient f) = Some (600000000 / f + 3).
Proof.
  intros Hf. destruct f as [|n|n]; [lia| |lia].
  assert (H53 : 1 < 53) by lia. assert (Hem : 53 < 1024) by lia.
  set (d := Z.log2 (Zpos n) + 1).
  assert (Hdb := log2_digits_bounds (Zpos n) d ltac:(lia) eq_refl).
  assert (Hd1 : 1 <= d) by (unfold d; pose proof (Z.log2_nonneg (Zpos n)); lia).
  assert (Hd28 : d <= 28).
  { assert (Z.log2 (Zpos n) < 28) by (apply Z.log2_lt_pow2; [lia|]; change (2 ^ 28) with 268435456; lia).
    unfold d. lia. }
  unfold pll_omd_quotient, F64.add, F64.div.
  (* the operands *)
  change (F64.of_Z 600000000) with (S754_finite false 5033164800000000 (-23)).
  change (F64.of_Z 3) with (S754_finite false 6755399441055744 (-51)).
  destruct (of_Z_exact 53 1024 H53 Hem n) as (my & Ey & Hmy & Hdy); [fold d; lia|].
  fold d in Ey, Hmy. unfold F64.of_Z, F64.prec, F64.emax. rewrite Ey.
  (* the quotient *)
  destruct (SFdiv_normal 53 1024 H53 5033164800000000 my (-23) (d - 53))
    as (mv & ev & m2 & Ev & Hk1 & Hev & Hvn & Hm2 & Hdv); [reflexivity | exact Hdy | lia | lia |].
  rewrite Ev.
  set (q := Zpos 5033164800000000 * 2 ^ 53 / Zpos my) in *.
  set (k1 := Z.log2 q + 1 - 53) in *.
  replace (-23 - (d - 53) - 53) with (-23 - d) in * by lia.
  assert (Hbv := log2_digits_bounds (Zpos mv) 53 ltac:(lia) ltac:(lia)).
  set (P := 2 ^ (d - 1)).
  set (c := 2 ^ (28 - d)).
  assert (HP1 : 1 <= P) by (unfold P; pose proof (Z.pow_pos_nonneg 2 (d - 1)); lia).
  assert (Hc1 : 1 <= c) by (unfold c; pose proof (Z.pow_pos_nonneg 2 (28 - d)); lia).
  assert (HcP : c * P = 134217728).
  { unfold c, P. rewrite <- pow2_split by lia. replace (28 - d + (d - 1)) with 27 by lia. reflexivity. }
  assert (H2d : 2 ^ d = 2 * P).
  { unfold P. replace d with (1 + (d - 1)) at 1 by lia. rewrite pow2_split by lia. reflexivity. }
  assert (Hq : q = 600000000 * (16777216 * P) / Zpos n).
  { unfold q. rewrite Hmy.
    replace (Zpos 5033164800000000 * 2 ^ 53)
      with (600000000 * (16777216 * P) * 2 ^ (53 - d)).
    - apply Z.div_mul_cancel_r; [lia|]. pose proof (Z.pow_pos_nonneg 2 (53 - d)). lia.
    - change (Zpos 5033164800000000) with (600000000 * 2 ^ 23).
      replace 16777216 with (2 ^ 24) by reflexivity. unfold P.
      rewrite <- !Z.mul_assoc. f_equal.
      rewrite <- !pow2_split by lia. f_equal. lia. }
  set (T1 := 2 ^ k1).
  assert (HT1 : T1 = 1 \/ T1 = 2).
  { unfold T1. assert (k1 = 0 \/ k1 = 1) as [-> | ->] by lia; auto. }
  set (Vn := m2 * T1).
  assert (HVn : T1 * (q / T1) <= Vn <= T1 * (q / T1) + T1).
  { unfold Vn. destruct Hm2 as [-> | ->]; fold T1; lia. }
  (* K <= V: the exponent of the quotient *)
  assert (HevN : Zpos mv * 2 ^ (ev + 23 + d) = Vn).
  { unfold Vn, T1. rewrite <- Hvn. f_equal. f_equal. lia. }
  assert (Hev51 : -51 <= ev).
  { (* Vn >= 4 N *)
    destruct (Z.le_gt_cases (-51) ev) as [H|H]; [exact H|exfalso].
    assert (HVlo : 4 * (16777216 * P) <= Vn).
    { assert (Hq4 : 4 * (16777216 * P) <= q).
      { rewrite Hq. apply Z.div_le_lower_bound; [lia|]. nia. }
      destruct HT1 as [E | E]; rewrite E in HVn.
      - rewrite Z.div_1_r in HVn. lia.
      - assert (2 * (16777216 * P) * 2 <= 2 * (q / 2)) by (apply div_floor_multiple; lia).
        lia. }
    assert (Hpw : 2 ^ (ev + 23 + d) * 2 ^ 53 <= 2 ^ 25 * (2 * P)).
    { rewrite <- H2d. rewrite <- !pow2_split by lia. apply Z.pow_le_mono_r; lia. }
    change (2 ^ 53) with 9007199254740992 in *. change (2 ^ 25) with 33554432 in Hpw.
    assert (0 < 2 ^ (ev + 23 + d)) by (apply Z.pow_pos_nonneg; lia).
    nia. }
  (* the sum *)
  destruct (SFadd_normal 53 1024 H53 mv 6755399441055744 ev (-51))
    as (mw & ew & m2' & Ew & Hew & Hwn & Hm2').
  - rewrite Z.min_r by lia. replace (-51 - -51) with 0 by lia.
    assert (2 ^ 52 <= Zpos mv * 2 ^ (ev - -51) + Zpos 6755399441055744 * 2 ^ 0).
    { assert (0 <= Zpos mv * 2 ^ (ev - -51)) by (apply Z.mul_nonneg_nonneg; [lia|apply Z.pow_nonneg; lia]).
      change (2 ^ 52) with 4503599627370496. change (2 ^ 0) with 1. lia. }
    assert (52 <= Z.log2 (Zpos mv * 2 ^ (ev - -51) + Zpos 6755399441055744 * 2 ^ 0))
      by (apply Z.log2_le_pow2; lia).
    lia.
  - lia.
  - rewrite Z.min_r by lia. replace (-51 - -51) with 0 by lia.
    assert (Zpos mv * 2 ^ (ev - -51) + Zpos 6755399441055744 * 2 ^ 0 < 2 ^ 100).
    { assert (H40 : 2 ^ (ev - -51) <= 2 ^ 40) by (apply Z.pow_le_mono_r; lia).
      assert (H0 : 0 < 2 ^ (ev - -51)) by (apply Z.pow_pos_nonneg; lia).
      change (2 ^ 53) with 9007199254740992 in *. change (2 ^ 40) with 1099511627776 in *.
      change (2 ^ 100) with 1267650600228229401496703205376. change (2 ^ 0) with 1.
      assert (Zpos mv * 2 ^ (ev - -51) <= 9007199254740992 * 1099511627776)
        by (apply Z.mul_le_mono_nonneg; lia).
      lia. }
    assert (Z.log2 (Zpos mv * 2 ^ (ev - -51) + Zpos 6755399441055744 * 2 ^ 0) < 100).
    { apply Z.log2_lt_pow2; [|assumption].
      assert (0 <= Zpos mv * 2 ^ (ev - -51)) by (apply Z.mul_nonneg_nonneg; [lia|apply Z.pow_nonneg; lia]).
      change (2 ^ 0) with 1. lia. }
    lia.
  - rewrite Ew. rewrite Z.min_r in * by lia. replace (-51 - -51) with 0 in * by lia.
    change (Zpos 6755399441055744 * 2 ^ 0) with (3 * 2251799813685248) in *.
    set (sum := Zpos mv * 2 ^ (ev - -51) + 3 * 2251799813685248) in *.
    set (k2 := Z.log2 sum + 1 - 53) in *.
    assert (Hsum : sum = Vn * c + 3 * 2251799813685248).
    { unfold sum. f_equal. rewrite <- HevN. unfold c. rewrite <- Z.mul_assoc.
      rewrite <- pow2_split by lia. f_equal. f_equal. lia. }
    assert (Hsumpos : 0 < sum).
    { unfold sum. assert (0 <= Zpos mv * 2 ^ (ev - -51)) by (apply Z.mul_nonneg_nonneg; [lia|apply Z.pow_nonneg; lia]). lia. }
    assert (Hsb := log2_digits_bounds sum (k2 + 53) Hsumpos ltac:(unfold k2; lia)).
    assert (Hk2lo : 0 <= k2).
    { unfold k2. assert (52 <= Z.log2 sum); [|lia].
      apply Z.log2_le_pow2; [lia|]. unfold sum.
      assert (0 <= Zpos mv * 2 ^ (ev - -51)) by (apply Z.mul_nonneg_nonneg; [lia|apply Z.pow_nonneg; lia]).
      change (2 ^ 52) with 4503599627370496. lia. }
    assert (Hk2hi : k2 <= 47).
    { unfold k2. assert (Z.log2 sum < 100); [|lia].
      apply Z.log2_lt_pow2; [lia|]. unfold sum.
      assert (H40 : 2 ^ (ev - -51) <= 2 ^ 40) by (apply Z.pow_le_mono_r; lia).
      assert (H0 : 0 < 2 ^ (ev - -51)) by (apply Z.pow_pos_nonneg; lia).
      change (2 ^ 53) with 9007199254740992 in *. change (2 ^ 40) with 1099511627776 in *.
      change (2 ^ 100) with 1267650600228229401496703205376.
      assert (Zpos mv * 2 ^ (ev - -51) <= 9007199254740992 * 1099511627776)
        by (apply Z.mul_le_mono_nonneg; lia).
      lia. }
    set (T := 2 ^ k2).
    set (U := 2 ^ (51 - k2)).
    assert (HT : 1 <= T) by (unfold T; pose proof (Z.pow_pos_nonneg 2 k2); lia).
    assert (HU : 1 <= U) by (unfold U; pose proof (Z.pow_pos_nonneg 2 (51 - k2)); lia).
    assert (HTU : T * U = 2251799813685248).
    { unfold T, U. rewrite <- pow2_split by lia. replace (k2 + (51 - k2)) with 51 by lia. reflexivity. }
    assert (Hlog : T * 4503599627370496 <= sum).
    { unfold T. change 4503599627370496 with (2 ^ 52). rewrite <- pow2_split by lia.
      replace (k2 + 52) with (k2 + 53 - 1) by lia. lia. }
    set (Wn := m2' * T).
    assert (HWn : T * (sum / T) <= Wn <= T * (sum / T) + T).
    { unfold Wn. destruct Hm2' as [-> | ->]; fold T; lia. }
    assert (HPf : P <= Zpos n < 2 * P) by (rewrite <- H2d; exact Hdb).
    pose proof (omd_arith (Zpos n) P c q T1 Vn T U sum Wn Hf HP1 HPf Hc1 HcP Hq HT1
                  HVn Hsum HT HU HTU Hlog HWn) as Hres.
    (* the cast *)
    assert (Hew0 : ew < 0) by lia.
    assert (Hshift : Z.shiftl (Zpos mw) ew = Wn / 2251799813685248).
    { rewrite <- (Z.opp_involutive ew). rewrite Z.shiftl_opp_r by lia.
      rewrite Z.shiftr_div_pow2 by lia.
      unfold Wn, T. rewrite <- Hwn.
      replace 2251799813685248 with (2 ^ (- ew) * 2 ^ (ew - -51)).
      - rewrite Z.div_mul_cancel_r; [reflexivity| |];
          pose proof (Z.pow_pos_nonneg 2 (- ew)); pose proof (Z.pow_pos_nonneg 2 (ew - -51)); lia.
      - rewrite <- pow2_split by lia. replace (- ew + (ew - -51)) with 51 by lia. reflexivity. }
    unfold F64.to_uint32. cbv zeta. rewrite Hshift, Hres.
    assert (600000000 / Zpos n <= 600000000).
    { apply Z.div_le_upper_bound; lia. }
    assert (E : (600000000 / Zpos n + 3 <? 2 ^ 32) = true).
    { apply Z.ltb_lt. change (2 ^ 32) with 4294967296. lia. }
    rewrite E. reflexivity.
Qed.

(** ** The PLL divider *)

Lemma land_clear_bit0 (t : Z) :
  0 <= t < 2 ^ 32 -> Z.land t (wrap32 (Z.lnot 1)) = 2 * (t / 2).
Proof.
  intros Ht. change (wrap32 (Z.lnot 1)) with 4294967294.
  apply Z.bits_inj'. intros n Hn. rewrite Z.land_spec.
  destruct (Z.eq_dec n 0) as [->|Hn0].
  - rewrite Z.testbit_even_0. apply andb_false_r.
  - assert (Ed : Z.testbit (2 * (t / 2)) n = Z.testbit t n).
    { replace n with (Z.succ (n - 1)) by lia.
      rewrite Z.double_bits_succ, Z.div2_bits by lia. reflexivity. }
    rewrite Ed.
    destruct (Z.lt_ge_cases n 32) as [Hlt|Hge].
    + assert (E : Z.testbit 4294967294 n = true).
      { change 4294967294 with (Z.shiftl (Z.ones 31) 1).
        rewrite Z.shiftl_spec by lia. apply Z.ones_spec_low. lia. }
      rewrite E. apply andb_true_r.
    + assert (E : Z.testbit t n = false).
      { destruct (Z.eq_dec t 0) as [->|Ht0]; [apply Z.bits_0|].
        apply Z.bits_above_log2; [lia|].
        assert (Z.log2 t < 32) by (apply Z.log2_lt_pow2; lia). lia. }
      rewrite E. reflexivity.
Qed.

(** Line 116 in integers: the quotient plus 3, with its lowest bit
    cleared. *)
Lemma pll_omd_div_value (f : Z) :
  1 <= f <= 150000000 ->
  pll_omd_div f = Some (2 * ((600000000 / f + 3) / 2)).
Proof.
  intros Hf. unfold pll_omd_div. rewrite pll_omd_quotient_floor by exact Hf.
  rewrite land_clear_bit0; [reflexivity|].
  assert (0 <= 600000000 / f) by (apply Z.div_pos; lia).
  assert (600000000 / f <= 600000000) by (apply Z.div_le_upper_bound; lia).
  change (2 ^ 32) with 4294967296. lia.
Qed.

Lemma omd_bounds (f : Z) :
  1 <= f ->
  let q := 600000000 / f in
  let omd := 2 * ((q + 3) / 2) in
  f * q <= 600000000 < f * (q + 1) /\ q + 2 <= omd <= q + 3.
Proof.
  intros Hf q omd. split.
  - unfold q. pose proof (Z.mul_div_le 600000000 f ltac:(lia)).
    pose proof (Z.mul_succ_div_gt 600000000 f ltac:(lia)). lia.
  - unfold omd. pose proof (Z.mul_div_le (q + 3) 2 ltac:(lia)).
    pose proof (Z.mul_succ_div_gt (q + 3) 2 ltac:(lia)). lia.
Qed.

(** The checks of lines 117 and 123 never leave the pass undefined. *)
Lemma vco_plan_outcome (f : Z) (o : outcome) :
  1 <= f <= 150000000 -> vco_plan f = Return o -> exists e, o = Failure e.
Proof.
  intros Hf. unfold vco_plan. rewrite pll_omd_div_value by exact Hf.
  destruct ((_ <? 8) || (2047 <? _)); [intros [= <-]; eauto|].
  cbv zeta. destruct ((_ <? SI5351_VCO_MIN) || (SI5351_VCO_MAX <? _));
    [intros [= <-]; eauto | discriminate].
Qed.

(** A pre-scaled frequency up to 112.5 MHz passes them. *)
Lemma vco_plan_ok (f : Z) :
  500000 <= f <= 112500000 ->
  exists vco, vco_plan f = Next vco /\ SI5351_VCO_MIN <= vco <= SI5351_VCO_MAX.
Proof.
  intros Hf. unfold vco_plan. rewrite pll_omd_div_value by lia.
  destruct (omd_bounds f ltac:(lia)) as [Hq Homd]. cbv zeta in Hq, Homd.
  set (q := 600000000 / f) in *. set (omd := 2 * ((q + 3) / 2)) in *.
  assert (Hq5 : 5 <= q) by (unfold q; apply Z.div_le_lower_bound; lia).
  assert (Hq1200 : q <= 1200) by (unfold q; apply Z.div_le_upper_bound; lia).
  assert (E1 : (omd <? 8) || (2047 <? omd) = false).
  { apply orb_false_iff. split; [apply Z.ltb_ge | apply Z.ltb_ge]; lia. }
  rewrite E1. cbv zeta.
  assert (Hlo : f * (q + 2) <= f * omd) by (apply Z.mul_le_mono_nonneg_l; lia).
  assert (Hhi : f * omd <= f * (q + 3)) by (apply Z.mul_le_mono_nonneg_l; lia).
  assert (Hv : 600000000 <= f * omd <= 900000000).
  { split; [lia|].
    destruct (Z.le_gt_cases f 100000000) as [H|H]; [lia|].
    assert (q = 5).
    { assert (q < 6); [|lia]. unfold q. apply Z.div_lt_upper_bound; lia. }
    assert (omd = 8) by (unfold omd; subst q; rewrite H0; reflexivity).
    lia. }
  rewrite (wrap32_small (f * omd)) by (change (2 ^ 32) with 4294967296; lia).
  unfold SI5351_VCO_MIN, SI5351_VCO_MAX.
  assert (E2 : (f * omd <? 600000000) || (900000000 <? f * omd) = false).
  { apply orb_false_iff. split; [apply Z.ltb_ge | apply Z.ltb_ge]; lia. }
  rewrite E2. exists (f * omd). split; [reflexivity | exact Hv].
Qed.

Lemma pll_plan_outcome (s : si5351_t) (i : Z) (o : outcome) :
  pll_plan s i = Return o -> exists e, o = Failure e.
Proof.
  unfold pll_plan. cbv zeta.
  destruct (SI5351_CLOCKS <=? at_index (clk_pll s) i); [intros [= <-]; eauto|].
  set (f0 := at_index (freq s) (at_index (clk_pll s) i)).
  destruct ((f0 <? SI5351_MIN_FREQ) || (SI5351_MAX_FREQ <? f0)) eqn:Ef;
    [intros [= <-]; eauto|].
  apply freq_check in Ef. unfold freq_in_range, SI5351_MIN_FREQ, SI5351_MAX_FREQ in Ef.
  destruct (pll_prescale_defined 6 64 f0 0) as (f1 & r1 & Hpre & Hf1);
    [lia | change (2 ^ Z.of_nat 6) with 64; lia | lia |].
  rewrite Hpre. apply vco_plan_outcome. lia.
Qed.

(** A PLL whose master is an output with a frequency between 8 kHz and
    112.5 MHz gets a VCO frequency. *)
Lemma pll_plan_ok (s : si5351_t) (i : Z) :
  at_index (clk_pll s) i < SI5351_CLOCKS ->
  8000 <= at_index (freq s) (at_index (clk_pll s) i) <= 112500000 ->
  exists vco, pll_plan s i = Next vco.
Proof.
  intros Hm Hf. unfold pll_plan. cbv zeta.
  apply Z.leb_gt in Hm. rewrite Hm.
  set (f0 := at_index (freq s) (at_index (clk_pll s) i)) in *.
  assert (Ef : (f0 <? SI5351_MIN_FREQ) || (SI5351_MAX_FREQ <? f0) = false).
  { apply freq_check. unfold freq_in_range, SI5351_MIN_FREQ, SI5351_MAX_FREQ. lia. }
  rewrite Ef.
  destruct (pll_prescale_defined 6 64 f0 0) as (f1 & r1 & Hpre & Hf1);
    [lia | change (2 ^ Z.of_nat 6) with 64; lia | lia |].
  rewrite Hpre. destruct (vco_plan_ok f1) as (vco & Hv & _); [lia|]. eauto.
Qed.

(** C2 (counterexample).  For a pre-scaled master frequency of 100 MHz the
    code computes the divider 8; rounding 600000000/f + 3 = 9 up to an even
    number gives 10.  For 150 MHz the code computes 6 and fails with the
    OMD error, although 600000000/f + 3 = 7 rounded up to an even number
    is 8, inside [8, 2047]. *)
Lemma pll_omd_not_rounded_up :
  pll_omd_div 100000000 = Some 8 /\
  round_up_to_even (600000000 / 100000000 + 3) = 10 /\
  vco_plan 100000000 = Next 800000000 /\
  pll_omd_div 150000000 = Some 6 /\
  round_up_to_even (600000000 / 150000000 + 3) = 8 /\
  vco_plan 150000000 = Return (Failure OmdOutOfRange).
Proof.
  split; [vm_compute; reflexivity|]. split; [reflexivity|].
  split; [vm_compute; reflexivity|]. split; [vm_compute; reflexivity|].
  split; [reflexivity | vm_compute; reflexivity].
Qed.

(** C2 (amended).  For every pre-scaled master frequency f (500 kHz to
    150 MHz) the divider is omd = floor(600000000 / f) + 3 rounded down to
    an even number (its lowest bit is cleared), which is
    floor(600000000 / f) + 2 rounded up to an even number, and the
    planning of the PLL fails with the OMD-out-of-range error exactly when
    omd is outside [8, 2047]. *)
Theorem pll_omd_div_spec (f : Z) (Hf : 500000 <= f <= 150000000) :
  let omd := 2 * ((600000000 / f + 3) / 2) in
  pll_omd_div f = Some omd /\
  Z.even omd = true /\ omd <= 600000000 / f + 3 < omd + 2 /\
  omd = round_up_to_even (600000000 / f + 2) /\
  (vco_plan f = Return (Failure OmdOutOfRange) <-> omd < 8 \/ 2047 < omd).
Proof.
  intros omd.
  assert (Hval : pll_omd_div f = Some omd) by (apply pll_omd_div_value; lia).
  split; [exact Hval|]. split; [apply Z.even_mul|].
  split.
  { unfold omd. pose proof (Z.mul_div_le (600000000 / f + 3) 2 ltac:(lia)).
    pose proof (Z.mul_succ_div_gt (600000000 / f + 3) 2 ltac:(lia)). lia. }
  split.
  { unfold omd, round_up_to_even. set (q := 600000000 / f).
    pose proof (Z.div_mod (q + 3) 2 ltac:(lia)).
    pose proof (Z.mod_pos_bound (q + 3) 2 ltac:(lia)).
    pose proof (Z.div_mod (q + 2) 2 ltac:(lia)).
    pose proof (Z.mod_pos_bound (q + 2) 2 ltac:(lia)). lia. }
  unfold vco_plan. rewrite Hval.
  destruct ((omd <? 8) || (2047 <? omd)) eqn:E.
  - split; [intros _|reflexivity].
    apply orb_true_iff in E as [E|E]; [left; apply Z.ltb_lt | right; apply Z.ltb_lt]; exact E.
  - apply orb_false_iff in E as [E1 E2]. apply Z.ltb_ge in E1. apply Z.ltb_ge in E2.
    split; [|lia]. cbv zeta.
    destruct ((_ <? SI5351_VCO_MIN) || (SI5351_VCO_MAX <? _)); discriminate.
Qed.

Lemma pll_omd_div_spec_witness :
  500000 <= 2000000 <= 150000000 /\
  pll_omd_div 2000000 = Some (2 * ((600000000 / 2000000 + 3) / 2)) /\
  2 * ((600000000 / 2000000 + 3) / 2) = 302.
Proof.
  split; [lia|]. split; [|reflexivity].
  exact (proj1 (pll_omd_div_spec 2000000 ltac:(lia))).
Defined.

(** ** The frequency range of an output *)

Lemma freq_assign_output (s : si5351_t) (output : Z) (pll_sel : si5351_PLL_t)
    (freq_hz phase_val : Z) (invert pll_master : bool) :
  freq (assign_output s output pll_sel freq_hz phase_val invert pll_master)
  = store (freq s) output freq_hz.
Proof. unfold assign_output. destruct pll_master; reflexivity. Qed.

Lemma pll_assign_output (s : si5351_t) (output : Z) (pll_sel : si5351_PLL_t)
    (freq_hz phase_val : Z) (invert pll_master : bool) :
  pll (assign_output s output pll_sel freq_hz phase_val invert pll_master)
  = store (pll s) output (pll_value pll_sel).
Proof. unfold assign_output. destruct pll_master; reflexivity. Qed.

Lemma crystal_freq_assign_output (s : si5351_t) (output : Z) (pll_sel : si5351_PLL_t)
    (freq_hz phase_val : Z) (invert pll_master : bool) :
  crystal_freq (assign_output s output pll_sel freq_hz phase_val invert pll_master)
  = crystal_freq s.
Proof. unfold assign_output. destruct pll_master; reflexivity. Qed.

Lemma pll_value_range (p : si5351_PLL_t) : 0 <= pll_value p < SI5351_PLLS.
Proof. destruct p; unfold SI5351_PLLS; cbn; lia. Qed.

Section SetFrequency.
Context (s : si5351_t) (output : Z) (pll_sel : si5351_PLL_t)
        (phase_val : Z) (invert : bool).
Context (Hwf : well_formed s) (Hcfg : config s = true)
        (Hcf : crystal_freq s <> 0) (Hout : 0 <= output < 8).

Let assigned (freq_hz : Z) (pll_master : bool) : si5351_t :=
  assign_output s output pll_sel freq_hz phase_val invert pll_master.

Lemma assigned_freq (freq_hz : Z) (pll_master : bool) :
  at_index (freq (assigned freq_hz pll_master)) output = freq_hz.
Proof.
  unfold assigned. rewrite freq_assign_output.
  destruct Hwf as (Lf & _). apply at_index_store_eq. lia.
Qed.

Lemma assigned_pll (freq_hz : Z) (pll_master : bool) :
  at_index (pll (assigned freq_hz pll_master)) output < SI5351_PLLS.
Proof.
  unfold assigned. rewrite pll_assign_output.
  destruct Hwf as (_ & _ & Lp & _). rewrite at_index_store_eq by lia.
  apply pll_value_range.
Qed.

(** Whatever the rest of the state, a pass with an active output whose
    frequency is out of range returns a failure. *)
Lemma set_out_of_range_fails (freq_hz : Z) (pll_master : bool) :
  freq_hz <> 0 -> ~ freq_in_range freq_hz ->
  exists e,
    fst (fst (si5351_set s output pll_sel freq_hz phase_val invert pll_master))
    = Failure e.
Proof.
  intros Hnz Hrange. unfold si5351_set.
  assert (E : (SI5351_CLOCKS <=? output) = false)
    by (apply Z.leb_gt; unfold SI5351_CLOCKS; lia).
  rewrite E. fold (assigned freq_hz pll_master).
  apply (si5351_configure_steps (fun o => exists e, o = Failure e)
           (assigned freq_hz pll_master) (fun _ => False)).
  - unfold assigned. rewrite config_assign_output. exact Hcfg.
  - apply steps_for_loop. intros i Hi. apply configure_pll_steps.
    + apply pll_plan_outcome.
    + unfold assigned. rewrite crystal_freq_assign_output. contradiction.
  - apply steps_for_loop_stop with (j := output).
    + intros x Hx. apply configure_clock_steps; eauto.
    + cbn. lia.
    + apply configure_clock_stops; rewrite ?assigned_freq; eauto.
  - intros _ [].
Qed.

Context (Hmasters : masters_valid s output) (Hothers : others_valid s output).

Lemma assigned_pll_plan (freq_hz : Z) (i : Z) :
  0 <= i < 2 -> exists vco, pll_plan (assigned freq_hz false) i = Next vco.
Proof.
  intros Hi. destruct (Hmasters i Hi) as (Hm & Hne & Hf).
  apply pll_plan_ok.
  - unfold assigned, assign_output. cbn [clk_pll set_pll set_clk_invert set_phase set_freq].
    lia.
  - unfold assigned. rewrite freq_assign_output.
    unfold assign_output. cbn [clk_pll set_pll set_clk_invert set_phase set_freq].
    rewrite at_index_store_ne by lia. exact Hf.
Qed.

Lemma assigned_clk_valid (freq_hz : Z) (j : Z) :
  0 <= j < 8 -> j <> output -> clk_valid (assigned freq_hz false) j.
Proof.
  intros Hj Hne. specialize (Hothers j Hj Hne). unfold clk_valid in *.
  unfold assigned. rewrite freq_assign_output, pll_assign_output.
  rewrite !at_index_store_ne by lia. exact Hothers.
Qed.

Lemma assigned_pll_loop (R : outcome -> Prop) (freq_hz : Z) :
  steps R (same_settings (assigned freq_hz false)) (for_loop configure_pll 0 2)
        (same_settings (assigned freq_hz false)).
Proof.
  apply steps_for_loop. intros i Hi. apply configure_pll_steps.
  - intros o Ho. destruct (assigned_pll_plan freq_hz i) as [vco Hv]; [cbn in Hi; lia|].
    congruence.
  - unfold assigned. rewrite crystal_freq_assign_output. contradiction.
Qed.

Lemma assigned_clock_other (R : outcome -> Prop) (freq_hz : Z) (j : Z) :
  0 <= j < 8 -> j <> output ->
  steps R (same_settings (assigned freq_hz false)) (configure_clock j)
        (same_settings (assigned freq_hz false)).
Proof.
  intros Hj Hne. apply configure_clock_steps.
  - intros Hnz Hp. destruct (assigned_clk_valid freq_hz j Hj Hne) as [H|[H _]]; [contradiction | lia].
  - intros Hnz Hr. destruct (assigned_clk_valid freq_hz j Hj Hne) as [H|[_ H]]; contradiction.
Qed.

(** In an otherwise valid configuration, an active output whose
    frequency is out of range fails with the frequency error. *)
Lemma set_out_of_range_error (freq_hz : Z) :
  freq_hz <> 0 -> ~ freq_in_range freq_hz ->
  fst (fst (si5351_set s output pll_sel freq_hz phase_val invert false))
  = Failure FrequencyOutOfRange.
Proof.
  intros Hnz Hrange. unfold si5351_set.
  assert (E : (SI5351_CLOCKS <=? output) = false)
    by (apply Z.leb_gt; unfold SI5351_CLOCKS; lia).
  rewrite E. fold (assigned freq_hz false).
  assert (Hstop : steps (fun o => o = Failure FrequencyOutOfRange)
                    (same_settings (assigned freq_hz false)) (configure_clock output)
                    (fun _ => False)).
  { apply configure_clock_stops; rewrite ?assigned_freq; auto.
    intros Hp. pose proof (assigned_pll freq_hz false). lia. }
  apply (si5351_configure_steps (fun o => o = Failure FrequencyOutOfRange)
           (assigned freq_hz false) (fun _ => False)).
  - unfold assigned. rewrite config_assign_output. exact Hcfg.
  - apply assigned_pll_loop.
  - apply steps_for_loop_stop with (j := output).
    + intros x Hx. destruct (Z.eq_dec x output) as [->|Hne].
      * apply steps_post with (Q := fun _ => False); [exact Hstop | intros ? []].
      * apply assigned_clock_other; [cbn in Hx; lia | exact Hne].
    + cbn. lia.
    + exact Hstop.
  - intros _ [].
Qed.

(** In an otherwise valid configuration, an output with a frequency in
    range is accepted. *)
Lemma set_in_range_succeeds (freq_hz : Z) :
  freq_in_range freq_hz ->
  fst (fst (si5351_set s output pll_sel freq_hz phase_val invert false)) = Success.
Proof.
  intros Hrange. unfold si5351_set.
  assert (E : (SI5351_CLOCKS <=? output) = false)
    by (apply Z.leb_gt; unfold SI5351_CLOCKS; lia).
  rewrite E. fold (assigned freq_hz false).
  apply (si5351_configure_steps (fun o => o = Success)
           (assigned freq_hz false) (same_settings (assigned freq_hz false))).
  - unfold assigned. rewrite config_assign_output. exact Hcfg.
  - apply assigned_pll_loop.
  - apply steps_for_loop. intros x Hx.
    destruct (Z.eq_dec x output) as [->|Hne].
    + apply configure_clock_steps; rewrite ?assigned_freq.
      * intros _ Hp. pose proof (assigned_pll freq_hz false). lia.
      * intros _ Hr. contradiction.
    + apply assigned_clock_other; [cbn in Hx; lia | exact Hne].
  - reflexivity.
Qed.

End SetFrequency.



(** The state of the sample program after its first call: output 0 at
    2 MHz is the master of both PLLs, whose VCOs run at 604 MHz. *)
Example sample_state_after_first_set :
  snd (fst (si5351_set (initial_state 27000000 SI5351_CRYSTAL_LOAD_8PF)
                       0 SI5351_PLL_A 2000000 0 false true))
  = mk_si5351 27000000 128 [2000000; 0; 0; 0; 0; 0; 0; 0] (replicate 8 0)
              (replicate 8 0) [0; 0] (replicate 8 0) (replicate 8 0) (replicate 8 0)
              [604000000; 604000000] true.
Proof. vm_compute. reflexivity. Qed.


(** * Further properties of the driver *)

(** ** The frame of a pass *)

Lemma keeps_settings_refl (s : si5351_t) : keeps_settings s s.
Proof. split; [apply same_settings_refl | reflexivity]. Qed.

Ltac any_write := apply holds_write; exact I.

Lemma write_pll_params_keeps (I0 : si5351_t -> Prop) (i : Z) (p : Z * Z * Z) :
  holds I0 (fun _ => True) (write_pll_params i p).
Proof.
  destruct p as [[pll0 pll1] pll2]. unfold write_pll_params.
  repeat holds_step; any_write.
Qed.

Lemma write_clk_params_keeps (I0 : si5351_t -> Prop) (i omd_div : Z) (p : Z * Z * Z) :
  holds I0 (fun _ => True) (write_clk_params i omd_div p).
Proof.
  destruct p as [[pll0 pll1] pll2]. unfold write_clk_params.
  repeat holds_step; any_write.
Qed.

Lemma configure_body_keeps (s0 : si5351_t) :
  holds (keeps_settings s0) (fun _ => True) configure_body.
Proof.
  unfold configure_body.
  repeat holds_step; try any_write.
  - apply holds_for_loop. intros j _. any_write.
  - apply holds_for_loop. intros j _. unfold configure_pll. repeat holds_step.
    + apply holds_modify. intros s [Hs Hl]. split.
      * apply same_settings_set_vco_freq. exact Hs.
      * cbn [vco_freq set_vco_freq]. unfold store. rewrite length_insert. exact Hl.
    + apply write_pll_params_keeps.
  - apply holds_for_loop. intros j _. unfold configure_clock. repeat holds_step; try any_write.
    apply write_clk_params_keeps.
Qed.

(** X1.  A configuration pass, whatever its outcome, assigns nothing but
    the values of the two VCO frequencies: the crystal settings, the
    frequency, phase, PLL, disable state, invert flag and drive strength
    of every output, the PLL masters and the auto-apply flag are left as
    they were. *)
Theorem si5351_configure_frame (s : si5351_t) :
  match si5351_configure s with
  | (_, s', _) =>
      crystal_freq s' = crystal_freq s /\ crystal_load s' = crystal_load s /\
      freq s' = freq s /\ phase s' = phase s /\ pll s' = pll s /\
      clk_pll s' = clk_pll s /\ clk_dis s' = clk_dis s /\
      clk_invert s' = clk_invert s /\ clk_drive s' = clk_drive s /\
      config s' = config s /\ length (vco_freq s') = length (vco_freq s)
  end.
Proof.
  unfold si5351_configure, run.
  pose proof (configure_body_keeps s s (keeps_settings_refl s)) as H.
  destruct (configure_body s) as [[[[]|o] s'] w];
    destruct H as [[[v ->] Hl] _]; cbn in *; auto 20.
Qed.

(** ** Undefined executions *)

Lemma si5351_configure_returns (s : si5351_t) :
  crystal_freq s <> 0 -> returned (fst (fst (si5351_configure s))) = true.
Proof.
  intros Hcf. destruct (config s) eqn:Hcfg.
  - apply (si5351_configure_steps (fun o => returned o = true) s (same_settings s)).
    + exact Hcfg.
    + apply steps_for_loop. intros i _. apply configure_pll_steps.
      * intros o Ho. apply pll_plan_outcome in Ho as [e ->]. reflexivity.
      * contradiction.
    + apply steps_for_loop. intros i _. apply configure_clock_steps; reflexivity.
    + reflexivity.
  - rewrite si5351_configure_suspended by exact Hcfg. reflexivity.
Qed.

Lemma si5351_configure_crystal (s : si5351_t) :
  crystal_freq (snd (fst (si5351_configure s))) = crystal_freq s.
Proof.
  destruct (si5351_configure s) as [[o s'] w] eqn:E.
  apply si5351_configure_same_settings in E as [[v ->] _]. reflexivity.
Qed.



(** A pass whose PLL loop returns early returns what that loop returns. *)
Lemma si5351_configure_pll_stops (R : outcome -> Prop) (s0 : si5351_t) :
  config s0 = true ->
  steps R (same_settings s0) (for_loop configure_pll 0 2) (fun _ => False) ->
  R (fst (fst (si5351_configure s0))).
Proof.
  intros Hcfg Hpll.
  assert (H : steps R (same_settings s0) configure_body (fun _ => False)).
  { unfold configure_body. apply steps_bind_get. intros s [v ->].
    change (config (set_vco_freq v s0)) with (config s0). rewrite Hcfg. cbn [negb].
    do 3 (apply steps_bind with (Q := same_settings s0); [apply steps_write|]).
    apply steps_bind with (Q := same_settings s0).
    { apply steps_for_loop. intros j Hj. apply steps_write. }
    apply steps_bind with (Q := same_settings s0); [apply steps_write|].
    apply steps_bind with (Q := fun _ => False); [exact Hpll|].
    intros ? []. }
  specialize (H s0 (same_settings_refl s0)).
  unfold si5351_configure, run.
  destruct (configure_body s0) as [[[[]|o] s'] w]; [contradiction | exact H].
Qed.

(** X3.  With a crystal frequency of 0 and auto-apply enabled, a pass
    divides by zero (line 56) as soon as the master of PLL A has a
    frequency that can be planned (8 kHz to 112.5 MHz). *)
Theorem crystal_zero_undefined (s : si5351_t)
    (Hcfg : config s = true) (Hcf : crystal_freq s = 0)
    (Hm : 0 <= at_index (clk_pll s) 0 < 8)
    (Hf : 8000 <= at_index (freq s) (at_index (clk_pll s) 0) <= 112500000) :
  fst (fst (si5351_configure s)) = Undefined /\ ret_code Undefined = None.
Proof.
  split; [|reflexivity].
  destruct (pll_plan_ok s 0) as [vco Hplan];
    [unfold SI5351_CLOCKS; lia | exact Hf |].
  apply (si5351_configure_pll_stops (fun o => o = Undefined) s Hcfg).
  cbn [for_loop]. apply steps_bind with (Q := fun _ => False); [|intros ? []].
  intros s' [v ->]. unfold configure_pll. rewrite bind_get_run.
  change (pll_plan (set_vco_freq v s) 0) with (pll_plan s 0). rewrite Hplan.
  rewrite bind_modify_run.
  change (crystal_freq (set_vco_freq v s)) with (crystal_freq s). rewrite Hcf.
  reflexivity.
Qed.

Lemma crystal_zero_undefined_witness :
  let s := assign_output (initial_state 0 SI5351_CRYSTAL_LOAD_8PF)
             0 SI5351_PLL_A 2000000 0 false true in
  config s = true /\ crystal_freq s = 0 /\
  fst (fst (si5351_set (initial_state 0 SI5351_CRYSTAL_LOAD_8PF)
              0 SI5351_PLL_A 2000000 0 false true)) = Undefined.
Proof.
  intros s. split; [reflexivity|]. split; [reflexivity|].
  refine (proj1 (crystal_zero_undefined s eq_refl eq_refl _ _)).
  - change (at_index (clk_pll s) 0) with 0. lia.
  - change (at_index (freq s) (at_index (clk_pll s) 0)) with 2000000. lia.
Defined.

(** ** Initialisation *)

Lemma si5351_init_trace_aux (cf : Z) (cl : si5351_crystal_load_t) :
  si5351_configure (initial_state cf cl)
    = (Failure FrequencyOutOfRange, initial_state cf cl, preamble (initial_state cf cl)) /\
  si5351_init cf cl = (true, initial_state cf cl, preamble (initial_state cf cl)).
Proof. split; reflexivity. Qed.

(** ** The output-enable mask *)

Lemma testbit_1 (n : Z) : Z.testbit 1 n = (n =? 0).
Proof. destruct n as [|p|p]; [reflexivity | destruct p; reflexivity | reflexivity]. Qed.

Lemma output_enable_bits (freqs : list Z) (count : nat) :
  forall (i oe : Z),
    0 <= i -> i + Z.of_nat count <= 8 ->
    (forall j, i <= j -> Z.testbit oe j = false) ->
    forall j, 0 <= j ->
      Z.testbit (output_enable freqs i count oe) j =
        if j <? i then Z.testbit oe j
        else (j <? i + Z.of_nat count) && (at_index freqs j =? 0).
Proof.
  induction count as [|count IH]; intros i oe Hi Hcount Hoe j Hj.
  - cbn [output_enable]. destruct (j <? i) eqn:E; [reflexivity|].
    apply Z.ltb_ge in E. rewrite Hoe by exact E.
    assert (E2 : (j <? i + Z.of_nat 0) = false) by (apply Z.ltb_ge; lia).
    rewrite E2. reflexivity.
  - cbn [output_enable].
    set (oe' := if at_index freqs i =? 0 then uint8 (Z.lor oe (Z.shiftl 1 i)) else oe).
    assert (Hbit : forall k, 0 <= k ->
              Z.testbit oe' k = Z.testbit oe k || ((k =? i) && (at_index freqs i =? 0))).
    { intros k Hk. unfold oe'. destruct (at_index freqs i =? 0).
      - rewrite andb_true_r. unfold uint8.
        destruct (Z.lt_ge_cases k 8) as [Hlow|Hhigh].
        + rewrite Z.mod_pow2_bits_low by lia.
          rewrite Z.lor_spec, Z.shiftl_spec by lia.
          rewrite testbit_1. f_equal.
          destruct (Z.eqb_spec (k - i) 0), (Z.eqb_spec k i); try reflexivity; lia.
        + rewrite Z.mod_pow2_bits_high by lia.
          rewrite Hoe by lia.
          replace (k =? i) with false by (symmetry; apply Z.eqb_neq; lia).
          reflexivity.
      - rewrite andb_false_r, orb_false_r. reflexivity. }
    rewrite IH; try lia.
    + destruct (j <? i + 1) eqn:E1.
      * apply Z.ltb_lt in E1. rewrite Hbit by exact Hj.
        destruct (j <? i) eqn:E2.
        -- apply Z.ltb_lt in E2.
           replace (j =? i) with false by (symmetry; apply Z.eqb_neq; lia).
           apply orb_false_r.
        -- apply Z.ltb_ge in E2. assert (j = i) by lia. subst j.
           rewrite Hoe by lia. rewrite Z.eqb_refl.
           replace (i <? i + Z.of_nat (S count)) with true
             by (symmetry; apply Z.ltb_lt; lia).
           reflexivity.
      * apply Z.ltb_ge in E1.
        replace (j <? i) with false by (symmetry; apply Z.ltb_ge; lia).
        replace (i + 1 + Z.of_nat count) with (i + Z.of_nat (S count)) by lia.
        reflexivity.
    + intros k Hk. rewrite Hbit by lia. rewrite Hoe by lia.
      replace (k =? i) with false by (symmetry; apply Z.eqb_neq; lia).
      reflexivity.
Qed.

Lemma output_enable_range (freqs : list Z) :
  0 <= output_enable freqs 0 8 0 < 256.
Proof.
  set (r := output_enable freqs 0 8 0).
  assert (Hhigh : forall j, 8 <= j -> Z.testbit r j = false).
  { intros j Hj. unfold r. rewrite output_enable_bits; try lia.
    - replace (j <? 0) with false by (symmetry; apply Z.ltb_ge; lia).
      replace (j <? 0 + Z.of_nat 8) with false by (symmetry; apply Z.ltb_ge; lia).
      reflexivity.
    - intros k _. apply Z.bits_0. }
  assert (Hnn : 0 <= r).
  { apply Z.bits_iff_nonneg_ex. exists 8. intros m Hm. apply Hhigh. lia. }
  split; [exact Hnn|].
  destruct (Z.eq_dec r 0) as [->|Hnz]; [lia|].
  assert (Hlog : Z.log2 r < 8).
  { destruct (Z.lt_ge_cases (Z.log2 r) 8) as [H|H]; [exact H|].
    assert (Hb : Z.testbit r (Z.log2 r) = true) by (apply Z.bit_log2; lia).
    rewrite Hhigh in Hb by exact H. discriminate. }
  change 256 with (2 ^ 8). apply Z.log2_lt_pow2; lia.
Qed.

(** X5.  The value written last to the output-enable register is a byte
    whose bit [i] is set exactly when output [i] has frequency 0: the
    outputs with a frequency are enabled (the register is active low),
    the others disabled. *)
Theorem output_enable_mask (freqs : list Z) (i : Z) (Hi : 0 <= i < 8) :
  Z.testbit (output_enable freqs 0 8 0) i = (at_index freqs i =? 0) /\
  0 <= output_enable freqs 0 8 0 < 256.
Proof.
  split; [|apply output_enable_range].
  rewrite output_enable_bits; try lia.
  - replace (i <? 0) with false by (symmetry; apply Z.ltb_ge; lia).
    replace (i <? 0 + Z.of_nat 8) with true by (symmetry; apply Z.ltb_lt; lia).
    reflexivity.
  - intros k _. apply Z.bits_0.
Qed.

Lemma output_enable_mask_witness :
  0 <= 1 < 8 /\
  Z.testbit (output_enable [2000000; 0; 0; 0; 0; 0; 0; 0] 0 8 0) 1 = true /\
  output_enable [2000000; 0; 0; 0; 0; 0; 0; 0] 0 8 0 = 254.
Proof.
  split; [lia|]. split; [|reflexivity].
  exact (proj1 (output_enable_mask [2000000; 0; 0; 0; 0; 0; 0; 0] 1 ltac:(lia))).
Defined.

(** ** Fractions in lowest terms *)

Lemma farey_inv_coprime (D a b c d : Z) :
  farey_inv D a b c d -> Z.gcd a b = 1 /\ Z.gcd c d = 1.
Proof.
  unfold farey_inv. intros (Ha & Hc & Hb & Hd & Hab & Hcd & Hdet).
  split; apply Z.divide_1_r_nonneg; try apply Z.gcd_nonneg; rewrite <- Hdet.
  - apply Z.divide_sub_r.
    + apply Z.divide_mul_l. apply Z.gcd_divide_r.
    + apply Z.divide_mul_l. apply Z.gcd_divide_l.
  - apply Z.divide_sub_r.
    + apply Z.divide_mul_r. apply Z.gcd_divide_l.
    + apply Z.divide_mul_r. apply Z.gcd_divide_r.
Qed.

(** X6.  For a maximum denominator below 2^31 the rational approximator
    returns within [max_denominator] rounds of its loop, and its result
    is a fraction of [0, 1] in lowest terms. *)
Theorem farey_fraction_lowest_terms (f : spec_float) (D : Z) (fuel : nat)
    (HD : D < 2 ^ 31) (Hfuel : (Z.to_nat D <= fuel)%nat) :
  exists n d, farey_fraction fuel f D = Some (n, d) /\
              Z.gcd n d = 1 /\ 0 <= n <= d /\ 1 <= d.
Proof.
  unfold farey_fraction.
  destruct (farey_degenerate f D) eqn:Hdeg.
  - exists 0, 1. split; [reflexivity|]. split; [reflexivity | lia].
  - unfold farey_degenerate in Hdeg.
    apply orb_false_elim in Hdeg as [_ HD1]. apply Z.leb_gt in HD1.
    destruct (farey_loop_terminates f D HD fuel 0 1 1 1) as (a & b & c & d & Hl & Hinv & _).
    + apply farey_inv_init. lia.
    + lia.
    + rewrite Hl. destruct (farey_inv_coprime D a b c d Hinv) as [Hg1 Hg2].
      unfold farey_select, farey_inv in *.
      destruct (SFltb (abs_error f a b) (abs_error f c d)).
      * exists a, b. split; [reflexivity|]. split; [exact Hg1 | lia].
      * exists c, d. split; [reflexivity|]. split; [exact Hg2 | lia].
Qed.

Lemma farey_fraction_lowest_terms_witness :
  10 < 2 ^ 31 /\ (Z.to_nat 10 <= 10)%nat /\
  exists n d, farey_fraction 10 f32_0_3 10 = Some (n, d) /\
              Z.gcd n d = 1 /\ 0 <= n <= d /\ 1 <= d.
Proof.
  split; [lia|]. split; [simpl; lia|].
  refine (farey_fraction_lowest_terms f32_0_3 10 10%nat _ _); [lia | simpl; lia].
Defined.
(** ** The trace of a pass *)

Lemma bind_assoc_run {A B C} (m : M A) (f : A -> M B) (k : B -> M C) (s : si5351_t) :
  bind (bind m f) k s = bind m (fun a => bind (f a) k) s.
Proof.
  unfold bind. destruct (m s) as [[[a|o] s1] w1]; [|reflexivity].
  destruct (f a s1) as [[[b|o] s2] w2]; [|reflexivity].
  destruct (k b s2) as [[r s3] w3]. rewrite app_assoc. reflexivity.
Qed.

Lemma bind_ret_run {A B} (a : A) (k : A -> M B) (s : si5351_t) :
  bind (ret a) k s = k a s.
Proof. unfold bind, ret. destruct (k a s) as [[r s'] w]. reflexivity. Qed.

(** Lines 88-90: the loop that powers the eight clocks down. *)
Lemma power_down_run {B} (k : unit -> M B) (s : si5351_t) :
  bind (for_loop (fun i => write (SI5351_REG_CLK0_CONTROL + i) 0x80) 0 8) k s =
    match k tt s with
    | (r, s', w) =>
        (r, s', [(16, 128); (17, 128); (18, 128); (19, 128); (20, 128); (21, 128);
                 (22, 128); (23, 128)] ++ w)
    end.
Proof.
  do 8 (cbn [for_loop]; rewrite bind_assoc_run, bind_write_run).
  cbn [for_loop]. rewrite bind_ret_run.
  destruct (k tt s) as [[r s'] w]. reflexivity.
Qed.

(** A pass with auto-apply enabled is its twelve first writes, then its
    stages. *)
Lemma configure_body_run (s : si5351_t) :
  config s = true ->
  configure_body s =
    match configure_stages s with
    | (r, s', w) => (r, s', preamble s ++ w)
    end.
Proof.
  intros Hcfg. unfold configure_body. rewrite bind_get_run, Hcfg. cbn [negb].
  rewrite !bind_write_run, power_down_run, bind_write_run.
  fold configure_stages.
  destruct (configure_stages s) as [[r s'] w]. reflexivity.
Qed.

Ltac stage_write_step :=
  apply holds_write; split;
  [ cbn [fst]; rewrite uint8_small by lia; unfold stage_register; lia
  | cbn [snd]; apply uint8_range ].

Lemma write_pll_params_stage (I0 : si5351_t -> Prop) (i : Z) (p : Z * Z * Z) :
  0 <= i < 2 -> holds I0 stage_write (write_pll_params i p).
Proof.
  intros Hi. destruct p as [[pll0 pll1] pll2].
  unfold write_pll_params, SI5351_REG_MSN_PLL_BASE.
  repeat holds_step; stage_write_step.
Qed.

Lemma write_clk_params_stage (I0 : si5351_t -> Prop) (i omd_div : Z) (p : Z * Z * Z) :
  0 <= i < 8 -> holds I0 stage_write (write_clk_params i omd_div p).
Proof.
  intros Hi. destruct p as [[pll0 pll1] pll2].
  unfold write_clk_params, SI5351_REG_CLK_SYNTH_BASE.
  repeat holds_step; stage_write_step.
Qed.

Lemma configure_pll_stage (s0 : si5351_t) (i : Z) :
  0 <= i < 2 -> holds (same_settings s0) stage_write (configure_pll i).
Proof.
  intros Hi. unfold configure_pll. repeat holds_step.
  - apply holds_modify. intros s Hs. apply same_settings_set_vco_freq. exact Hs.
  - apply write_pll_params_stage. exact Hi.
Qed.

Lemma configure_clock_stage (s0 : si5351_t) (i : Z) :
  0 <= i < 8 -> holds (same_settings s0) stage_write (configure_clock i).
Proof.
  intros Hi. unfold configure_clock, SI5351_REG_PHASE_BASE, SI5351_REG_CLK0_CONTROL.
  repeat holds_step; try stage_write_step.
  apply write_clk_params_stage. exact Hi.
Qed.

(** Neither loop returns [Success]: it is returned at the end only. *)
Lemma pll_loop_steps (s0 : si5351_t) :
  steps (fun o => o <> Success) (same_settings s0) (for_loop configure_pll 0 2)
        (same_settings s0).
Proof.
  apply steps_for_loop. intros i _. apply configure_pll_steps.
  - intros o Ho. apply pll_plan_outcome in Ho as [e ->]. discriminate.
  - discriminate.
Qed.

Lemma clock_loop_steps (s0 : si5351_t) :
  steps (fun o => o <> Success) (same_settings s0) (for_loop configure_clock 0 8)
        (same_settings s0).
Proof.
  apply steps_for_loop. intros i _. apply configure_clock_steps; discriminate.
Qed.

(** X7.  With auto-apply enabled a pass first writes twelve registers:
    the two disable-state registers, 0xFF to the output-enable register
    (all outputs disabled), 0x80 to the eight clock control registers
    (powered down) and the crystal load.  Every later write goes to a
    control, parameter or phase register, but for the last write of a
    successful pass, which sets the output-enable register.  A pass that
    fails therefore leaves every output disabled, and no pass writes any
    other register. *)
Theorem si5351_configure_trace (s : si5351_t) (Hcfg : config s = true) :
  match si5351_configure s with
  | (o, _, w) =>
      exists w', w = preamble s ++ w' /\
        match o with
        | Success =>
            exists w'', w' = w'' ++ [(3, output_enable (freq s) 0 8 0)] /\
                        Forall stage_write w''
        | _ => Forall stage_write w'
        end
  end.
Proof.
  unfold si5351_configure, run. rewrite configure_body_run by exact Hcfg.
  unfold configure_stages.
  pose proof (holds_for_loop (same_settings s) stage_write configure_pll 2 0
                (fun j Hj => configure_pll_stage s j ltac:(cbn in Hj; lia))
                s (same_settings_refl s)) as Hw1.
  pose proof (pll_loop_steps s s (same_settings_refl s)) as Ho1.
  unfold bind at 1.
  destruct (for_loop configure_pll 0 2 s) as [[[[]|o1] s1] w1]; destruct Hw1 as [Hs1 Hw1].
  - pose proof (holds_for_loop (same_settings s) stage_write configure_clock 8 0
                  (fun j Hj => configure_clock_stage s j ltac:(cbn in Hj; lia))
                  s1 Hs1) as Hw2.
    pose proof (clock_loop_steps s s1 Hs1) as Ho2.
    unfold bind at 1.
    destruct (for_loop configure_clock 0 8 s1) as [[[[]|o2] s2] w2]; destruct Hw2 as [Hs2 Hw2].
    + rewrite bind_get_run, bind_write_run. cbn [return_].
      destruct Hs2 as [v ->]. cbn [freq set_vco_freq].
      exists (w1 ++ w2 ++ [(uint8 SI5351_REG_OE, uint8 (output_enable (freq s) 0 8 0))]).
      split; [reflexivity|].
      exists (w1 ++ w2). split.
      * rewrite <- app_assoc. do 2 f_equal.
        rewrite (uint8_small (output_enable (freq s) 0 8 0))
          by apply output_enable_range.
        reflexivity.
      * apply Forall_app; auto.
    + exists (w1 ++ w2). split; [reflexivity|].
      assert (Hall : Forall stage_write (w1 ++ w2)) by (apply Forall_app; auto).
      destruct o2; [contradiction | exact Hall | exact Hall].
  - exists w1. split; [reflexivity|].
    destruct o1; [contradiction | exact Hw1 | exact Hw1].
Qed.

Lemma si5351_configure_trace_witness :
  let s := initial_state 27000000 SI5351_CRYSTAL_LOAD_8PF in
  config s = true /\
  exists w', snd (si5351_configure s) = preamble s ++ w' /\ Forall stage_write w'.
Proof.
  intros s. split; [reflexivity|].
  pose proof (si5351_configure_trace s eq_refl) as H.
  change (si5351_configure s)
    with (Failure FrequencyOutOfRange, s, preamble s) in H.
  change (snd (si5351_configure s)) with (preamble s).
  exact H.
Defined.
(** ** Planning a PLL *)

(** The loop of lines 111-114 doubles the frequency until it reaches
    500 kHz. *)
Lemma pll_prescale_doubles (n : nat) :
  forall (fuel : nat) (freq0 vco_ri : Z),
    0 < freq0 < 2 ^ 31 -> 500000 <= freq0 * 2 ^ Z.of_nat n -> (n < fuel)%nat ->
    exists k freq1 vco_ri1,
      pll_prescale fuel freq0 vco_ri = Some (freq1, vco_ri1) /\
      0 <= k <= Z.of_nat n /\ freq1 = freq0 * 2 ^ k /\ 500000 <= freq1 /\
      (freq0 < 500000 -> freq1 < 1000000).
Proof.
  induction n as [|n IH]; intros fuel freq0 vco_ri Hf Hn Hfuel;
    (destruct fuel as [|fuel]; [lia|]); rewrite pll_prescale_unfold.
  - assert (E : (freq0 <? 500000) = false) by (apply Z.ltb_ge; cbn in Hn; lia).
    rewrite E. exists 0, freq0, vco_ri. split; [reflexivity|].
    apply Z.ltb_ge in E. rewrite Z.pow_0_r. lia.
  - destruct (freq0 <? 500000) eqn:E.
    + apply Z.ltb_lt in E.
      rewrite (wrap32_small (freq0 * 2)) by lia.
      destruct (IH fuel (freq0 * 2) (uint8 (vco_ri + 1)))
        as (k & f1 & r1 & H1 & Hk & Hf1 & Hlo & Hhi).
      * lia.
      * rewrite Nat2Z.inj_succ, Z.pow_succ_r in Hn by lia. lia.
      * lia.
      * exists (k + 1), f1, r1. split; [exact H1|].
        split; [lia|]. split.
        { rewrite Hf1, Z.pow_add_r, Z.pow_1_r by lia. ring. }
        split; [exact Hlo|]. intros _.
        destruct (Z.lt_ge_cases (freq0 * 2) 500000) as [Hlt|Hge]; [auto|].
        destruct fuel as [|fuel']; [lia|].
        rewrite pll_prescale_unfold in H1.
        replace (freq0 * 2 <? 500000) with false in H1
          by (symmetry; apply Z.ltb_ge; exact Hge).
        injection H1 as <- _. lia.
    + apply Z.ltb_ge in E. exists 0, freq0, vco_ri. split; [reflexivity|].
      rewrite Z.pow_0_r. lia.
Qed.

(** The checks of lines 117-126 on a pre-scaled frequency: the divider
    and the VCO frequency when they pass. *)
Lemma vco_plan_value (f vco : Z) :
  500000 <= f <= 150000000 -> vco_plan f = Next vco ->
  exists omd, vco = f * omd /\ Z.even omd = true /\ 8 <= omd <= 1202 /\
              600000000 <= vco <= 900000000.
Proof.
  intros Hf. unfold vco_plan. rewrite pll_omd_div_value by lia.
  destruct (omd_bounds f ltac:(lia)) as [Hq Homd]. cbv zeta in Hq, Homd.
  set (q := 600000000 / f) in *. set (omd := 2 * ((q + 3) / 2)) in *.
  assert (Hq1200 : q <= 1200) by (unfold q; apply Z.div_le_upper_bound; lia).
  assert (Hq0 : 0 <= q) by (unfold q; apply Z.div_pos; lia).
  destruct ((omd <? 8) || (2047 <? omd)) eqn:E1; [discriminate|].
  apply orb_false_iff in E1 as [E1 _]. apply Z.ltb_ge in E1.
  cbv zeta.
  assert (Hhi : f * omd <= f * (q + 3)) by (apply Z.mul_le_mono_nonneg_l; lia).
  assert (Hlo : 0 <= f * omd) by (apply Z.mul_nonneg_nonneg; lia).
  rewrite (wrap32_small (f * omd)) by (change (2 ^ 32) with 4294967296; lia).
  unfold SI5351_VCO_MIN, SI5351_VCO_MAX.
  destruct ((f * omd <? 600000000) || (900000000 <? f * omd)) eqn:E2; [discriminate|].
  apply orb_false_iff in E2 as [E2 E3]. apply Z.ltb_ge in E2. apply Z.ltb_ge in E3.
  intros [= <-]. exists omd. split; [reflexivity|].
  split; [apply Z.even_mul|].
  assert (Hev : omd <> 1203).
  { unfold omd. intros H. pose proof (Z.even_mul 2 ((q + 3) / 2)) as He.
    rewrite H in He. discriminate He. }
  lia.
Qed.

(** Above 112.5 MHz the checks fail: the VCO check up to 120 MHz, the
    divider check beyond. *)
Lemma vco_plan_high (f : Z) :
  112500000 < f <= 150000000 ->
  vco_plan f = Return (Failure (if f <=? 120000000 then VcoOutOfRange else OmdOutOfRange)).
Proof.
  intros Hf. unfold vco_plan. rewrite pll_omd_div_value by lia.
  destruct (f <=? 120000000) eqn:E.
  - apply Z.leb_le in E.
    assert (Hq : 600000000 / f = 5).
    { symmetry. apply Z.div_unique_pos with (r := 600000000 - f * 5); lia. }
    rewrite Hq. change (2 * ((5 + 3) / 2)) with 8. cbn [Z.ltb Z.compare orb].
    rewrite (wrap32_small (f * 8)) by (change (2 ^ 32) with 4294967296; lia).
    unfold SI5351_VCO_MIN, SI5351_VCO_MAX.
    replace (900000000 <? f * 8) with true by (symmetry; apply Z.ltb_lt; lia).
    rewrite orb_true_r. reflexivity.
  - apply Z.leb_gt in E.
    assert (Hq : 600000000 / f = 4).
    { symmetry. apply Z.div_unique_pos with (r := 600000000 - f * 4); lia. }
    rewrite Hq. reflexivity.
Qed.

Lemma pll_plannable_dec (s : si5351_t) (i : Z) :
  {pll_plannable s i} + {~ pll_plannable s i}.
Proof.
  unfold pll_plannable.
  destruct (Z_lt_dec (at_index (clk_pll s) i) SI5351_CLOCKS);
    destruct (Z_le_dec 8000 (at_index (freq s) (at_index (clk_pll s) i)));
    destruct (Z_le_dec (at_index (freq s) (at_index (clk_pll s) i)) 112500000);
    (left; lia) || (right; lia).
Qed.

Lemma pll_plan_unplannable (s : si5351_t) (i : Z) :
  ~ pll_plannable s i -> exists e, pll_plan s i = Return (Failure e).
Proof.
  intros Hn. unfold pll_plannable in Hn. unfold pll_plan. cbv zeta.
  destruct (SI5351_CLOCKS <=? at_index (clk_pll s) i) eqn:Em; [eauto|].
  apply Z.leb_gt in Em.
  set (f0 := at_index (freq s) (at_index (clk_pll s) i)) in *.
  destruct ((f0 <? SI5351_MIN_FREQ) || (SI5351_MAX_FREQ <? f0)) eqn:Ef; [eauto|].
  apply freq_check in Ef. unfold freq_in_range, SI5351_MIN_FREQ, SI5351_MAX_FREQ in Ef.
  assert (Hhigh : 112500000 < f0 <= 150000000) by lia.
  change 64%nat with (S 63). rewrite pll_prescale_unfold.
  replace (f0 <? 500000) with false by (symmetry; apply Z.ltb_ge; lia).
  rewrite vco_plan_high by exact Hhigh. eauto.
Qed.

Lemma pll_plan_iff (s : si5351_t) (i : Z) :
  (exists vco, pll_plan s i = Next vco) <-> pll_plannable s i.
Proof.
  split.
  - intros [vco Hv]. destruct (pll_plannable_dec s i) as [H|H]; [exact H|].
    apply pll_plan_unplannable in H as [e He]. congruence.
  - intros [Hm Hf]. apply pll_plan_ok; assumption.
Qed.

(** The VCO frequency planned for a PLL. *)
Lemma pll_plan_value (s : si5351_t) (i vco : Z) :
  pll_plan s i = Next vco ->
  let f := at_index (freq s) (at_index (clk_pll s) i) in
  exists k omd,
    0 <= k <= 6 /\ 500000 <= f * 2 ^ k /\ (0 < k -> f * 2 ^ k < 1000000) /\
    Z.even omd = true /\ 8 <= omd <= 1202 /\
    vco = f * 2 ^ k * omd /\ 600000000 <= vco <= 900000000.
Proof.
  intros Hv f.
  assert (Hp : pll_plannable s i) by (apply pll_plan_iff; eauto).
  destruct Hp as [Hm Hf]. fold f in Hf.
  unfold pll_plan in Hv. cbv zeta in Hv. fold f in Hv.
  apply Z.leb_gt in Hm. rewrite Hm in Hv.
  assert (Ef : (f <? SI5351_MIN_FREQ) || (SI5351_MAX_FREQ <? f) = false).
  { apply freq_check. unfold freq_in_range, SI5351_MIN_FREQ, SI5351_MAX_FREQ. lia. }
  rewrite Ef in Hv.
  destruct (pll_prescale_doubles 6 64 f 0) as (k & f1 & r1 & Hpre & Hk & Hf1 & Hlo & Hhi);
    [lia | change (2 ^ Z.of_nat 6) with 64; lia | lia |].
  rewrite Hpre in Hv.
  assert (Hk0 : 500000 <= f -> k = 0).
  { intros Hge. change 64%nat with (S 63) in Hpre. rewrite pll_prescale_unfold in Hpre.
    replace (f <? 500000) with false in Hpre by (symmetry; apply Z.ltb_ge; lia).
    injection Hpre as E _. rewrite Hf1 in E.
    destruct (Z.eq_dec k 0) as [->|Hne]; [reflexivity|]. exfalso.
    assert (2 <= 2 ^ k) by (change 2 with (2 ^ 1) at 1; apply Z.pow_le_mono_r; lia).
    nia. }
  assert (Hf1max : f1 <= 150000000).
  { destruct (Z.lt_ge_cases f 500000) as [Hlt|Hge]; [specialize (Hhi Hlt); lia|].
    rewrite (Hk0 Hge), Z.pow_0_r in Hf1. lia. }
  destruct (vco_plan_value f1 vco) as (omd & Hvco & Hev & Homd & Hrange);
    [lia | exact Hv |].
  exists k, omd. rewrite <- Hf1.
  split; [cbn in Hk; lia|]. split; [exact Hlo|]. split.
  { intros Hkpos. apply Hhi.
    destruct (Z.lt_ge_cases f 500000) as [Hlt|Hge]; [exact Hlt|].
    specialize (Hk0 Hge). lia. }
  auto.
Qed.

(** X8.  The checks of a PLL stage, by the frequency [f] of its master
    output: they pass exactly for 8 kHz <= f <= 112.5 MHz.  The VCO
    frequency is then f * 2^k * omd, with f * 2^k the first doubling of f
    that reaches 500 kHz and omd an even divider between 8 and 1202, and
    lies between 600 and 900 MHz.  Between 112.5 and 120 MHz the VCO check
    fails, between 120 and 150 MHz the divider check. *)
Theorem pll_plan_spec (s : si5351_t) (i : Z) :
  let f := at_index (freq s) (at_index (clk_pll s) i) in
  ((exists vco, pll_plan s i = Next vco) <-> pll_plannable s i) /\
  (forall vco, pll_plan s i = Next vco ->
     exists k omd,
       0 <= k <= 6 /\ 500000 <= f * 2 ^ k /\ (0 < k -> f * 2 ^ k < 1000000) /\
       Z.even omd = true /\ 8 <= omd <= 1202 /\
       vco = f * 2 ^ k * omd /\ 600000000 <= vco <= 900000000) /\
  (at_index (clk_pll s) i < 8 -> 112500000 < f <= 120000000 ->
   pll_plan s i = Return (Failure VcoOutOfRange)) /\
  (at_index (clk_pll s) i < 8 -> 120000000 < f <= 150000000 ->
   pll_plan s i = Return (Failure OmdOutOfRange)).
Proof.
  intros f.
  split; [apply pll_plan_iff|]. split; [|split].
  - intros vco Hv. exact (pll_plan_value s i vco Hv).
  - intros Hm Hf. unfold pll_plan. cbv zeta. fold f.
    change 8 with SI5351_CLOCKS in Hm. apply Z.leb_gt in Hm. rewrite Hm.
    assert (Ef : (f <? SI5351_MIN_FREQ) || (SI5351_MAX_FREQ <? f) = false).
    { apply freq_check. unfold freq_in_range, SI5351_MIN_FREQ, SI5351_MAX_FREQ. lia. }
    rewrite Ef. change 64%nat with (S 63). rewrite pll_prescale_unfold.
    replace (f <? 500000) with false by (symmetry; apply Z.ltb_ge; lia).
    rewrite vco_plan_high by lia.
    replace (f <=? 120000000) with true by (symmetry; apply Z.leb_le; lia).
    reflexivity.
  - intros Hm Hf. unfold pll_plan. cbv zeta. fold f.
    change 8 with SI5351_CLOCKS in Hm. apply Z.leb_gt in Hm. rewrite Hm.
    assert (Ef : (f <? SI5351_MIN_FREQ) || (SI5351_MAX_FREQ <? f) = false).
    { apply freq_check. unfold freq_in_range, SI5351_MIN_FREQ, SI5351_MAX_FREQ. lia. }
    rewrite Ef. change 64%nat with (S 63). rewrite pll_prescale_unfold.
    replace (f <? 500000) with false by (symmetry; apply Z.ltb_ge; lia).
    rewrite vco_plan_high by lia.
    replace (f <=? 120000000) with false by (symmetry; apply Z.leb_gt; lia).
    reflexivity.
Qed.
(** ** When a pass succeeds *)

Lemma clk_valid_dec (s : si5351_t) (j : Z) : {clk_valid s j} + {~ clk_valid s j}.
Proof.
  unfold clk_valid, freq_in_range.
  destruct (Z.eq_dec (at_index (freq s) j) 0); [left; left; assumption|].
  destruct (Z_lt_dec (at_index (pll s) j) SI5351_PLLS);
    destruct (Z_le_dec SI5351_MIN_FREQ (at_index (freq s) j));
    destruct (Z_le_dec (at_index (freq s) j) SI5351_MAX_FREQ);
    (left; right; lia) || (right; lia).
Qed.

(** The stage of a PLL that cannot be planned returns a failure. *)
Lemma configure_pll_unplannable (s0 : si5351_t) (i : Z) :
  ~ pll_plannable s0 i ->
  steps (fun o => o <> Success) (same_settings s0) (configure_pll i) (fun _ => False).
Proof.
  intros Hn s [v ->]. unfold configure_pll. rewrite bind_get_run.
  change (pll_plan (set_vco_freq v s0) i) with (pll_plan s0 i).
  destruct (pll_plan_unplannable s0 i Hn) as [e ->]. discriminate.
Qed.

(** The stage of a clock that is not valid returns a failure. *)
Lemma configure_clock_invalid (s0 : si5351_t) (i : Z) :
  ~ clk_valid s0 i ->
  steps (fun o => o <> Success) (same_settings s0) (configure_clock i) (fun _ => False).
Proof.
  intros Hn s [v ->]. unfold configure_clock. rewrite bind_get_run.
  assert (Hn' : ~ clk_valid (set_vco_freq v s0) i) by exact Hn.
  unfold clk_valid in Hn'.
  destruct (clk_plan_cases (set_vco_freq v s0) i)
    as [(Hf0 & E) | [(_ & Hp & E) | [(_ & Hp & _ & E) | (Hf & Hp & Hr & _)]]];
    try rewrite E; try discriminate; tauto.
Qed.

Lemma pass_needs_plannable (s : si5351_t) (i : Z) :
  config s = true -> 0 <= i < 2 -> ~ pll_plannable s i ->
  fst (fst (si5351_configure s)) <> Success.
Proof.
  intros Hcfg Hi Hn.
  apply (si5351_configure_pll_stops (fun o => o <> Success) s Hcfg).
  apply steps_for_loop_stop with (j := i).
  - intros x _. apply configure_pll_steps.
    + intros o Ho. apply pll_plan_outcome in Ho as [e ->]. discriminate.
    + discriminate.
  - cbn. lia.
  - apply configure_pll_unplannable. exact Hn.
Qed.

Lemma pass_needs_valid (s : si5351_t) (j : Z) :
  config s = true -> 0 <= j < 8 -> ~ clk_valid s j ->
  fst (fst (si5351_configure s)) <> Success.
Proof.
  intros Hcfg Hj Hn.
  apply (si5351_configure_steps (fun o => o <> Success) s (fun _ => False) Hcfg).
  - apply pll_loop_steps.
  - apply steps_for_loop_stop with (j := j).
    + intros x _. apply configure_clock_steps; discriminate.
    + cbn. lia.
    + apply configure_clock_invalid. exact Hn.
  - intros _ [].
Qed.

(** X9.  With auto-apply enabled and a crystal frequency other than 0, a
    pass succeeds exactly when both PLLs can be planned (their masters
    are outputs with a frequency between 8 kHz and 112.5 MHz) and every
    output is off (frequency 0) or has a PLL in range and a frequency
    between 8 kHz and 150 MHz. *)
Theorem si5351_configure_succeeds_iff (s : si5351_t)
    (Hcfg : config s = true) (Hcf : crystal_freq s <> 0) :
  fst (fst (si5351_configure s)) = Success <->
  (forall i, 0 <= i < 2 -> pll_plannable s i) /\
  (forall j, 0 <= j < 8 -> clk_valid s j).
Proof.
  split.
  - intros Hs. split.
    + intros i Hi. destruct (pll_plannable_dec s i) as [H|H]; [exact H|].
      exfalso. exact (pass_needs_plannable s i Hcfg Hi H Hs).
    + intros j Hj. destruct (clk_valid_dec s j) as [H|H]; [exact H|].
      exfalso. exact (pass_needs_valid s j Hcfg Hj H Hs).
  - intros [Hpll Hclk].
    apply (si5351_configure_steps (fun o => o = Success) s (same_settings s) Hcfg).
    + apply steps_for_loop. intros i Hi. apply configure_pll_steps.
      * intros o Ho. destruct (Hpll i ltac:(cbn in Hi; lia)) as [Hm Hf].
        destruct (pll_plan_ok s i Hm Hf) as [vco Hv]. congruence.
      * contradiction.
    + apply steps_for_loop. intros j Hj.
      destruct (Hclk j ltac:(cbn in Hj; lia)) as [H0|[Hp Hr]].
      * apply configure_clock_steps; intros; contradiction.
      * apply configure_clock_steps; intros; [lia | contradiction].
    + reflexivity.
Qed.

Lemma si5351_configure_succeeds_iff_witness :
  let s := assign_output (initial_state 27000000 SI5351_CRYSTAL_LOAD_8PF)
             0 SI5351_PLL_A 2000000 0 false true in
  config s = true /\ crystal_freq s <> 0 /\
  fst (fst (si5351_configure s)) = Success.
Proof.
  intros s.
  assert (Hcf : crystal_freq s <> 0) by (cbn; lia).
  split; [reflexivity|]. split; [exact Hcf|].
  apply (proj2 (si5351_configure_succeeds_iff s eq_refl Hcf)).
  split.
  - intros i Hi. assert (E : i = 0 \/ i = 1) by lia.
    destruct E as [-> | ->]; unfold pll_plannable;
      change (at_index (clk_pll s) _) with 0;
      change (at_index (freq s) 0) with 2000000; unfold SI5351_CLOCKS; lia.
  - intros j Hj.
    assert (E : j = 0 \/ j = 1 \/ j = 2 \/ j = 3 \/ j = 4 \/ j = 5 \/ j = 6 \/ j = 7)
      by lia.
    destruct E as [-> | [-> | [-> | [-> | [-> | [-> | [-> | ->]]]]]]];
      [right | left; reflexivity ..].
    change (at_index (pll s) 0) with 0. change (at_index (freq s) 0) with 2000000.
    unfold freq_in_range, SI5351_PLLS, SI5351_MIN_FREQ, SI5351_MAX_FREQ. lia.
Defined.

(** ** The VCO frequencies of a pass *)

Lemma configure_pll_cases (s : si5351_t) (i : Z) :
  (exists o s' w, configure_pll i s = (Return o, s', w) /\ o <> Success) \/
  (exists vco w, pll_plan s i = Next vco /\
                 configure_pll i s
                 = (Next tt, set_vco_freq (store (vco_freq s) i vco) s, w)).
Proof.
  unfold configure_pll. rewrite bind_get_run.
  destruct (pll_plan s i) as [vco|o] eqn:Hplan.
  - rewrite bind_modify_run. cbn [crystal_freq set_vco_freq].
    destruct (si5351_calc_multisynth vco (crystal_freq s)) as [p|].
    + right.
      match goal with |- context [write_pll_params i p ?t] =>
        destruct (write_pll_params_run i p t) as [w Hw]; rewrite Hw end.
      exists vco, w. split; reflexivity.
    + left. do 3 eexists. split; [reflexivity | discriminate].
  - left. apply pll_plan_outcome in Hplan as [e ->].
    do 3 eexists. split; [reflexivity | discriminate].
Qed.

(** The clock loop assigns nothing. *)
Lemma clock_loop_state (s : si5351_t) :
  snd (fst (for_loop configure_clock 0 8 s)) = s.
Proof.
  assert (H : holds (fun t => t = s) (fun _ => True) (for_loop configure_clock 0 8)).
  { apply holds_for_loop. intros j _. unfold configure_clock.
    repeat holds_step; try any_write. apply write_clk_params_keeps. }
  specialize (H s eq_refl).
  destruct (for_loop configure_clock 0 8 s) as [[r s'] w]. destruct H as [-> _].
  reflexivity.
Qed.

(** X10.  After a successful pass each of the two VCO frequencies of the
    state is the one planned for its PLL: an even multiple, by a divider
    between 8 and 1202, of the master's frequency doubled up to 500 kHz,
    between 600 and 900 MHz. *)
Theorem si5351_configure_vco (s s' : si5351_t) (w : list reg_write)
    (Hcfg : config s = true) (Hlen : length (vco_freq s) = 2%nat)
    (Hpass : si5351_configure s = (Success, s', w)) :
  forall i, 0 <= i < 2 ->
    let f := at_index (freq s) (at_index (clk_pll s) i) in
    pll_plan s i = Next (at_index (vco_freq s') i) /\
    600000000 <= at_index (vco_freq s') i <= 900000000 /\
    exists k omd,
      0 <= k <= 6 /\ 500000 <= f * 2 ^ k /\ Z.even omd = true /\ 8 <= omd <= 1202 /\
      at_index (vco_freq s') i = f * 2 ^ k * omd.
Proof.
  assert (Hplan : forall i, 0 <= i < 2 -> pll_plan s i = Next (at_index (vco_freq s') i)).
  { unfold si5351_configure, run in Hpass.
    rewrite configure_body_run in Hpass by exact Hcfg.
    unfold configure_stages in Hpass.
    change (for_loop configure_pll 0 2)
      with (bind (configure_pll 0)
              (fun _ => bind (configure_pll (0 + 1)) (fun _ => ret tt))) in Hpass.
    rewrite !bind_assoc_run in Hpass. unfold bind at 1 in Hpass.
    destruct (configure_pll_cases s 0) as [(o & t & w0 & E & Ho) | (vco0 & w0 & Hp0 & E)];
      rewrite E in Hpass; [congruence|].
    set (s1 := set_vco_freq (store (vco_freq s) 0 vco0) s) in *.
    rewrite bind_assoc_run in Hpass. unfold bind at 1 in Hpass.
    destruct (configure_pll_cases s1 (0 + 1)) as [(o & t & w1 & E1 & Ho) | (vco1 & w1 & Hp1 & E1)];
      rewrite E1 in Hpass; [congruence|].
    set (s2 := set_vco_freq (store (vco_freq s1) (0 + 1) vco1) s1) in *.
    rewrite bind_ret_run in Hpass. unfold bind at 1 in Hpass.
    pose proof (clock_loop_state s2) as Hst.
    pose proof (clock_loop_steps s2 s2 (same_settings_refl s2)) as Ho2.
    destruct (for_loop configure_clock 0 8 s2) as [[[[]|o] s3] w3];
      cbn [fst snd] in Hst; subst s3; [|congruence].
    rewrite bind_get_run, bind_write_run in Hpass. cbn [return_] in Hpass.
    assert (Es : s' = s2) by congruence. subst s'.
    intros i Hi. assert (E0 : i = 0 \/ i = 1) by lia.
    change (pll_plan s1 (0 + 1)) with (pll_plan s 1) in Hp1.
    unfold s2, s1. cbn [vco_freq set_vco_freq].
    destruct E0 as [-> | ->].
    - rewrite at_index_store_ne by lia.
      rewrite at_index_store_eq by lia. exact Hp0.
    - change (0 + 1) with 1.
      rewrite at_index_store_eq by (unfold store; rewrite length_insert; lia).
      exact Hp1. }
  intros i Hi f. specialize (Hplan i Hi). split; [exact Hplan|].
  destruct (pll_plan_value s i _ Hplan) as (k & omd & Hk & Hlo & _ & Hev & Homd & Hv & Hr).
  split; [exact Hr|]. exists k, omd. auto 10.
Qed.

Lemma si5351_configure_vco_witness :
  let s := assign_output (initial_state 27000000 SI5351_CRYSTAL_LOAD_8PF)
             0 SI5351_PLL_A 2000000 0 false true in
  let r := si5351_configure s in
  config s = true /\ length (vco_freq s) = 2%nat /\
  r = (Success, snd (fst r), snd r) /\
  pll_plan s 0 = Next (at_index (vco_freq (snd (fst r))) 0) /\
  at_index (vco_freq (snd (fst r))) 0 = 604000000.
Proof.
  intros s r.
  assert (Hpass : r = (Success, snd (fst r), snd r)) by (vm_compute; reflexivity).
  split; [reflexivity|]. split; [reflexivity|]. split; [exact Hpass|].
  split; [|vm_compute; reflexivity].
  exact (proj1 (si5351_configure_vco s (snd (fst r)) (snd r) eq_refl eq_refl Hpass
                  0 ltac:(lia))).
Defined.
(** ** The fields of the packed parameters *)

(** The parameters computed for a quotient between 4 and 2047. *)
Lemma calc_multisynth_fields (f1 f2 : Z) :
  0 <= f1 < 2 ^ 32 -> 0 < f2 < 2 ^ 32 -> 4 <= f1 / f2 <= 2047 ->
  exists p1 p2 p3 num,
    si5351_calc_multisynth f1 f2 = Some (p1, p2, p3) /\
    0 <= p1 < 2 ^ 18 /\ 0 <= p2 < p3 /\ 1 <= p3 <= 1048575 /\ 0 <= num <= p3 /\
    p2 = (128 * num) mod p3 /\
    (p1 + 512) * p3 + p2 = 128 * (f1 / f2 * p3 + num).
Proof.
  intros Hf1 Hf2 Hm. set (mult := f1 / f2) in *.
  destruct (farey_fraction_chip (fractional_part f1 f2 mult)) as (n & d & Hr & Hd & Hn).
  set (q := (128 * n) / d).
  assert (Hq : 0 <= q <= 128).
  { unfold q. split.
    - apply Z.div_pos; lia.
    - apply Z.div_le_upper_bound; lia. }
  assert (Hmod : 128 * n - d * q = (128 * n) mod d).
  { unfold q. pose proof (Z.div_mod (128 * n) d ltac:(lia)). lia. }
  assert (Hrange : 0 <= (128 * n) mod d < d) by (apply Z.mod_pos_bound; lia).
  exists (128 * mult + q - 512), (128 * n - d * q), d, n.
  split.
  - unfold si5351_calc_multisynth.
    assert (Hz : (f2 =? 0) = false) by (apply Z.eqb_neq; lia).
    rewrite Hz. cbv zeta. fold mult. rewrite Hr.
    rewrite (wrap32_small (128 * n)) by lia. fold q.
    rewrite !Z.shiftl_mul_pow2 by lia. change (2 ^ 7) with 128.
    rewrite (wrap32_small (mult * 128)) by lia.
    rewrite (wrap32_small (n * 128)) by lia.
    rewrite (wrap32_small (d * q)) by nia.
    rewrite (wrap32_small (mult * 128 + q - 512)) by lia.
    rewrite (wrap32_small (n * 128 - d * q)) by lia.
    do 3 f_equal; lia.
  - change (2 ^ 18) with 262144.
    split; [lia|]. split; [lia|]. split; [lia|]. split; [lia|].
    split; [exact Hmod | ring].
Qed.

(** X11.  For a 32-bit target and reference with a quotient between 4 and
    2047 the packed parameters fit the fields of the chip: p1 is below
    2^18, p2 is 128 * num modulo den and below p3 = den, which is at most
    1048575.  They encode the ratio mult + num/den without loss:
    (p1 + 512) * p3 + p2 = 128 * (mult * den + num). *)
Theorem si5351_calc_multisynth_fields (f1 f2 : Z)
    (Hf1 : 0 <= f1 < 2 ^ 32) (Hf2 : 0 < f2 < 2 ^ 32) (Hm : 4 <= f1 / f2 <= 2047) :
  exists p1 p2 p3 num,
    si5351_calc_multisynth f1 f2 = Some (p1, p2, p3) /\
    0 <= p1 < 2 ^ 18 /\ 0 <= p2 < p3 /\ 1 <= p3 <= 1048575 /\ 0 <= num <= p3 /\
    p2 = (128 * num) mod p3 /\
    (p1 + 512) * p3 + p2 = 128 * (f1 / f2 * p3 + num).
Proof. exact (calc_multisynth_fields f1 f2 Hf1 Hf2 Hm). Qed.

Lemma si5351_calc_multisynth_fields_witness :
  0 <= 604000000 < 2 ^ 32 /\ 0 < 27000000 < 2 ^ 32 /\
  4 <= 604000000 / 27000000 <= 2047 /\
  exists p1 p2 p3 num,
    si5351_calc_multisynth 604000000 27000000 = Some (p1, p2, p3) /\
    0 <= p1 < 2 ^ 18 /\ 0 <= p2 < p3 /\ 1 <= p3 <= 1048575 /\ 0 <= num <= p3 /\
    p2 = (128 * num) mod p3 /\
    (p1 + 512) * p3 + p2 = 128 * (604000000 / 27000000 * p3 + num).
Proof.
  assert (H1 : 0 <= 604000000 < 2 ^ 32) by lia.
  assert (H2 : 0 < 27000000 < 2 ^ 32) by lia.
  assert (H3 : 4 <= 604000000 / 27000000 <= 2047) by (vm_compute; split; discriminate).
  split; [exact H1|]. split; [exact H2|]. split; [exact H3|].
  exact (si5351_calc_multisynth_fields 604000000 27000000 H1 H2 H3).
Defined.

(** X12.  When the single-precision quotient of target and reference,
    less their integer quotient, is not strictly between 0 and 1, the
    guard of the approximator drops it: the parameters encode the integer
    quotient alone.  This happens also when the quotient rounds up to the
    next integer: for a VCO of 602 MHz and an output of 75250001 Hz the
    single-precision quotient is 8, the integer quotient 7, and the
    parameters are those of a division by 7. *)
Theorem si5351_calc_multisynth_integer (f1 f2 : Z)
    (Hf2 : f2 <> 0)
    (Hguard : farey_degenerate (fractional_part f1 f2 (f1 / f2)) 1048575 = true) :
  si5351_calc_multisynth f1 f2 = Some (wrap32 (Z.shiftl (f1 / f2) 7 - 512), 0, 1).
Proof.
  unfold si5351_calc_multisynth. apply Z.eqb_neq in Hf2. rewrite Hf2. cbv zeta.
  unfold farey_fraction. rewrite Hguard.
  change (wrap32 (128 * 0) / 1) with 0.
  change (wrap32 (wrap32 (Z.shiftl 0 7) - wrap32 (1 * 0))) with 0.
  rewrite Z.add_0_r. do 3 f_equal.
  unfold Z.sub. apply wrap32_add_l.
Qed.

Lemma si5351_calc_multisynth_integer_witness :
  75250001 <> 0 /\
  F32.div (F32.of_Z 602000000) (F32.of_Z 75250001) = F32.of_Z 8 /\
  602000000 / 75250001 = 7 /\
  fractional_part 602000000 75250001 7 = F32.of_Z 1 /\
  si5351_calc_multisynth 602000000 75250001 = Some (128 * 7 - 512, 0, 1).
Proof.
  split; [lia|]. split; [vm_compute; reflexivity|]. split; [reflexivity|].
  split; [vm_compute; reflexivity|].
  refine (si5351_calc_multisynth_integer 602000000 75250001 _ _);
    [lia | vm_compute; reflexivity].
Defined.

(** ** The stage of a clock *)

(** The loop of lines 163-166 doubles the frequency until it reaches
    500 kHz and counts the doublings. *)
Lemma clk_prescale_doubles (n : nat) :
  forall (fuel : nat) (freq0 omd_div : Z),
    0 < freq0 < 2 ^ 31 -> 500000 <= freq0 * 2 ^ Z.of_nat n -> (n < fuel)%nat ->
    0 <= omd_div -> omd_div + Z.of_nat n < 128 ->
    exists k,
      clk_prescale fuel freq0 omd_div = Some (freq0 * 2 ^ k, omd_div + k) /\
      0 <= k <= Z.of_nat n /\ 500000 <= freq0 * 2 ^ k /\
      (0 < k -> freq0 * 2 ^ k < 1000000).
Proof.
  induction n as [|n IH]; intros fuel freq0 omd_div Hf Hn Hfuel Ho Hon;
    (destruct fuel as [|fuel]; [lia|]); rewrite clk_prescale_unfold.
  - assert (E : (freq0 <? 500000) = false) by (apply Z.ltb_ge; cbn in Hn; lia).
    rewrite E. exists 0. rewrite Z.pow_0_r, Z.mul_1_r, Z.add_0_r.
    apply Z.ltb_ge in E. split; [reflexivity | lia].
  - destruct (freq0 <? 500000) eqn:E.
    + apply Z.ltb_lt in E.
      assert (E2 : (omd_div <? 128) = true) by (apply Z.ltb_lt; lia).
      rewrite E2. cbn [andb].
      rewrite (wrap32_small (freq0 * 2)), (wrap32_small (omd_div + 1)) by lia.
      destruct (IH fuel (freq0 * 2) (omd_div + 1)) as (k & H1 & Hk & Hlo & Hhi);
        [lia | rewrite Nat2Z.inj_succ, Z.pow_succ_r in Hn by lia; lia | lia | lia | lia |].
      assert (Epow : freq0 * 2 ^ (k + 1) = freq0 * 2 * 2 ^ k).
      { rewrite Z.pow_add_r, Z.pow_1_r by lia. ring. }
      exists (k + 1). rewrite Epow.
      split; [rewrite H1; do 2 f_equal; lia|].
      split; [lia|]. split; [exact Hlo|]. intros _.
      destruct (Z.eq_dec k 0) as [->|Hk0]; [rewrite Z.pow_0_r; lia | apply Hhi; lia].
    + apply Z.ltb_ge in E. cbn [andb]. exists 0.
      rewrite Z.pow_0_r, Z.mul_1_r, Z.add_0_r. split; [reflexivity | lia].
Qed.

(** The plan of a clock that passes its checks. *)
Lemma clk_plan_value (s : si5351_t) (i : Z) :
  at_index (pll s) i < SI5351_PLLS -> freq_in_range (at_index (freq s) i) ->
  let f := at_index (freq s) i in
  exists k p,
    clk_plan s i = Next (Some (k, p)) /\
    0 <= k <= 6 /\ 500000 <= f * 2 ^ k <= 150000000 /\ (0 < k -> f * 2 ^ k < 1000000) /\
    si5351_calc_multisynth (at_index (vco_freq s) (at_index (pll s) i)) (f * 2 ^ k) = Some p.
Proof.
  intros Hp Hf f. unfold freq_in_range, SI5351_MIN_FREQ, SI5351_MAX_FREQ in Hf. fold f in Hf.
  destruct (clk_prescale_doubles 6 129 f 0) as (k & Hpre & Hk & Hlo & Hhi);
    [lia | change (2 ^ Z.of_nat 6) with 64; lia | lia | lia | cbn; lia |].
  rewrite Z.add_0_l in Hpre.
  destruct (si5351_calc_multisynth_defined
              (at_index (vco_freq s) (at_index (pll s) i)) (f * 2 ^ k)) as [p Hcalc]; [lia|].
  exists k, p. split.
  - unfold clk_plan. fold f.
    replace (f =? 0) with false by (symmetry; apply Z.eqb_neq; lia).
    apply Z.leb_gt in Hp. rewrite Hp. cbv zeta.
    replace ((f <? SI5351_MIN_FREQ) || (SI5351_MAX_FREQ <? f)) with false
      by (symmetry; apply freq_check; unfold freq_in_range, SI5351_MIN_FREQ,
          SI5351_MAX_FREQ; lia).
    rewrite Hpre, Hcalc. reflexivity.
  - split; [cbn in Hk; lia|]. split; [|split; [exact Hhi | exact Hcalc]].
    split; [exact Hlo|].
    destruct (Z.eq_dec k 0) as [->|Hk0]; [rewrite Z.pow_0_r; lia|].
    specialize (Hhi ltac:(lia)). lia.
Qed.

(** X13.  The stage of an output with a PLL in range and a frequency f
    between 8 kHz and 150 MHz divides by a power of two: its divider
    parameters are those of the VCO frequency of its PLL over f * 2^k,
    where f * 2^k is the first doubling of f that reaches 500 kHz, and the
    exponent k, at most 6, goes to the R field. *)
Theorem clk_plan_spec (s : si5351_t) (i : Z)
    (Hp : at_index (pll s) i < SI5351_PLLS)
    (Hf : freq_in_range (at_index (freq s) i)) :
  let f := at_index (freq s) i in
  exists k p,
    clk_plan s i = Next (Some (k, p)) /\
    0 <= k <= 6 /\ 500000 <= f * 2 ^ k <= 150000000 /\ (0 < k -> f * 2 ^ k < 1000000) /\
    si5351_calc_multisynth (at_index (vco_freq s) (at_index (pll s) i)) (f * 2 ^ k) = Some p.
Proof. exact (clk_plan_value s i Hp Hf). Qed.

Lemma clk_plan_spec_witness :
  let s := mk_si5351 27000000 128 [2000000; 10000; 0; 0; 0; 0; 0; 0] (replicate 8 0)
             (replicate 8 0) [0; 0] (replicate 8 0) (replicate 8 0) (replicate 8 0)
             [604000000; 604000000] true in
  at_index (pll s) 1 < SI5351_PLLS /\ freq_in_range (at_index (freq s) 1) /\
  exists k p,
    clk_plan s 1 = Next (Some (k, p)) /\
    0 <= k <= 6 /\ 500000 <= 10000 * 2 ^ k <= 150000000 /\
    (0 < k -> 10000 * 2 ^ k < 1000000) /\
    si5351_calc_multisynth 604000000 (10000 * 2 ^ k) = Some p.
Proof.
  intros s.
  assert (Hp : at_index (pll s) 1 < SI5351_PLLS)
    by (change (at_index (pll s) 1) with 0; unfold SI5351_PLLS; lia).
  assert (Hf : freq_in_range (at_index (freq s) 1)).
  { change (at_index (freq s) 1) with 10000.
    unfold freq_in_range, SI5351_MIN_FREQ, SI5351_MAX_FREQ. lia. }
  split; [exact Hp|]. split; [exact Hf|].
  exact (clk_plan_spec s 1 Hp Hf).
Defined.

(** ** The clock control register *)

Lemma clk_control_value (p inv d : Z) :
  0 <= p < 2 -> 0 <= d < 4 ->
  Z.lor (Z.lor (Z.lor (Z.land (Z.shiftl p 5) 0x20) (if inv =? 0 then 0 else 0x10)) 0x0C)
        (Z.land d 0x03)
  = 32 * p + (if inv =? 0 then 0 else 16) + 12 + d.
Proof.
  intros Hp Hd.
  assert (Ep : p = 0 \/ p = 1) by lia.
  assert (Ed : d = 0 \/ d = 1 \/ d = 2 \/ d = 3) by lia.
  destruct (inv =? 0); destruct Ep as [-> | ->];
    destruct Ed as [-> | [-> | [-> | ->]]]; reflexivity.
Qed.

(** X15.  After [si5351_set] with a valid index, whatever the outcome of
    its pass, the control value of the output is
    32 * pll + 16 * invert + 12 + drive: the PLL of the call in bit 5, its
    invert flag in bit 4, the multisynth as source in bits 3-2, the drive
    strength in bits 1-0, with bit 7 (power down) clear. *)
Theorem clk_control_fields (s : si5351_t) (output : Z) (pll_sel : si5351_PLL_t)
    (freq_hz phase_val : Z) (invert pll_master : bool)
    (Hwf : well_formed s) (Hout : 0 <= output < 8)
    (Hd : 0 <= at_index (clk_drive s) output < 4) :
  let s' := snd (fst (si5351_set s output pll_sel freq_hz phase_val invert pll_master)) in
  clk_control s' output =
    32 * pll_value pll_sel + 16 * Z.b2z invert + 12 + at_index (clk_drive s) output /\
  12 <= clk_control s' output < 64.
Proof.
  intros s'.
  destruct Hwf as (Lf & Lp & Lpl & Lcp & Ld & Li & Ldr & Lv).
  assert (E : clk_control s' output =
              32 * pll_value pll_sel + 16 * Z.b2z invert + 12 + at_index (clk_drive s) output).
  { unfold s', si5351_set.
    replace (SI5351_CLOCKS <=? output) with false
      by (symmetry; apply Z.leb_gt; unfold SI5351_CLOCKS; lia).
    destruct (si5351_configure
                (assign_output s output pll_sel freq_hz phase_val invert pll_master))
      as [[o t] w] eqn:Hpass.
    apply si5351_configure_same_settings in Hpass as [[v ->] _]. cbn [fst snd].
    unfold clk_control. cbn [pll clk_invert clk_drive set_vco_freq].
    rewrite pll_assign_output, clk_drive_assign_output.
    assert (Ei : clk_invert (assign_output s output pll_sel freq_hz phase_val invert
                               pll_master)
                 = store (clk_invert s) output (Z.b2z invert))
      by (unfold assign_output; destruct pll_master; reflexivity).
    rewrite Ei, !at_index_store_eq by lia.
    rewrite clk_control_value; [|destruct pll_sel; cbn; lia | exact Hd].
    destruct invert; reflexivity. }
  split; [exact E|]. rewrite E.
  destruct pll_sel, invert; cbn; lia.
Qed.

Lemma clk_control_fields_witness :
  let s := initial_state 27000000 SI5351_CRYSTAL_LOAD_8PF in
  well_formed s /\ 0 <= 1 < 8 /\
  clk_control (snd (fst (si5351_set s 1 SI5351_PLL_B 2000000 0 true false))) 1 = 60.
Proof.
  intros s.
  assert (Hwf : well_formed s) by (repeat split; reflexivity).
  split; [exact Hwf|]. split; [lia|].
  refine (proj1 (clk_control_fields s 1 SI5351_PLL_B 2000000 0 true false Hwf _ _)).
  - lia.
  - change (at_index (clk_drive s) 1) with 0. lia.
Defined.
(** ** The bytes of a parameter block *)

Lemma land_shiftl_disjoint (hi lo n : Z) :
  0 <= n -> 0 <= lo < 2 ^ n -> Z.land (Z.shiftl hi n) lo = 0.
Proof.
  intros Hn Hlo. apply Z.bits_inj'. intros k Hk.
  rewrite Z.land_spec, Z.bits_0.
  destruct (Z.lt_ge_cases k n) as [Hlt|Hge].
  - rewrite Z.shiftl_spec_low by exact Hlt. reflexivity.
  - replace lo with (lo mod 2 ^ n) by (apply Z.mod_small; exact Hlo).
    rewrite Z.mod_pow2_bits_high by lia. apply andb_false_r.
Qed.

Lemma lor_shiftl_add (hi lo n : Z) :
  0 <= n -> 0 <= lo < 2 ^ n -> Z.lor (Z.shiftl hi n) lo = hi * 2 ^ n + lo.
Proof.
  intros Hn Hlo. pose proof (Z.add_lor_land (Z.shiftl hi n) lo) as H.
  rewrite land_shiftl_disjoint in H by assumption.
  rewrite Z.add_0_r in H. rewrite H. apply Z.add_cancel_r. apply Z.shiftl_mul_pow2. exact Hn.
Qed.

Lemma land_F0 (x : Z) : Z.land x 0xF0 = Z.shiftl (Z.land (Z.shiftr x 4) 0x0F) 4.
Proof.
  apply Z.bits_inj'. intros n Hn.
  change 240 with (Z.shiftl 15 4).
  rewrite Z.land_spec, !Z.shiftl_spec by exact Hn.
  destruct (Z.lt_ge_cases n 4) as [Hlt|Hge].
  - rewrite !(Z.testbit_neg_r _ (n - 4)) by lia. apply andb_false_r.
  - rewrite Z.land_spec, Z.shiftr_spec by lia.
    replace (n - 4 + 4) with n by lia. reflexivity.
Qed.

Lemma byte_low (x : Z) : uint8 (Z.land x 0xFF) = x mod 256.
Proof.
  change 255 with (Z.ones 8). rewrite Z.land_ones by lia. change (2 ^ 8) with 256.
  apply uint8_small. apply Z.mod_pos_bound. lia.
Qed.

Lemma byte_nibble (x : Z) : Z.land x 0x0F = x mod 16.
Proof. change 15 with (Z.ones 4). rewrite Z.land_ones by lia. reflexivity. Qed.

Lemma byte_two_bits (x : Z) : Z.land x 0x03 = x mod 4.
Proof. change 3 with (Z.ones 2). rewrite Z.land_ones by lia. reflexivity. Qed.

Lemma read_params_bytes (b0 b1 b2 b3 b4 b5 b6 b7 : Z) :
  read_params [b0; b1; b2; b3; b4; b5; b6; b7] =
    (b2 mod 4 * 65536 + b3 * 256 + b4,
     b5 mod 16 * 65536 + b6 * 256 + b7,
     b5 / 16 * 65536 + b0 * 256 + b1) /\
  read_rdiv [b0; b1; b2; b3; b4; b5; b6; b7] = b2 / 16.
Proof. split; reflexivity. Qed.

(** The shared byte 5 of a block: the high nibbles of p3 and p2. *)
Lemma byte_nibbles (p2 p3 : Z) :
  0 <= p2 -> 0 <= p3 ->
  uint8 (Z.lor (Z.shiftl (Z.land (Z.shiftr p3 16) 0x0F) 4) (Z.land (Z.shiftr p2 16) 0x0F))
  = (p3 / 65536) mod 16 * 16 + (p2 / 65536) mod 16.
Proof.
  intros H2 H3. rewrite !byte_nibble, !Z.shiftr_div_pow2 by lia.
  change (2 ^ 16) with 65536.
  pose proof (Z.mod_pos_bound (p3 / 65536) 16 ltac:(lia)).
  pose proof (Z.mod_pos_bound (p2 / 65536) 16 ltac:(lia)).
  rewrite lor_shiftl_add by (change (2 ^ 4) with 16; lia).
  change (2 ^ 4) with 16. apply uint8_small. lia.
Qed.

Lemma params_recombine (p1 p2 p3 : Z) :
  0 <= p1 < 2 ^ 18 -> 0 <= p2 < 2 ^ 20 -> 0 <= p3 < 2 ^ 20 ->
  let b5 := (p3 / 65536) mod 16 * 16 + (p2 / 65536) mod 16 in
  (p1 / 65536) mod 4 * 65536 + (p1 / 256) mod 256 * 256 + p1 mod 256 = p1 /\
  b5 mod 16 * 65536 + (p2 / 256) mod 256 * 256 + p2 mod 256 = p2 /\
  b5 / 16 * 65536 + (p3 / 256) mod 256 * 256 + p3 mod 256 = p3.
Proof.
  change (2 ^ 18) with 262144. change (2 ^ 20) with 1048576.
  intros H1 H2 H3 b5. unfold b5. clear b5.
  repeat split; Z.to_euclidean_division_equations; lia.
Qed.

(** The bytes of a block, read back. *)
Lemma params_read_back (s : si5351_t) (i omd_div p1 p2 p3 : Z) :
  0 <= p1 < 2 ^ 18 -> 0 <= p2 < 2 ^ 20 -> 0 <= p3 < 2 ^ 20 -> 0 <= omd_div < 8 ->
  (0 <= i < 2 ->
   exists w, write_pll_params i (p1, p2, p3) s = (Next tt, s, w) /\
             map fst w = map (fun k => 26 + 8 * i + k) [0; 1; 2; 3; 4; 5; 6; 7] /\
             read_params (map snd w) = (p1, p2, p3)) /\
  (0 <= i < 8 ->
   exists w, write_clk_params i omd_div (p1, p2, p3) s = (Next tt, s, w) /\
             map fst w = map (fun k => 42 + 8 * i + k) [0; 1; 2; 3; 4; 5; 6; 7] /\
             read_params (map snd w) = (p1, p2, p3) /\
             read_rdiv (map snd w) = omd_div).
Proof.
  intros H1 H2 H3 Ho.
  destruct (params_recombine p1 p2 p3 H1 H2 H3) as (E1 & E2 & E3). cbv zeta in E2, E3.
  split; intros Hi.
  - unfold write_pll_params, SI5351_REG_MSN_PLL_BASE. cbv zeta.
    rewrite !bind_write_run. unfold write. eexists. split; [reflexivity|].
    cbn [map fst snd]. split.
    + repeat (f_equal; [rewrite uint8_small by lia; lia|]).
      f_equal. rewrite uint8_small by lia. lia.
    + rewrite (proj1 (read_params_bytes _ _ _ _ _ _ _ _)).
      rewrite !byte_low, byte_nibbles by lia.
      rewrite byte_two_bits, !Z.shiftr_div_pow2 by lia.
      change (2 ^ 16) with 65536. change (2 ^ 8) with 256.
      rewrite (uint8_small ((p1 / 65536) mod 4))
        by (pose proof (Z.mod_pos_bound (p1 / 65536) 4 ltac:(lia)); lia).
      rewrite Z.mod_mod by lia.
      rewrite E1, E2, E3. reflexivity.
  - unfold write_clk_params, SI5351_REG_CLK_SYNTH_BASE. cbv zeta.
    rewrite !bind_write_run. unfold write. eexists. split; [reflexivity|].
    cbn [map fst snd]. split; [|split].
    + repeat (f_equal; [rewrite uint8_small by lia; lia|]).
      f_equal. rewrite uint8_small by lia. lia.
    + rewrite (proj1 (read_params_bytes _ _ _ _ _ _ _ _)).
      rewrite land_F0, Z.shiftr_shiftr by lia. change (12 + 4) with 16.
      rewrite !byte_low, byte_nibbles by lia.
      rewrite byte_two_bits, !Z.shiftr_div_pow2 by lia.
      change (2 ^ 16) with 65536. change (2 ^ 8) with 256.
      pose proof (Z.mod_pos_bound (p1 / 65536) 4 ltac:(lia)) as Hb.
      rewrite lor_shiftl_add by (change (2 ^ 4) with 16; lia).
      change (2 ^ 4) with 16.
      rewrite (uint8_small (omd_div * 16 + (p1 / 65536) mod 4)) by lia.
      replace ((omd_div * 16 + (p1 / 65536) mod 4) mod 4) with ((p1 / 65536) mod 4)
        by (Z.to_euclidean_division_equations; lia).
      rewrite E1, E2, E3. reflexivity.
    + rewrite (proj2 (read_params_bytes _ _ _ _ _ _ _ _)).
      rewrite byte_two_bits, !Z.shiftr_div_pow2 by lia.
      change (2 ^ 16) with 65536.
      pose proof (Z.mod_pos_bound (p1 / 65536) 4 ltac:(lia)) as Hb.
      rewrite lor_shiftl_add by (change (2 ^ 4) with 16; lia).
      change (2 ^ 4) with 16.
      rewrite (uint8_small (omd_div * 16 + (p1 / 65536) mod 4)) by lia.
      Z.to_euclidean_division_equations; lia.
Qed.

(** X14.  The eight bytes written for a PLL or a clock hold the three
    parameters without loss when p1 is below 2^18 and p2 and p3 are below
    2^20: they go to eight consecutive registers (from 26 + 8 i for a PLL
    and 42 + 8 i for a clock) and the parameters can be read back from
    them; for a clock the R exponent, below 8, can be read back as
    well. *)
Theorem parameter_block_round_trip (s : si5351_t) (i omd_div p1 p2 p3 : Z)
    (H1 : 0 <= p1 < 2 ^ 18) (H2 : 0 <= p2 < 2 ^ 20) (H3 : 0 <= p3 < 2 ^ 20)
    (Ho : 0 <= omd_div < 8) :
  (0 <= i < 2 ->
   exists w, write_pll_params i (p1, p2, p3) s = (Next tt, s, w) /\
             map fst w = map (fun k => 26 + 8 * i + k) [0; 1; 2; 3; 4; 5; 6; 7] /\
             read_params (map snd w) = (p1, p2, p3)) /\
  (0 <= i < 8 ->
   exists w, write_clk_params i omd_div (p1, p2, p3) s = (Next tt, s, w) /\
             map fst w = map (fun k => 42 + 8 * i + k) [0; 1; 2; 3; 4; 5; 6; 7] /\
             read_params (map snd w) = (p1, p2, p3) /\
             read_rdiv (map snd w) = omd_div).
Proof. exact (params_read_back s i omd_div p1 p2 p3 H1 H2 H3 Ho). Qed.

Lemma parameter_block_round_trip_witness :
  let s := initial_state 27000000 SI5351_CRYSTAL_LOAD_8PF in
  0 <= 2351 < 2 ^ 18 /\ 0 <= 207384 < 2 ^ 20 /\ 0 <= 508952 < 2 ^ 20 /\ 0 <= 0 < 8 /\
  exists w, write_pll_params 0 (2351, 207384, 508952) s = (Next tt, s, w) /\
            map fst w = [26; 27; 28; 29; 30; 31; 32; 33] /\
            read_params (map snd w) = (2351, 207384, 508952).
Proof.
  intros s.
  assert (H1 : 0 <= 2351 < 2 ^ 18) by lia.
  assert (H2 : 0 <= 207384 < 2 ^ 20) by lia.
  assert (H3 : 0 <= 508952 < 2 ^ 20) by lia.
  assert (Ho : 0 <= 0 < 8) by lia.
  split; [exact H1|]. split; [exact H2|]. split; [exact H3|]. split; [exact Ho|].
  exact (proj1 (parameter_block_round_trip s 0 0 2351 207384 508952 H1 H2 H3 Ho)
           ltac:(lia)).
Defined.
(** ** What [si5351_set] leaves alone *)

(** X16.  [si5351_set] changes the frequency, phase, invert flag and PLL
    of the addressed output only, and no disable state, drive strength,
    crystal setting or flag.  It changes the master of the chosen PLL
    only, and only when asked to: an output that was made a master stays
    the master of its PLL when it is set again without [pll_master], also
    on the other PLL.  With an index of 8 or more it returns -1 and
    neither writes nor assigns anything. *)
Theorem si5351_set_frame (s : si5351_t) (output : Z) (pll_sel : si5351_PLL_t)
    (freq_hz phase_val : Z) (invert pll_master : bool) (Hout : 0 <= output) :
  let r := si5351_set s output pll_sel freq_hz phase_val invert pll_master in
  let s' := snd (fst r) in
  (forall j, 0 <= j -> j <> output ->
     at_index (freq s') j = at_index (freq s) j /\
     at_index (phase s') j = at_index (phase s) j /\
     at_index (clk_invert s') j = at_index (clk_invert s) j /\
     at_index (pll s') j = at_index (pll s) j) /\
  clk_dis s' = clk_dis s /\ clk_drive s' = clk_drive s /\
  crystal_freq s' = crystal_freq s /\ crystal_load s' = crystal_load s /\
  config s' = config s /\
  (pll_master = false -> clk_pll s' = clk_pll s) /\
  (forall i, 0 <= i -> i <> pll_value pll_sel ->
     at_index (clk_pll s') i = at_index (clk_pll s) i) /\
  (8 <= output -> r = (Failure OutputIndexOutOfRange, s, []) /\
                  ret_code (fst (fst r)) = Some (-1)).
Proof.
  intros r s'. unfold s', r, si5351_set.
  destruct (SI5351_CLOCKS <=? output) eqn:E.
  - cbn [fst snd]. repeat split; reflexivity.
  - apply Z.leb_gt in E. unfold SI5351_CLOCKS in E.
    destruct (si5351_configure
                (assign_output s output pll_sel freq_hz phase_val invert pll_master))
      as [[o t] w] eqn:Hpass.
    apply si5351_configure_same_settings in Hpass as [[v ->] _]. cbn [fst snd].
    assert (Hp : 0 <= pll_value pll_sel) by (destruct pll_sel; cbn; lia).
    unfold assign_output.
    split; [|destruct pll_master; cbn; repeat split; try reflexivity; try discriminate;
             try lia; intros i Hi Hne; apply at_index_store_ne; lia].
    intros j Hj Hne.
    destruct pll_master; cbn; rewrite !at_index_store_ne by lia; auto.
Qed.

Lemma si5351_set_frame_witness :
  let s := mk_si5351 27000000 128 [2000000; 0; 0; 0; 0; 0; 0; 0] (replicate 8 0)
             (replicate 8 0) [0; 0] (replicate 8 0) (replicate 8 0) (replicate 8 0)
             [604000000; 604000000] true in
  let s' := snd (fst (si5351_set s 0 SI5351_PLL_B 3000000 0 false false)) in
  0 <= 0 /\ clk_pll s' = [0; 0].
Proof.
  intros s s'. split; [lia|].
  pose proof (si5351_set_frame s 0 SI5351_PLL_B 3000000 0 false false ltac:(lia)) as H.
  cbv zeta in H. destruct H as (_ & _ & _ & _ & _ & _ & H & _).
  exact (H eq_refl).
Defined.

(** ** Disable states *)

Lemma store_range_lookup (v : Z) (count : nat) :
  forall (a : list Z) (i j : Z),
    0 <= i -> 0 <= j -> (Z.to_nat i + count <= length a)%nat ->
    at_index (store_range a i count v) j =
      if (i <=? j) && (j <? i + Z.of_nat count) then v else at_index a j.
Proof.
  induction count as [|count IH]; intros a i j Hi Hj Hlen; cbn [store_range].
  - replace ((i <=? j) && (j <? i + Z.of_nat 0)) with false; [reflexivity|].
    symmetry. apply andb_false_iff.
    destruct (Z.le_gt_cases i j); [right; apply Z.ltb_ge; lia | left; apply Z.leb_gt; lia].
  - rewrite IH; [|lia|lia|unfold store; rewrite length_insert; lia].
    destruct (Z.eq_dec i j) as [->|Hne].
    + replace ((j + 1 <=? j) && (j <? j + 1 + Z.of_nat count)) with false
        by (symmetry; apply andb_false_iff; left; apply Z.leb_gt; lia).
      replace ((j <=? j) && (j <? j + Z.of_nat (S count))) with true
        by (symmetry; apply andb_true_iff; split; [apply Z.leb_le | apply Z.ltb_lt]; lia).
      apply at_index_store_eq. lia.
    + rewrite at_index_store_ne by lia.
      destruct (Z.leb_spec (i + 1) j), (Z.leb_spec i j),
        (Z.ltb_spec j (i + 1 + Z.of_nat count)), (Z.ltb_spec j (i + Z.of_nat (S count)));
        cbn [andb]; try reflexivity; lia.
Qed.

(** X17.  [si5351_set_disabled] with a clock between 0 and 7 assigns the
    disable state of that clock and of no other; with ALL (-1) it assigns
    those of all eight clocks; it changes no other setting.  With any
    other clock argument it returns -1 and neither writes nor assigns
    anything. *)
Theorem si5351_set_disabled_effect (s : si5351_t) (clock : Z) (ds : si5351_disable_t)
    (Hwf : well_formed s) :
  let r := si5351_set_disabled s clock ds in
  let s' := snd (fst r) in
  (clock = SI5351_CLOCK_ALL ->
   forall j, 0 <= j < 8 -> at_index (clk_dis s') j = disable_value ds) /\
  (0 <= clock < 8 ->
   at_index (clk_dis s') clock = disable_value ds /\
   forall j, 0 <= j -> j <> clock -> at_index (clk_dis s') j = at_index (clk_dis s) j) /\
  (clock < -1 \/ 8 <= clock ->
   r = (Failure DisableStateIndexOutOfRange, s, []) /\
   ret_code (fst (fst r)) = Some (-1)) /\
  freq s' = freq s /\ phase s' = phase s /\ pll s' = pll s /\ clk_pll s' = clk_pll s /\
  clk_invert s' = clk_invert s /\ clk_drive s' = clk_drive s /\
  crystal_freq s' = crystal_freq s /\ crystal_load s' = crystal_load s /\
  config s' = config s.
Proof.
  intros r s'. destruct Hwf as (Lf & Lp & Lpl & Lcp & Ld & Li & Ldr & Lv).
  unfold s', r, si5351_set_disabled, assign_disabled, SI5351_CLOCK_ALL, SI5351_CLOCKS.
  destruct (Z.eqb_spec clock (-1)) as [->|Hne].
  - cbn [orb].
    destruct (si5351_configure _) as [[o t] w] eqn:Hpass.
    apply si5351_configure_same_settings in Hpass as [[v ->] _]. cbn [fst snd].
    cbn [clk_dis set_vco_freq set_clk_dis].
    split; [|split; [lia|split; [lia|repeat split; reflexivity]]].
    intros _ j Hj. rewrite store_range_lookup by (cbn; lia).
    replace ((0 <=? j) && (j <? 0 + Z.of_nat 8)) with true; [reflexivity|].
    symmetry. apply andb_true_iff. split; [apply Z.leb_le | apply Z.ltb_lt]; lia.
  - cbn [orb].
    destruct ((0 <=? clock) && (clock <? 8)) eqn:E.
    + apply andb_true_iff in E as [E1 E2]. apply Z.leb_le in E1. apply Z.ltb_lt in E2.
      destruct (si5351_configure _) as [[o t] w] eqn:Hpass.
      apply si5351_configure_same_settings in Hpass as [[v ->] _]. cbn [fst snd].
      cbn [clk_dis set_vco_freq set_clk_dis].
      split; [intros; lia|]. split; [|split; [lia|repeat split; reflexivity]].
      intros _. split; [apply at_index_store_eq; lia|].
      intros j Hj Hnej. apply at_index_store_ne; lia.
    + cbn [fst snd]. apply andb_false_iff in E.
      split; [intros; lia|]. split.
      { intros H. exfalso.
        destruct E as [E|E]; [apply Z.leb_gt in E | apply Z.ltb_ge in E]; lia. }
      repeat split; reflexivity.
Qed.

Lemma si5351_set_disabled_effect_witness :
  let s := initial_state 27000000 SI5351_CRYSTAL_LOAD_8PF in
  let s' := snd (fst (si5351_set_disabled s 2 SI5351_DISABLE_HIGH)) in
  well_formed s /\ at_index (clk_dis s') 2 = 1.
Proof.
  intros s s'.
  assert (Hwf : well_formed s) by (repeat split; reflexivity).
  split; [exact Hwf|].
  pose proof (si5351_set_disabled_effect s 2 SI5351_DISABLE_HIGH Hwf) as H.
  cbv zeta in H. destruct H as (_ & H & _).
  exact (proj1 (H ltac:(lia))).
Defined.

(** *** The disable-state registers *)

Lemma disable_byte (d0 d1 d2 d3 : Z) :
  0 <= d0 < 4 -> 0 <= d1 < 4 -> 0 <= d2 < 4 -> 0 <= d3 < 4 ->
  Z.lor (Z.lor (Z.lor (Z.shiftl d3 6) (Z.shiftl d2 4)) (Z.shiftl d1 2)) d0
  = 64 * d3 + 16 * d2 + 4 * d1 + d0.
Proof.
  intros H0 H1 H2 H3.
  assert (E0 : d0 = 0 \/ d0 = 1 \/ d0 = 2 \/ d0 = 3) by lia.
  assert (E1 : d1 = 0 \/ d1 = 1 \/ d1 = 2 \/ d1 = 3) by lia.
  assert (E2 : d2 = 0 \/ d2 = 1 \/ d2 = 2 \/ d2 = 3) by lia.
  assert (E3 : d3 = 0 \/ d3 = 1 \/ d3 = 2 \/ d3 = 3) by lia.
  destruct E0 as [-> | [-> | [-> | ->]]]; destruct E1 as [-> | [-> | [-> | ->]]];
    destruct E2 as [-> | [-> | [-> | ->]]]; destruct E3 as [-> | [-> | [-> | ->]]];
    reflexivity.
Qed.

Lemma clk_dis_valid_at (s : si5351_t) (j : Z) :
  clk_dis_valid s -> 0 <= at_index (clk_dis s) j < 4.
Proof.
  intros H. unfold at_index.
  destruct (clk_dis s !! Z.to_nat j) as [x|] eqn:E; cbn; [|lia].
  exact (proj1 (Forall_lookup _ _) H _ _ E).
Qed.

Lemma disable_value_range (ds : si5351_disable_t) : 0 <= disable_value ds < 4.
Proof. destruct ds; cbn; lia. Qed.

Lemma store_range_valid (v : Z) (count : nat) :
  0 <= v < 4 ->
  forall (a : list Z) (i : Z),
    Forall (fun x => 0 <= x < 4) a -> Forall (fun x => 0 <= x < 4) (store_range a i count v).
Proof.
  intros Hv. induction count as [|count IH]; intros a i Ha; cbn [store_range].
  - exact Ha.
  - apply IH. unfold store. apply Forall_insert; assumption.
Qed.

Lemma run_call_clk_dis_valid (c : call) (s : si5351_t) :
  clk_dis_valid s -> clk_dis_valid (snd (fst (run_call c s))).
Proof.
  unfold clk_dis_valid. intros H.
  destruct c as [output pll_sel f ph inv m| | |clock ds]; unfold run_call.
  - unfold si5351_set. destruct (SI5351_CLOCKS <=? output); [exact H|].
    destruct (si5351_configure _) as [[o t] w] eqn:Hpass.
    apply si5351_configure_same_settings in Hpass as [[v ->] _]. cbn [fst snd].
    unfold assign_output. destruct m; exact H.
  - exact H.
  - unfold si5351_write_batch.
    destruct (si5351_configure _) as [[o t] w] eqn:Hpass.
    apply si5351_configure_same_settings in Hpass as [[v ->] _]. exact H.
  - unfold si5351_set_disabled.
    destruct ((clock =? SI5351_CLOCK_ALL) || ((0 <=? clock) && (clock <? SI5351_CLOCKS)));
      [|exact H].
    destruct (si5351_configure _) as [[o t] w] eqn:Hpass.
    apply si5351_configure_same_settings in Hpass as [[v ->] _]. cbn [fst snd].
    unfold assign_disabled. destruct (clock =? SI5351_CLOCK_ALL);
      cbn [clk_dis set_vco_freq set_clk_dis].
    + apply store_range_valid; [apply disable_value_range | exact H].
    + unfold store. apply Forall_insert; [exact H | apply disable_value_range].
Qed.

Lemma run_calls_clk_dis_valid (cs : list call) :
  forall s, clk_dis_valid s -> clk_dis_valid (fst (run_calls cs s)).
Proof.
  induction cs as [|c cs IH]; intros s H; [exact H|].
  cbn [run_calls]. pose proof (run_call_clk_dis_valid c s H) as Hc.
  destruct (run_call c s) as [[[] s1] w1]; cbn [fst snd] in Hc.
  - specialize (IH s1 Hc). destruct (run_calls cs s1) as [s2 w2]. exact IH.
  - exact Hc.
Qed.

(** ** Repeating a pass *)

Lemma write_pll_params_trace (i : Z) (p : Z * Z * Z) (s t : si5351_t) :
  write_pll_params i p t = (Next tt, t, snd (write_pll_params i p s)).
Proof.
  destruct p as [[pll0 pll1] pll2]. unfold write_pll_params.
  rewrite !bind_write_run. reflexivity.
Qed.

(** The stage of a PLL, by the VCO frequencies it starts from. *)
Lemma configure_pll_vco (s : si5351_t) (v : list Z) (i : Z) :
  configure_pll i (set_vco_freq v s) =
    match pll_plan s i with
    | Return o => (Return o, set_vco_freq v s, [])
    | Next vco =>
        match si5351_calc_multisynth vco (crystal_freq s) with
        | None => (Return Undefined, set_vco_freq (store v i vco) s, [])
        | Some p =>
            (Next tt, set_vco_freq (store v i vco) s, snd (write_pll_params i p s))
        end
    end.
Proof.
  unfold configure_pll. rewrite bind_get_run.
  change (pll_plan (set_vco_freq v s) i) with (pll_plan s i).
  destruct (pll_plan s i) as [vco|o]; [|reflexivity].
  rewrite bind_modify_run.
  change (crystal_freq (set_vco_freq v s)) with (crystal_freq s).
  destruct (si5351_calc_multisynth vco (crystal_freq s)) as [p|]; [|reflexivity].
  apply write_pll_params_trace.
Qed.

Lemma bind_ext_run {A B} (m : M A) (f g : A -> M B) (s : si5351_t) :
  (forall a s1, f a s1 = g a s1) -> bind m f s = bind m g s.
Proof.
  intros H. unfold bind. destruct (m s) as [[[a|o] s1] w1]; [|reflexivity].
  rewrite H. reflexivity.
Qed.

Lemma configure_stages_unfold (s : si5351_t) :
  configure_stages s =
    bind (configure_pll 0)
      (fun _ => bind (configure_pll 1)
         (fun _ => bind (for_loop configure_clock 0 8)
            (fun _ => bind get
               (fun s' => bind (write SI5351_REG_OE (output_enable (freq s') 0 8 0))
                  (fun _ => return_ Success))))) s.
Proof.
  unfold configure_stages.
  change (for_loop configure_pll 0 2)
    with (bind (configure_pll 0) (fun _ => bind (configure_pll 1) (fun _ => ret tt))).
  rewrite bind_assoc_run. apply bind_ext_run. intros _ s1.
  rewrite bind_assoc_run. apply bind_ext_run. intros _ s2.
  rewrite bind_ret_run. reflexivity.
Qed.

(** The stages of a pass that starts from the VCO frequencies it left
    give the same result again. *)
Lemma configure_stages_again (s : si5351_t) (x y : Z) :
  forall (r : flow unit) (s' : si5351_t) (w : list reg_write),
    configure_stages (set_vco_freq [x; y] s) = (r, s', w) ->
    configure_stages s' = (r, s', w).
Proof.
  intros r s' w. rewrite configure_stages_unfold.
  unfold bind at 1. rewrite configure_pll_vco.
  destruct (pll_plan s 0) as [a|o0] eqn:P0.
  2:{ intros [= <- <- <-]. rewrite configure_stages_unfold.
      unfold bind at 1. rewrite configure_pll_vco, P0. reflexivity. }
  destruct (si5351_calc_multisynth a (crystal_freq s)) as [p0|] eqn:C0.
  2:{ intros [= <- <- <-]. rewrite configure_stages_unfold.
      unfold bind at 1. rewrite configure_pll_vco, P0, C0. reflexivity. }
  change (store [x; y] 0 a) with [a; y].
  unfold bind at 1. rewrite configure_pll_vco.
  destruct (pll_plan s 1) as [b|o1] eqn:P1.
  2:{ intros [= <- <- <-]. rewrite configure_stages_unfold.
      unfold bind at 1. rewrite configure_pll_vco, P0, C0.
      change (store [a; y] 0 a) with [a; y].
      unfold bind at 1. rewrite configure_pll_vco, P1. reflexivity. }
  destruct (si5351_calc_multisynth b (crystal_freq s)) as [p1|] eqn:C1.
  2:{ intros [= <- <- <-]. rewrite configure_stages_unfold.
      unfold bind at 1. rewrite configure_pll_vco, P0, C0.
      change (store [a; b] 0 a) with [a; b].
      unfold bind at 1. rewrite configure_pll_vco, P1, C1. reflexivity. }
  change (store [a; y] 1 b) with [a; b].
  set (rest := bind (for_loop configure_clock 0 8) _).
  assert (Hst : snd (fst (rest (set_vco_freq [a; b] s))) = set_vco_freq [a; b] s).
  { unfold rest, bind at 1.
    pose proof (clock_loop_state (set_vco_freq [a; b] s)) as Hc.
    destruct (for_loop configure_clock 0 8 (set_vco_freq [a; b] s)) as [[[[]|o] s3] w3];
      cbn [fst snd] in Hc; subst s3; [|reflexivity].
    rewrite bind_get_run, bind_write_run. reflexivity. }
  destruct (rest (set_vco_freq [a; b] s)) as [[r3 s3] w3] eqn:Erest.
  cbn [fst snd] in Hst. subst s3.
  intros [= <- <- <-]. rewrite configure_stages_unfold.
  unfold bind at 1. rewrite configure_pll_vco, P0, C0.
  change (store [a; b] 0 a) with [a; b].
  unfold bind at 1. rewrite configure_pll_vco, P1, C1.
  change (store [a; b] 1 b) with [a; b].
  fold rest. rewrite Erest. reflexivity.
Qed.

(** X19.  A pass is idempotent: run again from the state it left, it
    returns the same result, writes the same registers with the same
    values and leaves the state as it is.  What a pass writes does not
    depend on the VCO frequencies an earlier pass stored. *)
Theorem si5351_configure_idempotent (s : si5351_t) (o : outcome) (s' : si5351_t)
    (w : list reg_write)
    (Hlen : length (vco_freq s) = 2%nat)
    (Hpass : si5351_configure s = (o, s', w)) :
  si5351_configure s' = (o, s', w).
Proof.
  destruct (config s) eqn:Hcfg.
  - destruct s as [cf cl fr ph pl cp cd ci cdr v c]. cbn [vco_freq config] in *.
    destruct v as [|x [|y [|z v]]]; try discriminate Hlen.
    set (s0 := mk_si5351 cf cl fr ph pl cp cd ci cdr [x; y] c) in *.
    change s0 with (set_vco_freq [x; y] s0) in Hpass.
    unfold si5351_configure, run in Hpass.
    rewrite configure_body_run in Hpass by exact Hcfg.
    destruct (configure_stages (set_vco_freq [x; y] s0)) as [[r1 s1] w1] eqn:E.
    pose proof (configure_stages_again s0 x y r1 s1 w1 E) as E2.
    assert (Hs1 : same_settings s0 s1).
    { pose proof (si5351_configure_holds s0) as H.
      unfold si5351_configure, run in H.
      rewrite configure_body_run in H by exact Hcfg.
      change (configure_stages s0) with (configure_stages (set_vco_freq [x; y] s0)) in H.
      rewrite E in H. destruct r1 as [[]|o1]; exact (proj1 H). }
    assert (Es : s' = s1) by (destruct r1 as [[]|o1]; congruence). subst s'.
    unfold si5351_configure, run.
    rewrite configure_body_run by (destruct Hs1 as [v1 ->]; exact Hcfg).
    rewrite E2.
    assert (Ep : preamble s1 = preamble (set_vco_freq [x; y] s0))
      by (destruct Hs1 as [v1 ->]; reflexivity).
    rewrite Ep. exact Hpass.
  - rewrite si5351_configure_suspended in Hpass by exact Hcfg.
    injection Hpass as <- <- <-. apply si5351_configure_suspended. exact Hcfg.
Qed.

Lemma si5351_configure_idempotent_witness :
  let s := assign_output (initial_state 27000000 SI5351_CRYSTAL_LOAD_8PF)
             0 SI5351_PLL_A 2000000 0 false true in
  let r := si5351_configure s in
  length (vco_freq s) = 2%nat /\
  si5351_configure (snd (fst r)) = (fst (fst r), snd (fst r), snd r).
Proof.
  intros s r. split; [reflexivity|].
  refine (si5351_configure_idempotent s (fst (fst r)) (snd (fst r)) (snd r) eq_refl _).
  unfold r. destruct (si5351_configure s) as [[o t] w]. reflexivity.
Defined.

(** ** The sample program *)

(** ** What a stage writes *)

(** X21.  The stage of an active output with a PLL in range, a frequency f
    in range and a VCO frequency between 600 and 900 MHz divides the VCO
    frequency by f * 2^k with an integer part between 4 and 1800.  It
    writes the parameter block of the output, from which the parameters
    computed by the divider calculator and the exponent k can be read
    back, then the phase and the control register, and assigns
    nothing. *)
Theorem configure_clock_read_back (t : si5351_t) (i : Z)
    (Hi : 0 <= i < 8) (Hact : at_index (freq t) i <> 0)
    (Hp : at_index (pll t) i < SI5351_PLLS)
    (Hf : freq_in_range (at_index (freq t) i))
    (Hv : 600000000 <= at_index (vco_freq t) (at_index (pll t) i) <= 900000000) :
  let f := at_index (freq t) i in
  let vco := at_index (vco_freq t) (at_index (pll t) i) in
  exists k p w,
    configure_clock i t =
      (Next tt, t,
       w ++ [(165 + i, at_index (phase t) i mod 128); (16 + i, uint8 (clk_control t i))]) /\
    map fst w = map (fun j => 42 + 8 * i + j) [0; 1; 2; 3; 4; 5; 6; 7] /\
    read_params (map snd w) = p /\ read_rdiv (map snd w) = k /\
    si5351_calc_multisynth vco (f * 2 ^ k) = Some p /\
    0 <= k <= 6 /\ 4 <= vco / (f * 2 ^ k) <= 1800.
Proof.
  intros f vco.
  destruct (clk_plan_value t i Hp Hf) as (k & p & Hplan & Hk & Hr & _ & Hcalc).
  fold f vco in Hr, Hcalc. set (g := f * 2 ^ k) in *.
  assert (Hq : 4 <= vco / g <= 1800).
  { split; [apply Z.div_le_lower_bound | apply Z.div_le_upper_bound]; lia. }
  destruct (calc_multisynth_fields vco g) as (p1 & p2 & p3 & num & Hc & H1 & H2 & H3 & _);
    [lia | lia | lia |].
  assert (Ep : p = (p1, p2, p3)) by congruence. subst p.
  destruct (proj2 (params_read_back t i k p1 p2 p3 H1 ltac:(lia) ltac:(lia) ltac:(lia)) Hi)
    as (w & Hw & Hregs & Hread & Hrdiv).
  exists k, (p1, p2, p3), w.
  split; [|auto 10].
  unfold configure_clock. rewrite bind_get_run, Hplan.
  unfold bind at 1. rewrite Hw. rewrite !bind_write_run. unfold write.
  do 2 f_equal. unfold SI5351_REG_PHASE_BASE, SI5351_REG_CLK0_CONTROL.
  rewrite (uint8_small (165 + i)), (uint8_small (16 + i)) by lia.
  change 127 with (Z.ones 7). rewrite Z.land_ones by lia. change (2 ^ 7) with 128.
  rewrite (uint8_small (_ mod 128)); [reflexivity|].
  pose proof (Z.mod_pos_bound (at_index (phase t) i) 128). lia.
Qed.

Lemma configure_clock_read_back_witness :
  let t := mk_si5351 27000000 128 [2000000; 10000; 0; 0; 0; 0; 0; 0] (replicate 8 0)
             (replicate 8 0) [0; 0] (replicate 8 0) (replicate 8 0) (replicate 8 0)
             [604000000; 604000000] true in
  0 <= 1 < 8 /\ at_index (freq t) 1 <> 0 /\
  exists k p w,
    configure_clock 1 t =
      (Next tt, t,
       w ++ [(165 + 1, at_index (phase t) 1 mod 128); (16 + 1, uint8 (clk_control t 1))]) /\
    map fst w = map (fun j => 42 + 8 * 1 + j) [0; 1; 2; 3; 4; 5; 6; 7] /\
    read_params (map snd w) = p /\ read_rdiv (map snd w) = k /\
    si5351_calc_multisynth 604000000 (10000 * 2 ^ k) = Some p /\
    0 <= k <= 6 /\ 4 <= 604000000 / (10000 * 2 ^ k) <= 1800.
Proof.
  intros t.
  assert (Hi : 0 <= 1 < 8) by lia.
  assert (Hact : at_index (freq t) 1 <> 0) by (change (at_index (freq t) 1) with 10000; lia).
  split; [exact Hi|]. split; [exact Hact|].
  refine (configure_clock_read_back t 1 Hi Hact _ _ _).
  - change (at_index (pll t) 1) with 0. unfold SI5351_PLLS. lia.
  - change (at_index (freq t) 1) with 10000.
    unfold freq_in_range, SI5351_MIN_FREQ, SI5351_MAX_FREQ. lia.
  - change (at_index (vco_freq t) (at_index (pll t) 1)) with 604000000. lia.
Defined.

(** X22.  The stage of a PLL that can be planned, with a crystal
    frequency between 440 kHz and 150 MHz, multiplies the crystal
    frequency by a ratio with an integer part between 4 and 2047.  It
    stores the planned VCO frequency and writes the parameter block of the
    PLL, from which the parameters computed by the divider calculator can
    be read back. *)
Theorem configure_pll_read_back (t : si5351_t) (i : Z)
    (Hi : 0 <= i < 2) (Hplan : pll_plannable t i)
    (Hcf : 440000 <= crystal_freq t <= 150000000) :
  exists vco p w,
    pll_plan t i = Next vco /\
    configure_pll i t = (Next tt, set_vco_freq (store (vco_freq t) i vco) t, w) /\
    map fst w = map (fun j => 26 + 8 * i + j) [0; 1; 2; 3; 4; 5; 6; 7] /\
    read_params (map snd w) = p /\
    si5351_calc_multisynth vco (crystal_freq t) = Some p /\
    4 <= vco / crystal_freq t <= 2047.
Proof.
  destruct (proj2 (pll_plan_iff t i) Hplan) as [vco Hvco].
  destruct (pll_plan_value t i vco Hvco) as (_ & _ & _ & _ & _ & _ & _ & _ & Hr).
  assert (Hq : 4 <= vco / crystal_freq t <= 2047).
  { split; [apply Z.div_le_lower_bound | apply Z.div_le_upper_bound]; lia. }
  destruct (calc_multisynth_fields vco (crystal_freq t))
    as (p1 & p2 & p3 & num & Hc & H1 & H2 & H3 & _); [lia | lia | lia |].
  set (t1 := set_vco_freq (store (vco_freq t) i vco) t).
  destruct (proj1 (params_read_back t1 i 0 p1 p2 p3 H1 ltac:(lia) ltac:(lia) ltac:(lia)) Hi)
    as (w & Hw & Hregs & Hread).
  exists vco, (p1, p2, p3), w.
  split; [exact Hvco|]. split; [|auto 10].
  unfold configure_pll. rewrite bind_get_run, Hvco, bind_modify_run.
  rewrite Hc. exact Hw.
Qed.

Lemma configure_pll_read_back_witness :
  let t := assign_output (initial_state 27000000 SI5351_CRYSTAL_LOAD_8PF)
             0 SI5351_PLL_A 2000000 0 false true in
  0 <= 0 < 2 /\ pll_plannable t 0 /\ 440000 <= crystal_freq t <= 150000000 /\
  exists vco p w,
    pll_plan t 0 = Next vco /\
    configure_pll 0 t = (Next tt, set_vco_freq (store (vco_freq t) 0 vco) t, w) /\
    map fst w = map (fun j => 26 + 8 * 0 + j) [0; 1; 2; 3; 4; 5; 6; 7] /\
    read_params (map snd w) = p /\
    si5351_calc_multisynth vco (crystal_freq t) = Some p /\
    4 <= vco / crystal_freq t <= 2047.
Proof.
  intros t.
  assert (Hi : 0 <= 0 < 2) by lia.
  assert (Hp : pll_plannable t 0).
  { unfold pll_plannable. change (at_index (clk_pll t) 0) with 0.
    change (at_index (freq t) 0) with 2000000. unfold SI5351_CLOCKS. lia. }
  assert (Hcf : 440000 <= crystal_freq t <= 150000000) by (cbn; lia).
  split; [exact Hi|]. split; [exact Hp|]. split; [exact Hcf|].
  exact (configure_pll_read_back t 0 Hi Hp Hcf).
Defined.
(** ** Checks that cannot fail *)

Lemma Forall_at_index (P : Z -> Prop) (a : list Z) (i : Z) :
  P 0 -> Forall P a -> P (at_index a i).
Proof.
  intros H0 H. unfold at_index.
  destruct (a !! Z.to_nat i) as [x|] eqn:E; cbn; [|exact H0].
  exact (proj1 (Forall_lookup _ _) H _ _ E).
Qed.

(** With a master in range, the checks of a PLL fail on the frequency,
    the divider or the VCO frequency only. *)
Lemma pll_plan_no_index_failure (s : si5351_t) (i : Z) (o : outcome) :
  at_index (clk_pll s) i < SI5351_CLOCKS ->
  pll_plan s i = Return o -> ~ index_failure o.
Proof.
  intros Hm. unfold pll_plan. cbv zeta.
  apply Z.leb_gt in Hm. rewrite Hm.
  set (f0 := at_index (freq s) (at_index (clk_pll s) i)).
  destruct ((f0 <? SI5351_MIN_FREQ) || (SI5351_MAX_FREQ <? f0)) eqn:Ef.
  { intros [= <-] [H|H]; discriminate H. }
  apply freq_check in Ef. unfold freq_in_range, SI5351_MIN_FREQ, SI5351_MAX_FREQ in Ef.
  destruct (pll_prescale_defined 6 64 f0 0) as (f1 & r1 & Hpre & Hf1);
    [lia | change (2 ^ Z.of_nat 6) with 64; lia | lia |].
  rewrite Hpre. unfold vco_plan. rewrite pll_omd_div_value by lia.
  destruct ((_ <? 8) || (2047 <? _)); [intros [= <-] [H|H]; discriminate H|].
  cbv zeta. destruct ((_ <? SI5351_VCO_MIN) || (SI5351_VCO_MAX <? _));
    [intros [= <-] [H|H]; discriminate H | discriminate].
Qed.

Lemma si5351_configure_no_index_failure (s : si5351_t) :
  indices_valid s -> ~ index_failure (fst (fst (si5351_configure s))).
Proof.
  intros [Hm Hp]. destruct (config s) eqn:Hcfg.
  - apply (si5351_configure_steps (fun o => ~ index_failure o) s (same_settings s) Hcfg).
    + apply steps_for_loop. intros i _. apply configure_pll_steps.
      * intros o. apply pll_plan_no_index_failure.
        apply (Forall_at_index (fun x => x < SI5351_CLOCKS));
          [unfold SI5351_CLOCKS; lia | exact Hm].
      * intros _ [H|H]; discriminate H.
    + apply steps_for_loop. intros i _. apply configure_clock_steps.
      * intros _ Hge. exfalso.
        assert (H : at_index (pll s) i < SI5351_PLLS).
        { apply (Forall_at_index (fun x => x < SI5351_PLLS));
            [unfold SI5351_PLLS; lia | exact Hp]. }
        lia.
      * intros _ _ [H|H]; discriminate H.
    + intros _ _ [H|H]; discriminate H.
  - rewrite si5351_configure_suspended by exact Hcfg.
    intros [H|H]; discriminate H.
Qed.

Lemma indices_valid_assign_output (s : si5351_t) (output : Z) (pll_sel : si5351_PLL_t)
    (freq_hz phase_val : Z) (invert pll_master : bool) :
  output < SI5351_CLOCKS -> indices_valid s ->
  indices_valid (assign_output s output pll_sel freq_hz phase_val invert pll_master).
Proof.
  intros Hout [Hm Hp]. unfold indices_valid, assign_output.
  assert (Hv : pll_value pll_sel < SI5351_PLLS) by apply pll_value_range.
  destruct pll_master; cbn [clk_pll pll set_clk_pll set_pll set_clk_invert set_phase set_freq];
    (split; [|unfold store; apply Forall_insert; assumption]).
  - unfold store. apply Forall_insert; assumption.
  - exact Hm.
Qed.

Lemma run_call_indices_valid (c : call) (s : si5351_t) :
  indices_valid s -> indices_valid (snd (fst (run_call c s))).
Proof.
  intros H.
  assert (Hpass : forall t, indices_valid t ->
            indices_valid (snd (fst (si5351_configure t)))).
  { intros t Ht. destruct (si5351_configure t) as [[o t'] w] eqn:E.
    apply si5351_configure_same_settings in E as [[v ->] _]. exact Ht. }
  destruct c as [output pll_sel f ph inv m| | |clock ds]; unfold run_call.
  - unfold si5351_set. destruct (SI5351_CLOCKS <=? output) eqn:E; [exact H|].
    apply Z.leb_gt in E.
    specialize (Hpass (assign_output s output pll_sel f ph inv m)
                  (indices_valid_assign_output s output pll_sel f ph inv m E H)).
    destruct (si5351_configure _) as [[o t'] w]. exact Hpass.
  - exact H.
  - unfold si5351_write_batch. specialize (Hpass (set_config true s) H).
    destruct (si5351_configure _) as [[o t'] w]. exact Hpass.
  - unfold si5351_set_disabled.
    destruct ((clock =? SI5351_CLOCK_ALL) || ((0 <=? clock) && (clock <? SI5351_CLOCKS)));
      [|exact H].
    assert (Ht : indices_valid (assign_disabled s clock ds)).
    { unfold assign_disabled. destruct (clock =? SI5351_CLOCK_ALL); exact H. }
    specialize (Hpass _ Ht).
    destruct (si5351_configure _) as [[o t'] w]. exact Hpass.
Qed.

Lemma run_calls_indices_valid (cs : list call) :
  forall s, indices_valid s -> indices_valid (fst (run_calls cs s)).
Proof.
  induction cs as [|c cs IH]; intros s H; [exact H|].
  cbn [run_calls]. pose proof (run_call_indices_valid c s H) as Hc.
  destruct (run_call c s) as [[[] s1] w1]; cbn [fst snd] in Hc.
  - specialize (IH s1 Hc). destruct (run_calls cs s1) as [s2 w2]. exact IH.
  - exact Hc.
Qed.

